(** * GitHub release and branch downloader: model and verified properties

    The repository holds two variants of one script:
    - [src/github_downloader.py], which tracks a single repository given on
      the command line (module [Single] below), and
    - [src/Experimantal/github_downloader.py], which tracks every repository
      listed in a text file (module [Multi] below).

    Both poll the GitHub REST API, compare the answer with a small state
    file, download release assets or a branch archive when the answer is
    new, and rewrite the state file.  The Python functions are embedded as
    computations of a monad that threads the local file store, carries
    exceptions and collects the observable events in order (HTTP
    requests, log lines, directory creation, scheduler registrations).

    Conventions of the model:
    - a JSON answer is the record of the fields the scripts read from it;
    - a file that exists can be read; whether a file can be opened for
      writing is decided by the environment, path by path;
    - files are keyed by the path string the script builds, without
      normalisation, and a text is read back as it was stored; a write to
      a file that could be opened completes; directories can be created
      and [urlparse] returns.  Where a property depends on one of these,
      it carries the precondition under which the script does the same
      on a real disk: [distinct_files], [no_carriage_return],
      [read_as_stored], [bracket_free];
    - [main] is followed up to the scheduler loop; the loop itself, which
      only waits and calls [daily_check], is not part of the model. *)

From Stdlib Require Import String Ascii List Bool Arith Lia.
From stdpp Require Import base option strings gmap fin_maps.
Import ListNotations.

Local Open Scope string_scope.
Local Open Scope list_scope.
Local Open Scope nat_scope.

(** ** Python string primitives

    Characters are code points below 256; [str.strip], [str.split]
    and their relatives are written out on [string]. *)

Module Py.

Definition chr (n : nat) : ascii := ascii_of_nat n.

Definition nl : string := String (chr 10) EmptyString.

(** [str.isspace] on one code point below 256. *)
Definition isspace (c : ascii) : bool :=
  let n := nat_of_ascii c in
  ((9 <=? n) && (n <=? 13)) || ((28 <=? n) && (n <=? 32))
  || (n =? 133) || (n =? 160).

Definition is_char (c : ascii) : ascii -> bool := fun d => Ascii.eqb d c.

Fixpoint lstrip (p : ascii -> bool) (s : string) : string :=
  match s with
  | EmptyString => EmptyString
  | String c s' => if p c then lstrip p s' else s
  end.

Fixpoint rstrip (p : ascii -> bool) (s : string) : string :=
  match s with
  | EmptyString => EmptyString
  | String c s' =>
      match rstrip p s' with
      | EmptyString => if p c then EmptyString else String c EmptyString
      | r => String c r
      end
  end.

(** [s.strip()] is [strip isspace s]; [s.strip("/")] is
    [strip (is_char "/") s]. *)
Definition strip (p : ascii -> bool) (s : string) : string :=
  rstrip p (lstrip p s).

(** Cutting a string at every character that satisfies [p]: never the
    empty list. *)
Fixpoint split_by (p : ascii -> bool) (s : string) : list string :=
  match s with
  | EmptyString => [EmptyString]
  | String c s' =>
      if p c then EmptyString :: split_by p s'
      else match split_by p s' with
           | [] => [String c EmptyString]
           | w :: ws => String c w :: ws
           end
  end.

(** [s.split(sep)] for a one-character separator;
    [''.split(',') == ['']]. *)
Definition split (sep : ascii) (s : string) : list string :=
  split_by (is_char sep) s.

(** The lines a text file yields when iterated (universal newlines), up
    to empty lines and line ends, which the callers strip. *)
Definition lines (s : string) : list string :=
  split_by (fun c => Ascii.eqb c (chr 10) || Ascii.eqb c (chr 13)) s.

Definition nonempty (s : string) : bool :=
  match s with
  | EmptyString => false
  | _ => true
  end.

(** [s.split(sep, 1)] when [sep] occurs: the text before and after the
    first occurrence; [None] when it does not occur. *)
Fixpoint partition (sep : ascii -> bool) (s : string) : option (string * string) :=
  match s with
  | EmptyString => None
  | String c s' =>
      if sep c then Some (EmptyString, s')
      else match partition sep s' with
           | Some (a, b) => Some (String c a, b)
           | None => None
           end
  end.

Fixpoint count (c : ascii) (s : string) : nat :=
  match s with
  | EmptyString => 0
  | String d s' => (if Ascii.eqb d c then 1 else 0) + count c s'
  end.

Fixpoint forallb_str (p : ascii -> bool) (s : string) : bool :=
  match s with
  | EmptyString => true
  | String c s' => p c && forallb_str p s'
  end.

Fixpoint remove_chars (p : ascii -> bool) (s : string) : string :=
  match s with
  | EmptyString => EmptyString
  | String c s' => if p c then remove_chars p s' else String c (remove_chars p s')
  end.

Definition is_upper (c : ascii) : bool :=
  let n := nat_of_ascii c in (65 <=? n) && (n <=? 90).
Definition is_lower (c : ascii) : bool :=
  let n := nat_of_ascii c in (97 <=? n) && (n <=? 122).
Definition is_digit (c : ascii) : bool :=
  let n := nat_of_ascii c in (48 <=? n) && (n <=? 57).
Definition is_alpha (c : ascii) : bool := is_upper c || is_lower c.

Definition lower_char (c : ascii) : ascii :=
  if is_upper c then chr (nat_of_ascii c + 32) else c.

Fixpoint lower (s : string) : string :=
  match s with
  | EmptyString => EmptyString
  | String c s' => String (lower_char c) (lower s')
  end.

(** The f-string rendering of a value that may be [None]. *)
Definition fmt (o : option string) : string :=
  match o with
  | Some s => s
  | None => "None"
  end.

(** Truthiness of [str | None]: [None] and [''] are falsy. *)
Definition truthy (o : option string) : bool :=
  match o with
  | Some (String _ _) => true
  | _ => false
  end.

End Py.

(** ** Library functions the scripts call

    [urllib.parse.urlparse(url).path] and [os.path.join] (POSIX flavour)
    belong to the Python standard library, not to the repository; they are
    modelled here as far as the scripts use them.  [urlparse] is followed
    through its generic syntax
    [scheme://netloc/path;params?query#fragment]; the validation of
    bracketed IPv6 hosts and of non-ASCII host names, which can only raise
    [ValueError], is outside the model. *)

Module Lib.

Definition scheme_char (c : ascii) : bool :=
  Py.is_alpha c || Py.is_digit c
  || Ascii.eqb c "+" || Ascii.eqb c "-" || Ascii.eqb c ".".

Definition uses_params : list string :=
  [""; "ftp"; "hdl"; "prospero"; "http"; "imap"; "https"; "shttp"; "rtsp";
   "rtspu"; "sip"; "sips"; "mms"; "sftp"; "tel"].

Definition in_list (s : string) (l : list string) : bool :=
  existsb (String.eqb s) l.

(** Leading C0 controls and spaces are dropped, tab and line breaks are
    removed everywhere. *)
Definition sanitize (url : string) : string :=
  Py.remove_chars
    (fun c => Ascii.eqb c (Py.chr 9) || Ascii.eqb c (Py.chr 10) || Ascii.eqb c (Py.chr 13))
    (Py.lstrip (fun c => nat_of_ascii c <=? 32) url).

(** The scheme, if the text before the first [':'] is a valid one, and the
    rest of the URL. *)
Definition split_scheme (url : string) : string * string :=
  match url with
  | String c0 _ =>
      if Py.is_alpha c0 then
        match Py.partition (Py.is_char ":") url with
        | Some (pre, rest) =>
            if Py.forallb_str scheme_char pre then (Py.lower pre, rest)
            else (EmptyString, url)
        | None => (EmptyString, url)
        end
      else (EmptyString, url)
  | EmptyString => (EmptyString, url)
  end.

Definition netloc_delim (c : ascii) : bool :=
  Ascii.eqb c "/" || Ascii.eqb c "?" || Ascii.eqb c "#".

Fixpoint drop_until (p : ascii -> bool) (s : string) : string :=
  match s with
  | EmptyString => EmptyString
  | String c s' => if p c then s else drop_until p s'
  end.

(** What is left of the URL after [//netloc]. *)
Definition skip_netloc (url : string) : string :=
  match url with
  | String "/" (String "/" rest) => drop_until netloc_delim rest
  | _ => url
  end.

Definition before (p : ascii -> bool) (s : string) : string :=
  match Py.partition p s with
  | Some (a, _) => a
  | None => s
  end.

(** [_splitparams]: the parameters are those of the last path segment. *)
Fixpoint drop_params (s : string) : string :=
  match s with
  | EmptyString => EmptyString
  | String c s' =>
      if Ascii.eqb c ";" then
        if 0 <? Py.count "/" s' then String c (drop_params s') else EmptyString
      else String c (drop_params s')
  end.

Definition urlparse_path (url : string) : string :=
  let '(scheme, rest) := split_scheme (sanitize url) in
  let rest := skip_netloc rest in
  let rest := before (Py.is_char "#") rest in
  let rest := before (Py.is_char "?") rest in
  if in_list scheme uses_params then drop_params rest else rest.

Fixpoint endswith (c : ascii) (s : string) : bool :=
  match s with
  | EmptyString => false
  | String d EmptyString => Ascii.eqb d c
  | String _ s' => endswith c s'
  end.

(** [posixpath.join(a, b)]: an absolute [b] replaces [a]; otherwise one
    separator is put between them unless [a] is empty or already ends
    with one. *)
Definition os_path_join (a b : string) : string :=
  match b with
  | String "/" _ => b
  | _ =>
      match a with
      | EmptyString => b
      | _ => if endswith "/" a then a +:+ b else a +:+ "/" +:+ b
      end
  end.

(** The loop of [posixpath.normpath] over the components of a relative
    path: empty components and [.] are dropped, [..] takes the component
    before it away, or stays when there is none.  [new_comps] holds the
    components kept so far, the last one first. *)
Fixpoint normpath_comps (new_comps comps : list string) : list string :=
  match comps with
  | [] => rev new_comps
  | comp :: rest =>
      if String.eqb comp "" || String.eqb comp "." then normpath_comps new_comps rest
      else if String.eqb comp ".." then
        match new_comps with
        | [] => normpath_comps [comp] rest
        | last :: before =>
            if String.eqb last ".." then normpath_comps (comp :: new_comps) rest
            else normpath_comps before rest
        end
      else normpath_comps (comp :: new_comps) rest
  end.

(** Where a relative path leads below the working directory: the
    components of its normal form.  [None] for an absolute path and for a
    path that leaves the working directory. *)
Definition below_cwd (path : string) : option (list string) :=
  match path with
  | String "/" _ => None
  | _ =>
      match normpath_comps [] (Py.split "/" path) with
      | ".." :: _ => None
      | comps => Some comps
      end
  end.

End Lib.

(** ** The world the scripts run in *)

(** The exceptions that can travel through the scripts.  [HTTPError] is
    raised by [raise_for_status]; [RequestException] stands for every other
    subclass of [requests.exceptions.RequestException] (connection failure,
    timeout, broken stream); [ValueError] comes from unpacking the split
    state record; [OSError] from opening a file; [SystemExit] from
    [exit(1)]. *)
Inductive exn : Type :=
| HTTPError
| RequestException
| ValueError
| OSError
| SystemExit.

(** [isinstance(e, requests.exceptions.RequestException)] *)
Definition is_RequestException (e : exn) : bool :=
  match e with
  | HTTPError | RequestException => true
  | _ => false
  end.

(** [isinstance(e, requests.exceptions.HTTPError)] *)
Definition is_HTTPError (e : exn) : bool :=
  match e with
  | HTTPError => true
  | _ => false
  end.

(** [isinstance(e, Exception)]: everything but [SystemExit]. *)
Definition is_Exception (e : exn) : bool :=
  match e with
  | SystemExit => false
  | _ => true
  end.

(** One constructor per logging call of the two scripts; the optional
    argument is present in the multi-repository variant only. *)
Inductive message : Type :=
| MsgInvalidUrl (repo_url : option string)
    (* error: Ungueltige GitHub-URL ... *)
| MsgDownloaded (dest : string)
    (* info: Heruntergeladen: {dest} *)
| MsgDownloadFailed (url : string) (e : exn)
    (* error: Fehler beim Herunterladen von {url}: {e} *)
| MsgAsset (asset_name : string)
    (* info: Herunterladen des Release-Assets: {asset_name} *)
| MsgNotesGenerated (path : option string)
    (* info: Release-Notizen generiert *)
| MsgReleaseCurrent (version : string)
    (* info: Neueste Veroeffentlichung ({version}) bereits heruntergeladen. *)
| MsgReleaseFound (version : string)
    (* info: Neue Veroeffentlichung gefunden: {version}. Download beginnt... *)
| MsgReleaseStateUpdated (version : string)
    (* info: Versionsinfo aktualisiert: {version} *)
| MsgReleaseHttpError (e : exn)
    (* error: HTTP-Fehler beim Abrufen der neuesten Veroeffentlichung: {e} *)
| MsgReleaseUnknownError (e : exn)
    (* error: Unbekannter Fehler bei der Ueberpruefung der Veroeffentlichung: {e} *)
| MsgBranchCurrent
    (* info: Hauptbranch ist auf dem neuesten Stand. *)
| MsgBranchFound
    (* info: Neuer Commit im Hauptbranch gefunden. Download beginnt... *)
| MsgBranchStateUpdated (sha : string)
    (* info: Hauptbranch-Version aktualisiert: {sha} *)
| MsgBranchHttpError (e : exn)
    (* error: HTTP-Fehler beim Abrufen des neuesten Commits: {e} *)
| MsgBranchUnknownError (e : exn)
    (* error: Unbekannter Fehler bei der Ueberpruefung des Hauptbranches: {e} *)
| MsgInitial (repo : option string)
    (* info: Initialer Download ... *)
| MsgDailyStart (repo : option string)
    (* info: Taegliche Ueberpruefung ... gestartet *)
| MsgDailyDone (repo : option string)
    (* info: Taegliche Ueberpruefung abgeschlossen *)
| MsgScheduled (schedule_time repo : string)
    (* info: Geplante taegliche Pruefungen um {schedule_time} Uhr fuer Repository: {repo} *)
| MsgRunning (schedule_time : string)
    (* info: Update-Pruefer laeuft. ... *)
| MsgReposFileMissing (file_path : string)
    (* error: Repositories-Datei nicht gefunden: {file_path} *)
| MsgReposLoaded (n : nat)
    (* info: {n} Repository(ies) geladen. *).

Inductive level : Type := INFO | ERROR.

(** The arguments [daily_check] is registered with; the single-repository
    variant registers it without arguments. *)
Record job : Type := Job {
  job_owner : string;
  job_repo : string;
  job_api_url : string;
  job_repo_dir : string;
  job_releases_dir : string
}.

(** What the scripts do that can be seen from outside, in order. *)
Inductive event : Type :=
| Get (url : string) (stream : bool)     (* requests.get(url[, stream=True]) *)
| Log (lvl : level) (m : message)        (* logging.info / logging.error *)
| Makedirs (path : string)               (* os.makedirs(path, exist_ok=True) *)
| EveryDayAt (schedule_time : string) (j : option job).
                                         (* schedule.every().day.at(t).do(daily_check, ...) *)

(** A streamed GET is a download; the metadata requests are not streamed. *)
Definition is_download (e : event) : bool :=
  match e with
  | Get _ true => true
  | _ => false
  end.

(** The local file store, keyed by the path as the script spells it. *)
Abbreviation Files := (gmap string string).

(** *** The remote side and the local disk *)

Record Asset : Type := mkAsset {
  name : string;
  browser_download_url : string
}.

Record Release : Type := mkRelease {
  tag_name : string;
  target_commitish : string;
  assets : list Asset
}.

(** One element of the commit list handed to [generate_release_notes]
    and the answer of [GET /commits/{branch}]. *)
Record Commit : Type := mkCommit {
  sha : string;
  commit_message : string;
  commit_author_name : string;
  commit_author_date : string
}.

(** How a GET ends: a 2xx answer with its decoded payload, an answer on
    which [raise_for_status] raises, or no answer at all. *)
Inductive Reply (A : Type) : Type :=
| Success (a : A)
| HttpFailure
| NetworkFailure.
Arguments Success {A} a.
Arguments HttpFailure {A}.
Arguments NetworkFailure {A}.

(** A streamed body either arrives whole or breaks after a prefix. *)
Inductive Body : Type :=
| Complete (data : string)
| Interrupted (partial : string).

Record Env : Type := mkEnv {
  api_release : string -> Reply Release;   (* by request URL *)
  api_commit : string -> Reply Commit;
  download : string -> Reply Body;
  writable : string -> bool                (* can open(path, 'w') succeed *)
}.

(** ** The monad of the embedding

    A computation reads and updates the file store, may raise, and
    produces the events it causes in order.  The scripts never read back
    what they logged or requested, so the events are output only. *)

Inductive Result (A : Type) : Type :=
| Val (a : A)
| Raise (e : exn).
Arguments Val {A} a.
Arguments Raise {A} e.

Record Run (A : Type) : Type := mkRun {
  result : Result A;
  store : Files;
  events : list event
}.
Arguments mkRun {A} result store events.
Arguments result {A} r.
Arguments store {A} r.
Arguments events {A} r.

Definition M (A : Type) : Type := Files -> Run A.

Definition ret {A} (a : A) : M A := fun files => mkRun (Val a) files [].

Definition raise {A} (e : exn) : M A := fun files => mkRun (Raise e) files [].

(** [r] first, then whatever [k] does from where [r] stopped. *)
Definition and_then {A B} (r : Run A) (k : A -> M B) : Run B :=
  match r with
  | mkRun (Val a) files evs =>
      match k a files with
      | mkRun res files' evs' => mkRun res files' (evs ++ evs')
      end
  | mkRun (Raise e) files evs => mkRun (Raise e) files evs
  end.

Definition bind {A B} (m : M A) (k : A -> M B) : M B :=
  fun files => and_then (m files) k.

(** [try: body  except <clauses>]: the first clause whose class matches
    handles the exception; an exception no clause matches propagates. *)
Fixpoint handle {A} (clauses : list ((exn -> bool) * (exn -> M A))) (e : exn) : M A :=
  match clauses with
  | [] => raise e
  | (matches, handler) :: rest =>
      if matches e then handler e else handle rest e
  end.

Definition try_except {A} (body : M A) (clauses : list ((exn -> bool) * (exn -> M A))) : M A :=
  fun files =>
    match body files with
    | mkRun (Val a) files' evs => mkRun (Val a) files' evs
    | mkRun (Raise e) files' evs =>
        match handle clauses e files' with
        | mkRun res files'' evs' => mkRun res files'' (evs ++ evs')
        end
    end.

Declare Scope py_scope.
Delimit Scope py_scope with py.
Notation "x <- c ;; k" := (bind c (fun x => k))
  (at level 100, c at next level, right associativity) : py_scope.
Notation "c ;; k" := (bind c (fun _ => k))
  (at level 100, right associativity) : py_scope.
Local Open Scope py_scope.

Definition emit (e : event) : M unit := fun files => mkRun (Val tt) files [e].

Definition logging_info (m : message) : M unit := emit (Log INFO m).
Definition logging_error (m : message) : M unit := emit (Log ERROR m).

Definition os_path_exists (path : string) : M bool :=
  fun files => mkRun (Val (bool_decide (is_Some (files !! path)))) files [].

Definition os_makedirs (path : string) : M unit := emit (Makedirs path).

(** [for x in xs: body(x)] *)
Fixpoint for_each {A} (xs : list A) (body : A -> M unit) : M unit :=
  match xs with
  | [] => ret tt
  | x :: rest => body x ;; for_each rest body
  end.

(** [a, b = parts] *)
Definition unpack2 (parts : list string) : M (string * string) :=
  match parts with
  | [a; b] => ret (a, b)
  | _ => raise ValueError
  end.

Section WithEnv.

Variable env : Env.

(** [with open(path, 'r') as file: file.read()] *)
Definition read_file (path : string) : M string :=
  fun files =>
    match files !! path with
    | Some content => mkRun (Val content) files []
    | None => mkRun (Raise OSError) files []
    end.

(** [with open(path, 'w') as file: file.write(content)]: the file is
    replaced as a whole. *)
Definition write_file (path content : string) : M unit :=
  fun files =>
    if writable env path
    then mkRun (Val tt) (<[path := content]> files) []
    else mkRun (Raise OSError) files [].

(** [response = requests.get(url, stream=...)]: a request that gets no
    answer raises. *)
Definition requests_get {A} (remote : string -> Reply A) (url : string) (stream : bool)
  : M (Reply A) :=
  emit (Get url stream) ;;
  match remote url with
  | NetworkFailure => raise RequestException
  | r => ret r
  end.

Definition raise_for_status {A} (response : Reply A) : M unit :=
  match response with
  | HttpFailure => raise HTTPError
  | _ => ret tt
  end.

(** [response.json()] *)
Definition json {A} (response : Reply A) : M A :=
  match response with
  | Success a => ret a
  | _ => raise ValueError
  end.

(** The body of [with open(dest, 'wb')] in [download_file]: the chunks
    that arrive are written; a stream that breaks leaves what arrived and
    raises. *)
Definition stream_to (dest : string) (response : Reply Body) : M unit :=
  match response with
  | Success (Complete data) => write_file dest data
  | Success (Interrupted partial) => write_file dest partial ;; raise RequestException
  | _ => raise ValueError
  end.

(** [download_file(url, dest)], the same text in both scripts. *)
Definition download_file (url dest : string) : M unit :=
  try_except
    (response <- requests_get (download env) url true ;;
     raise_for_status response ;;
     stream_to dest response ;;
     logging_info (MsgDownloaded dest))
    [(is_RequestException, fun e => logging_error (MsgDownloadFailed url e))].

End WithEnv.

(** [path_parts = urlparse(url).path.strip("/").split("/")], the same
    expression in both scripts. *)
Definition path_parts (url : string) : list string :=
  Py.split "/" (Py.strip (Py.is_char "/") (Lib.urlparse_path url)).

(** ** The single-repository script, [src/github_downloader.py] *)

Module Single.

Definition DEFAULT_DOWNLOAD_DIR : string := "downloads".
Definition VERSION_FILE_RELEASE : string := "version_info_release.txt".
Definition VERSION_FILE_MASTER : string := "version_info_master.txt".
Definition RELEASE_NOTES_FILE : string := "release_notes.txt".

(** The module-level names the functions read. *)
Record Config : Type := mkConfig {
  GITHUB_OWNER : string;
  GITHUB_REPO : string;
  DOWNLOAD_DIR : string
}.

Definition GITHUB_API_URL (cfg : Config) : string :=
  "https://api.github.com/repos/" +:+ GITHUB_OWNER cfg +:+ "/" +:+ GITHUB_REPO cfg.

(** The statements run at import time: the URL is parsed, a URL with
    fewer than two path segments ends the process, the download
    directory is created. *)
Definition startup (repo_url download_dir : string) : M Config :=
  let path_parts := path_parts repo_url in
  if length path_parts <? 2 then
    logging_error (MsgInvalidUrl None) ;;
    raise SystemExit
  else
    let cfg := mkConfig (nth 0 path_parts "") (nth 1 path_parts "") download_dir in
    os_makedirs (DOWNLOAD_DIR cfg) ;;
    ret cfg.

Section Script.

Variable env : Env.
Variable cfg : Config.

Definition get_latest_release : M Release :=
  let url := GITHUB_API_URL cfg +:+ "/releases/latest" in
  response <- requests_get (api_release env) url false ;;
  raise_for_status response ;;
  json response.

Definition get_latest_commit (branch : string) : M Commit :=
  let url := GITHUB_API_URL cfg +:+ "/commits/" +:+ branch in
  response <- requests_get (api_commit env) url false ;;
  raise_for_status response ;;
  json response.

Definition download_release_assets (release : Release) : M unit :=
  for_each (assets release) (fun asset =>
    let asset_url := browser_download_url asset in
    let asset_name := name asset in
    let dest_path := Lib.os_path_join (DOWNLOAD_DIR cfg) asset_name in
    logging_info (MsgAsset asset_name) ;;
    download_file env asset_url dest_path).

Definition release_note_line (commit : Commit) : string :=
  let message := hd "" (Py.split (Py.chr 10) (commit_message commit)) in
  "- " +:+ message +:+ " (von " +:+ commit_author_name commit
  +:+ " am " +:+ commit_author_date commit +:+ ")" +:+ Py.nl.

Definition generate_release_notes (commits : list Commit) : M unit :=
  write_file env RELEASE_NOTES_FILE
    ("Release Notes" +:+ Py.nl +:+ "=============" +:+ Py.nl +:+ Py.nl
     +:+ String.concat "" (map release_note_line commits)) ;;
  logging_info (MsgNotesGenerated None).

Definition check_and_download_release : M unit :=
  try_except
    (latest_release <- get_latest_release ;;
     let latest_version := tag_name latest_release in
     let latest_commit_hash := target_commitish latest_release in
     let new_release : M unit :=
       logging_info (MsgReleaseFound latest_version) ;;
       download_release_assets latest_release ;;
       generate_release_notes [] ;;
       write_file env VERSION_FILE_RELEASE (latest_version +:+ "," +:+ latest_commit_hash) ;;
       logging_info (MsgReleaseStateUpdated latest_version) in
     present <- os_path_exists VERSION_FILE_RELEASE ;;
     if present then
       content <- read_file VERSION_FILE_RELEASE ;;
       record <- unpack2 (Py.split "," (Py.strip Py.isspace content)) ;;
       let '(current_version, current_hash) := record in
       if String.eqb current_version latest_version && String.eqb current_hash latest_commit_hash
       then logging_info (MsgReleaseCurrent latest_version)
       else new_release
     else new_release)
    [(is_HTTPError, fun e => logging_error (MsgReleaseHttpError e));
     (is_Exception, fun e => logging_error (MsgReleaseUnknownError e))].

Definition check_and_download_master : M unit :=
  try_except
    (latest_commit <- get_latest_commit "master" ;;
     let latest_commit_hash := sha latest_commit in
     let new_commit : M unit :=
       logging_info MsgBranchFound ;;
       let master_zip_url :=
         "https://github.com/" +:+ GITHUB_OWNER cfg +:+ "/" +:+ GITHUB_REPO cfg
         +:+ "/archive/refs/heads/master.zip" in
       let dest_path := Lib.os_path_join (DOWNLOAD_DIR cfg) (GITHUB_REPO cfg +:+ "_master.zip") in
       download_file env master_zip_url dest_path ;;
       write_file env VERSION_FILE_MASTER ("master," +:+ latest_commit_hash) ;;
       logging_info (MsgBranchStateUpdated latest_commit_hash) in
     present <- os_path_exists VERSION_FILE_MASTER ;;
     if present then
       content <- read_file VERSION_FILE_MASTER ;;
       record <- unpack2 (Py.split "," (Py.strip Py.isspace content)) ;;
       let '(_, current_hash) := record in
       if String.eqb current_hash latest_commit_hash
       then logging_info MsgBranchCurrent
       else new_commit
     else new_commit)
    [(is_HTTPError, fun e => logging_error (MsgBranchHttpError e));
     (is_Exception, fun e => logging_error (MsgBranchUnknownError e))].

Definition initial_download : M unit :=
  logging_info (MsgInitial None) ;;
  check_and_download_master ;;
  check_and_download_release.

Definition daily_check : M unit :=
  logging_info (MsgDailyStart None) ;;
  check_and_download_master ;;
  check_and_download_release ;;
  logging_info (MsgDailyDone None).

(** [main] up to the point where it enters the scheduler loop. *)
Definition main : M unit :=
  master_present <- os_path_exists VERSION_FILE_MASTER ;;
  release_present <- os_path_exists VERSION_FILE_RELEASE ;;
  (if negb master_present || negb release_present then initial_download else ret tt) ;;
  let schedule_time := "10:00" in
  emit (EveryDayAt schedule_time None) ;;
  logging_info (MsgRunning schedule_time).

End Script.

End Single.

(** ** The multi-repository script, [src/Experimantal/github_downloader.py] *)

Module Multi.

Definition DEFAULT_DOWNLOAD_DIR : string := "downloads".
Definition DEFAULT_REPOSITORIES_FILE : string := "repositories.txt".

Section Script.

Variable env : Env.
Variable DOWNLOAD_DIR : string.
Variable REPOSITORIES_FILE : string.

Definition load_repositories (file_path : string) : M (list string) :=
  present <- os_path_exists file_path ;;
  if negb present then
    logging_error (MsgReposFileMissing file_path) ;;
    ret []
  else
    content <- read_file file_path ;;
    let urls := List.filter Py.nonempty (map (Py.strip Py.isspace) (Py.lines content)) in
    logging_info (MsgReposLoaded (length urls)) ;;
    ret urls.

Definition parse_github_url (repo_url : string) : M (option string * option string) :=
  let path_parts := path_parts repo_url in
  if length path_parts <? 2 then
    logging_error (MsgInvalidUrl (Some repo_url)) ;;
    ret (None, None)
  else
    ret (Some (nth 0 path_parts ""), Some (nth 1 path_parts "")).

Definition setup_repository_dirs (owner repo : string) : M (string * string) :=
  let repo_dir := Lib.os_path_join DOWNLOAD_DIR repo in
  let releases_dir := Lib.os_path_join repo_dir "releases" in
  os_makedirs releases_dir ;;
  ret (repo_dir, releases_dir).

Definition get_github_api_url (owner repo : string) : string :=
  "https://api.github.com/repos/" +:+ owner +:+ "/" +:+ repo.

Definition get_latest_release (api_url : string) : M Release :=
  let url := api_url +:+ "/releases/latest" in
  response <- requests_get (api_release env) url false ;;
  raise_for_status response ;;
  json response.

Definition get_latest_commit (api_url branch : string) : M Commit :=
  let url := api_url +:+ "/commits/" +:+ branch in
  response <- requests_get (api_commit env) url false ;;
  raise_for_status response ;;
  json response.

Definition download_release_assets (release : Release) (releases_dir : string) : M unit :=
  for_each (assets release) (fun asset =>
    let asset_url := browser_download_url asset in
    let asset_name := name asset in
    let dest_path := Lib.os_path_join releases_dir asset_name in
    logging_info (MsgAsset asset_name) ;;
    download_file env asset_url dest_path).

Definition release_note_line (commit : Commit) : string :=
  let message := hd "" (Py.split (Py.chr 10) (commit_message commit)) in
  "- " +:+ message +:+ " (von " +:+ commit_author_name commit
  +:+ " am " +:+ commit_author_date commit +:+ ")" +:+ Py.nl.

Definition generate_release_notes (commits : list Commit) (release_notes_path : string) : M unit :=
  write_file env release_notes_path
    ("Release Notes" +:+ Py.nl +:+ "=============" +:+ Py.nl +:+ Py.nl
     +:+ String.concat "" (map release_note_line commits)) ;;
  logging_info (MsgNotesGenerated (Some release_notes_path)).

Definition check_and_download_release
    (api_url repo_dir releases_dir version_file release_notes_file : string) : M unit :=
  try_except
    (latest_release <- get_latest_release api_url ;;
     let latest_version := tag_name latest_release in
     let latest_commit_hash := target_commitish latest_release in
     let new_release : M unit :=
       logging_info (MsgReleaseFound latest_version) ;;
       download_release_assets latest_release releases_dir ;;
       generate_release_notes [] release_notes_file ;;
       write_file env version_file (latest_version +:+ "," +:+ latest_commit_hash) ;;
       logging_info (MsgReleaseStateUpdated latest_version) in
     present <- os_path_exists version_file ;;
     if present then
       content <- read_file version_file ;;
       record <- unpack2 (Py.split "," (Py.strip Py.isspace content)) ;;
       let '(current_version, current_hash) := record in
       if String.eqb current_version latest_version && String.eqb current_hash latest_commit_hash
       then logging_info (MsgReleaseCurrent latest_version)
       else new_release
     else new_release)
    [(is_HTTPError, fun e => logging_error (MsgReleaseHttpError e));
     (is_Exception, fun e => logging_error (MsgReleaseUnknownError e))].

Definition check_and_download_master
    (api_url repo_dir master_zip_path version_file_master branch : string) : M unit :=
  try_except
    (latest_commit <- get_latest_commit api_url branch ;;
     let latest_commit_hash := sha latest_commit in
     let new_commit : M unit :=
       logging_info MsgBranchFound ;;
       parsed0 <- parse_github_url api_url ;;
       parsed1 <- parse_github_url api_url ;;
       let master_zip_url :=
         "https://github.com/" +:+ Py.fmt (fst parsed0) +:+ "/" +:+ Py.fmt (snd parsed1)
         +:+ "/archive/refs/heads/" +:+ branch +:+ ".zip" in
       download_file env master_zip_url master_zip_path ;;
       write_file env version_file_master (branch +:+ "," +:+ latest_commit_hash) ;;
       logging_info (MsgBranchStateUpdated latest_commit_hash) in
     present <- os_path_exists version_file_master ;;
     if present then
       content <- read_file version_file_master ;;
       record <- unpack2 (Py.split "," (Py.strip Py.isspace content)) ;;
       let '(_, current_hash) := record in
       if String.eqb current_hash latest_commit_hash
       then logging_info MsgBranchCurrent
       else new_commit
     else new_commit)
    [(is_HTTPError, fun e => logging_error (MsgBranchHttpError e));
     (is_Exception, fun e => logging_error (MsgBranchUnknownError e))].

Definition initial_download (owner repo api_url repo_dir releases_dir : string) : M unit :=
  let version_file_release := Lib.os_path_join repo_dir "version_info_release.txt" in
  let version_file_master := Lib.os_path_join repo_dir "version_info_master.txt" in
  let release_notes_file := Lib.os_path_join repo_dir "release_notes.txt" in
  let master_zip_path := Lib.os_path_join repo_dir (repo +:+ "_master.zip") in
  logging_info (MsgInitial (Some repo)) ;;
  check_and_download_master api_url repo_dir master_zip_path version_file_master "master" ;;
  check_and_download_release api_url repo_dir releases_dir version_file_release release_notes_file.

Definition daily_check (owner repo api_url repo_dir releases_dir : string) : M unit :=
  let version_file_release := Lib.os_path_join repo_dir "version_info_release.txt" in
  let version_file_master := Lib.os_path_join repo_dir "version_info_master.txt" in
  let release_notes_file := Lib.os_path_join repo_dir "release_notes.txt" in
  let master_zip_path := Lib.os_path_join repo_dir (repo +:+ "_master.zip") in
  logging_info (MsgDailyStart (Some repo)) ;;
  check_and_download_master api_url repo_dir master_zip_path version_file_master "master" ;;
  check_and_download_release api_url repo_dir releases_dir version_file_release release_notes_file ;;
  logging_info (MsgDailyDone (Some repo)).

Definition process_repository (repo_url : string) : M unit :=
  parsed <- parse_github_url repo_url ;;
  let '(owner, repo) := parsed in
  if negb (Py.truthy owner) || negb (Py.truthy repo) then ret tt
  else
    let owner := Py.fmt owner in
    let repo := Py.fmt repo in
    dirs <- setup_repository_dirs owner repo ;;
    let '(repo_dir, releases_dir) := dirs in
    let api_url := get_github_api_url owner repo in
    let version_file_release := Lib.os_path_join repo_dir "version_info_release.txt" in
    let version_file_master := Lib.os_path_join repo_dir "version_info_master.txt" in
    master_present <- os_path_exists version_file_master ;;
    release_present <- os_path_exists version_file_release ;;
    (if negb master_present || negb release_present
     then initial_download owner repo api_url repo_dir releases_dir
     else ret tt) ;;
    let schedule_time := "10:00" in
    emit (EveryDayAt schedule_time (Some (Job owner repo api_url repo_dir releases_dir))) ;;
    logging_info (MsgScheduled schedule_time repo).

(** [main] up to the point where it enters the scheduler loop. *)
Definition main : M unit :=
  repositories <- load_repositories REPOSITORIES_FILE ;;
  for_each repositories process_repository ;;
  logging_info (MsgRunning "10:00").

End Script.

End Multi.

(** * The vocabulary of the properties

    Names for what the statements below talk about: the outcome of one
    download, the events of one pass of the asset loop, the tests that let
    a sync proceed, the archive URLs, and sample data. *)

(** Every [open(path, 'w')] succeeds. *)
Definition disk_ok (env : Env) : Prop := forall path, writable env path = true.

(** The exception a request ends with inside [download_file], if any. *)
Definition request_error (reply : Reply Body) : option exn :=
  match reply with
  | Success (Complete _) => None
  | Success (Interrupted _) => Some RequestException
  | HttpFailure => Some HTTPError
  | NetworkFailure => Some RequestException
  end.

(** [download_file] lets an exception out exactly when the request is
    answered and the destination cannot be opened. *)
Definition download_raises (env : Env) (url dest : string) : bool :=
  match download env url with
  | Success _ => negb (writable env dest)
  | _ => false
  end.

(** What a download that returns leaves on disk. *)
Definition landed (env : Env) (url dest : string) (files : Files) : Files :=
  match download env url with
  | Success (Complete data) => <[dest := data]> files
  | Success (Interrupted partial) => <[dest := partial]> files
  | _ => files
  end.

(** The log line a download that returns ends with. *)
Definition download_report (env : Env) (url dest : string) : event :=
  match request_error (download env url) with
  | Some e => Log ERROR (MsgDownloadFailed url e)
  | None => Log INFO (MsgDownloaded dest)
  end.

Definition asset_dest (dir : string) (asset : Asset) : string :=
  Lib.os_path_join dir (name asset).

(** What one pass of the loop body shows when the download returns. *)
Definition asset_events (env : Env) (dir : string) (asset : Asset) : list event :=
  [Log INFO (MsgAsset (name asset));
   Get (browser_download_url asset) true;
   download_report env (browser_download_url asset) (asset_dest dir asset)].

Definition asset_raises (env : Env) (dir : string) (asset : Asset) : bool :=
  download_raises env (browser_download_url asset) (asset_dest dir asset).

(** A report that a state file was rewritten. *)
Definition is_state_report (e : event) : bool :=
  match e with
  | Log _ (MsgReleaseStateUpdated _) | Log _ (MsgBranchStateUpdated _) => true
  | _ => false
  end.

(** The test of [check_and_download_release] lets the download happen:
    there is no state file, or it holds a pair that differs from the
    fetched one. *)
Definition release_is_new (files : Files) (version_file : string) (release : Release) : Prop :=
  files !! version_file = None
  \/ exists content current_version current_hash,
       files !! version_file = Some content
       /\ Py.split "," (Py.strip Py.isspace content) = [current_version; current_hash]
       /\ (current_version <> tag_name release \/ current_hash <> target_commitish release).

(** The test of [check_and_download_master] lets the download happen:
    there is no state file, or the hash it holds differs from the
    fetched one. *)
Definition commit_is_new (files : Files) (version_file : string) (commit : Commit) : Prop :=
  files !! version_file = None
  \/ exists content stored_branch current_hash,
       files !! version_file = Some content
       /\ Py.split "," (Py.strip Py.isspace content) = [stored_branch; current_hash]
       /\ current_hash <> sha commit.

(** The archive the single-repository script asks for and where it puts
    it. *)
Definition single_archive_url (cfg : Single.Config) : string :=
  "https://github.com/" +:+ Single.GITHUB_OWNER cfg +:+ "/" +:+ Single.GITHUB_REPO cfg
  +:+ "/archive/refs/heads/master.zip".

Definition single_archive_dest (cfg : Single.Config) : string :=
  Lib.os_path_join (Single.DOWNLOAD_DIR cfg) (Single.GITHUB_REPO cfg +:+ "_master.zip").

(** The archive the multi-repository script asks for. *)
Definition multi_archive_url (api_url branch : string) : string :=
  "https://github.com/" +:+ nth 0 (path_parts api_url) "" +:+ "/"
  +:+ nth 1 (path_parts api_url) "" +:+ "/archive/refs/heads/" +:+ branch +:+ ".zip".

(** Log lines and streamed downloads: what a sync attempt shows after its
    metadata request. *)
Definition is_internal (e : event) : bool :=
  match e with
  | Log _ _ | Get _ true => true
  | _ => false
  end.

(** The URLs of the metadata requests of a run, in order. *)
Fixpoint metadata_requests (evs : list event) : list string :=
  match evs with
  | [] => []
  | Get url false :: rest => url :: metadata_requests rest
  | _ :: rest => metadata_requests rest
  end.

(** A character that may stand in an owner or repository name taken from
    a URL path: no path, query, fragment or parameter delimiter and no
    tab or line break. *)
Definition ordinary (c : ascii) : bool :=
  negb (Ascii.eqb c "/" || Ascii.eqb c "?" || Ascii.eqb c "#" || Ascii.eqb c ";"
        || Ascii.eqb c (Py.chr 9) || Ascii.eqb c (Py.chr 10) || Ascii.eqb c (Py.chr 13)).

(** Sample data for the worked instances: a repository whose latest
    release [v1.1] has three assets, of which the second is answered with
    an HTTP error and the third breaks in mid-stream. *)
Module Sample.

Definition cfg : Single.Config := Single.mkConfig "GreemDev" "Ryujinx" "downloads".

Definition release : Release :=
  mkRelease "v1.1" "def456"
    [mkAsset "a.zip" "https://dl.example/a.zip";
     mkAsset "b.zip" "https://dl.example/b.zip";
     mkAsset "c.zip" "https://dl.example/c.zip"].

Definition commit : Commit := mkCommit "0123abc" "Fix typo" "dev" "2024-01-01".

Definition env : Env :=
  mkEnv
    (fun url =>
       if String.eqb url "https://api.github.com/repos/GreemDev/Ryujinx/releases/latest"
       then Success release else HttpFailure)
    (fun url =>
       if String.eqb url "https://api.github.com/repos/GreemDev/Ryujinx/commits/master"
       then Success commit else HttpFailure)
    (fun url =>
       if String.eqb url "https://dl.example/a.zip" then Success (Complete "AAAA")
       else if String.eqb url "https://dl.example/c.zip" then Success (Interrupted "CC")
       else if String.eqb url "https://github.com/GreemDev/Ryujinx/archive/refs/heads/master.zip"
       then Success (Complete "PK")
       else HttpFailure)
    (fun _ => true).

(** The same remote seen through a network that is down, and the same
    remote with a disk on which the archive file cannot be opened. *)
Definition env_offline : Env :=
  mkEnv (fun _ => NetworkFailure) (fun _ => NetworkFailure) (fun _ => NetworkFailure)
        (fun _ => true).

Definition env_archive_refused : Env :=
  mkEnv (api_release env) (api_commit env) (download env)
        (fun path => negb (String.eqb path "downloads/Ryujinx_master.zip")).

(** The same remote when every download is answered with an HTTP error. *)
Definition env_no_downloads : Env :=
  mkEnv (api_release env) (api_commit env) (fun _ => HttpFailure) (fun _ => true).

End Sample.

(** The test of [process_repository] on a repository URL: two path parts
    at least, and neither of the first two empty. *)
Definition accepted (repo_url : string) : bool :=
  (2 <=? length (path_parts repo_url))
  && Py.nonempty (nth 0 (path_parts repo_url) "")
  && Py.nonempty (nth 1 (path_parts repo_url) "").

(** What [process_repository] logs for a URL that fails this test. *)
Definition rejection_log (repo_url : string) : list event :=
  if length (path_parts repo_url) <? 2
  then [Log ERROR (MsgInvalidUrl (Some repo_url))]
  else [].

(** Further sample data: a remote that answers every metadata request
    with the given release, and releases whose tag holds a comma or starts
    with a blank. *)
Module Edge.

Definition env_with (release : Release) : Env :=
  mkEnv (fun _ => Success release) (fun _ => Success Sample.commit)
        (download Sample.env) (fun _ => true).

Definition release_comma : Release :=
  mkRelease "v1,0" "def456" [mkAsset "a.zip" "https://dl.example/a.zip"].

Definition release_padded : Release :=
  mkRelease " v1.1" "def456" [mkAsset "a.zip" "https://dl.example/a.zip"].

Definition release_next : Release :=
  mkRelease "v2.0" "0a1b2c" [mkAsset "a.zip" "https://dl.example/a.zip"].

End Edge.

(** ** What the properties ask of their inputs

    [urlparse], text-mode reading and the file system do more than the
    model shows.  A property that depends on one of them carries the
    precondition under which the script does on a real disk what the
    model does. *)

(** [urlparse] raises [ValueError] on a host whose brackets do not pair
    up or do not hold an address literal.  A URL without any bracket is
    parsed, and [Lib.urlparse_path] is its path. *)
Definition bracket_free (url : string) : Prop :=
  Py.count "[" url = 0 /\ Py.count "]" url = 0.

(** A file opened in text mode is read with universal newlines: a
    carriage return comes back as a line feed.  Text without a carriage
    return is read back as it was written. *)
Definition no_carriage_return (text : string) : Prop :=
  Py.count (Py.chr 13) text = 0.

(** The file at [path], if there is one, is read as it is stored. *)
Definition read_as_stored (files : Files) (path : string) : Prop :=
  match files !! path with
  | Some content => no_carriage_return content
  | None => True
  end.

(** On disk [x], [./x] and [downloads/../x] are one file.  Two paths
    name different files when both stay below the working directory and
    their normal forms differ (file names told apart by case, no
    links). *)
Definition distinct_files (a b : string) : bool :=
  match Lib.below_cwd a, Lib.below_cwd b with
  | Some ca, Some cb => bool_decide (ca <> cb)
  | _, _ => false
  end.

(** * Properties *)

Arguments Py.split : simpl never.
Arguments Py.strip : simpl never.
Arguments Lib.os_path_join : simpl never.
Arguments Lib.urlparse_path : simpl never.
Arguments path_parts : simpl never.
Arguments String.append : simpl never.

(** ** The library model on the inputs of the scripts *)

Example urlparse_path_repository :
  Lib.urlparse_path "https://github.com/GreemDev/Ryujinx" = "/GreemDev/Ryujinx".
Proof. reflexivity. Qed.

Example urlparse_path_drops_query_fragment_params :
  Lib.urlparse_path "HTTPS://github.com/a;x/b;y?q=1#f" = "/a;x/b".
Proof. reflexivity. Qed.

Example path_parts_repository :
  path_parts "https://github.com/GreemDev/Ryujinx/" = ["GreemDev"; "Ryujinx"].
Proof. reflexivity. Qed.

Example distinct_files_sees_through_dots :
  distinct_files "./version_info_master.txt" "version_info_master.txt" = false
  /\ distinct_files "downloads/../version_info_master.txt" "version_info_master.txt" = false
  /\ distinct_files "../workspace/version_info_master.txt" "version_info_master.txt" = false
  /\ distinct_files "downloads/a.zip" "version_info_master.txt" = true.
Proof. repeat split; reflexivity. Qed.

Example path_parts_only_owner :
  path_parts "https://github.com/onlyowner" = ["onlyowner"].
Proof. reflexivity. Qed.

Example path_parts_api_url :
  path_parts "https://api.github.com/repos/GreemDev/Ryujinx" = ["repos"; "GreemDev"; "Ryujinx"].
Proof. reflexivity. Qed.

Example split_empty : Py.split "," "" = [""].
Proof. reflexivity. Qed.

Example strip_then_split :
  Py.split "," (Py.strip Py.isspace (" v1.0,abc123" +:+ Py.nl)) = ["v1.0"; "abc123"].
Proof. reflexivity. Qed.

Example os_path_join_relative :
  Lib.os_path_join "downloads" "a.zip" = "downloads/a.zip"
  /\ Lib.os_path_join "downloads/" "a.zip" = "downloads/a.zip"
  /\ Lib.os_path_join "downloads" "/tmp/a.zip" = "/tmp/a.zip".
Proof. repeat split; reflexivity. Qed.

(** ** Running the primitives *)

Lemma exists_true (m : Files) path content :
  m !! path = Some content -> bool_decide (is_Some (m !! path)) = true.
Proof. intros H. apply bool_decide_eq_true_2. rewrite H. eauto. Qed.

Lemma exists_false (m : Files) path :
  m !! path = None -> bool_decide (is_Some (m !! path)) = false.
Proof. intros H. apply bool_decide_eq_false_2. rewrite H. by intros [? ?]. Qed.

(** Unfolding the monad and the one-line primitives. *)
Ltac unfold_monad :=
  unfold try_except, bind, and_then, ret, raise, logging_info, logging_error,
    emit, os_path_exists, os_makedirs, read_file, write_file, requests_get,
    raise_for_status, json, unpack2 in *;
  try change ("/commits/" +:+ "master") with "/commits/master" in *.

(** One step of symbolic execution: compute, or use an equation of the
    context on the term the execution is stuck on. *)
Ltac step :=
  first
    [ progress simpl
    | match goal with
      | H : ?l = _ |- context [?l] => rewrite H
      end
    | rewrite String.eqb_refl ].

Ltac run := unfold_monad; repeat step.

(** ** [download_file] *)

Lemma download_file_run env url dest files :
  download_file env url dest files =
    if download_raises env url dest
    then mkRun (Raise OSError) files [Get url true]
    else mkRun (Val tt) (landed env url dest files)
               [Get url true; download_report env url dest].
Proof.
  unfold download_file, stream_to, download_raises, landed, download_report.
  unfold_monad.
  destruct (download env url) as [[data | partial] | | ] eqn:Hreply; simpl;
    try reflexivity;
    destruct (writable env dest); reflexivity.
Qed.

Lemma disk_ok_no_raise env url dest :
  disk_ok env -> download_raises env url dest = false.
Proof.
  intros Hdisk. unfold download_raises.
  destruct (download env url); try reflexivity. by rewrite Hdisk.
Qed.

(** ** The asset loop *)

Lemma for_each_cons {A} (x : A) (l : list A) (body : A -> M unit) files :
  for_each (x :: l) body files = and_then (body x files) (fun _ => for_each l body).
Proof. reflexivity. Qed.

Lemma asset_body_run env asset_name url dest files :
  (logging_info (MsgAsset asset_name) ;; download_file env url dest) files =
    if download_raises env url dest
    then mkRun (Raise OSError) files [Log INFO (MsgAsset asset_name); Get url true]
    else mkRun (Val tt) (landed env url dest files)
               [Log INFO (MsgAsset asset_name); Get url true; download_report env url dest].
Proof.
  unfold bind, and_then, logging_info, emit. simpl.
  rewrite download_file_run. by destruct (download_raises env url dest).
Qed.

(** When no download raises, the loop visits every asset, in order. *)
Lemma assets_loop_complete env dir release files :
  existsb (asset_raises env dir) (assets release) = false ->
  exists files',
    Multi.download_release_assets env release dir files =
      mkRun (Val tt) files' (concat (map (asset_events env dir) (assets release))).
Proof.
  unfold Multi.download_release_assets.
  generalize (assets release) as l. intros l. revert files.
  induction l as [| a l IH]; intros files Hall.
  - exists files. reflexivity.
  - simpl in Hall. apply orb_false_iff in Hall as [Ha Hl].
    unfold asset_raises, asset_dest in Ha.
    rewrite for_each_cons, asset_body_run, Ha.
    destruct (IH (landed env (browser_download_url a) (Lib.os_path_join dir (name a)) files) Hl)
      as [files' Hrun].
    exists files'. unfold and_then. simpl. rewrite Hrun. reflexivity.
Qed.

(** ** Release Sync *)

Lemma single_assets_loop_complete env cfg release files :
  existsb (asset_raises env (Single.DOWNLOAD_DIR cfg)) (assets release) = false ->
  exists files',
    Single.download_release_assets env cfg release files =
      mkRun (Val tt) files'
        (concat (map (asset_events env (Single.DOWNLOAD_DIR cfg)) (assets release))).
Proof. exact (assets_loop_complete env (Single.DOWNLOAD_DIR cfg) release files). Qed.

Lemma pair_eqb_false (a b a' b' : string) :
  a <> a' \/ b <> b' -> (String.eqb a a' && String.eqb b b') = false.
Proof.
  intros [H | H]; apply andb_false_iff; [left | right];
    by apply String.eqb_neq.
Qed.

Ltac release_new_proof loop_lemma :=
  match goal with
  | Hnew : release_is_new _ _ _ |- _ =>
      destruct Hnew as [Habsent | (content & cv & ch & Hfile & Hsplit & Hdiff)];
      [ apply exists_false in Habsent
      | apply exists_true in Hfile as Hpresent; apply pair_eqb_false in Hdiff ]
  end;
  match goal with
  | Hloop : existsb _ _ = false |- context [mkRun _ (<[_ := _]> _) _] =>
      destruct (loop_lemma Hloop) as [files' Hrun]
  end;
  eexists; run; reflexivity.

Lemma multi_release_new env api_url repo_dir releases_dir version_file release_notes_file
    files release :
  api_release env (api_url +:+ "/releases/latest") = Success release ->
  release_is_new files version_file release ->
  existsb (asset_raises env releases_dir) (assets release) = false ->
  writable env release_notes_file = true ->
  writable env version_file = true ->
  exists rest,
    Multi.check_and_download_release env api_url repo_dir releases_dir version_file
        release_notes_file files =
      mkRun (Val tt)
        (<[version_file := tag_name release +:+ "," +:+ target_commitish release]> rest)
        (Get (api_url +:+ "/releases/latest") false
         :: Log INFO (MsgReleaseFound (tag_name release))
         :: concat (map (asset_events env releases_dir) (assets release))
         ++ [Log INFO (MsgNotesGenerated (Some release_notes_file));
             Log INFO (MsgReleaseStateUpdated (tag_name release))]).
Proof.
  intros Hfetch Hnew Hloop Hnotes Hstate.
  unfold Multi.check_and_download_release, Multi.get_latest_release,
    Multi.generate_release_notes.
  release_new_proof (fun H => assets_loop_complete env releases_dir release files H).
Qed.

Lemma single_release_new env cfg files release :
  api_release env (Single.GITHUB_API_URL cfg +:+ "/releases/latest") = Success release ->
  release_is_new files Single.VERSION_FILE_RELEASE release ->
  existsb (asset_raises env (Single.DOWNLOAD_DIR cfg)) (assets release) = false ->
  writable env Single.RELEASE_NOTES_FILE = true ->
  writable env Single.VERSION_FILE_RELEASE = true ->
  exists rest,
    Single.check_and_download_release env cfg files =
      mkRun (Val tt)
        (<[Single.VERSION_FILE_RELEASE :=
             tag_name release +:+ "," +:+ target_commitish release]> rest)
        (Get (Single.GITHUB_API_URL cfg +:+ "/releases/latest") false
         :: Log INFO (MsgReleaseFound (tag_name release))
         :: concat (map (asset_events env (Single.DOWNLOAD_DIR cfg)) (assets release))
         ++ [Log INFO (MsgNotesGenerated None);
             Log INFO (MsgReleaseStateUpdated (tag_name release))]).
Proof.
  intros Hfetch Hnew Hloop Hnotes Hstate.
  unfold Single.check_and_download_release, Single.get_latest_release,
    Single.generate_release_notes.
  release_new_proof (fun H => single_assets_loop_complete env cfg release files H).
Qed.

Lemma downloads_of_asset_loop env dir (l : list Asset) :
  List.filter is_download (concat (map (asset_events env dir) l)) =
  map (fun asset => Get (browser_download_url asset) true) l.
Proof.
  induction l as [| a l IH]; [reflexivity |].
  simpl. rewrite IH. unfold download_report.
  by destruct (request_error _).
Qed.

Lemma sample_disk_ok : disk_ok Sample.env.
Proof. intros path. reflexivity. Qed.

(** C1. When the release state file exists and holds the pair the remote
    reports, Release Sync returns after the metadata request alone: it
    downloads nothing and leaves the file store, the state file included,
    exactly as it was, so any number of repeated calls under the same
    remote leaves the store unchanged.  Both variants. *)
Theorem release_sync_unchanged_is_idempotent env release content :
  Py.split "," (Py.strip Py.isspace content) = [tag_name release; target_commitish release] ->
  (forall cfg files,
      api_release env (Single.GITHUB_API_URL cfg +:+ "/releases/latest") = Success release ->
      files !! Single.VERSION_FILE_RELEASE = Some content ->
      Single.check_and_download_release env cfg files =
        mkRun (Val tt) files
          [Get (Single.GITHUB_API_URL cfg +:+ "/releases/latest") false;
           Log INFO (MsgReleaseCurrent (tag_name release))]
      /\ forall n,
           Nat.iter n (fun f => store (Single.check_and_download_release env cfg f)) files
           = files)
  /\ (forall api_url repo_dir releases_dir version_file release_notes_file files,
      api_release env (api_url +:+ "/releases/latest") = Success release ->
      files !! version_file = Some content ->
      let sync := Multi.check_and_download_release env api_url repo_dir releases_dir
                    version_file release_notes_file in
      sync files =
        mkRun (Val tt) files
          [Get (api_url +:+ "/releases/latest") false;
           Log INFO (MsgReleaseCurrent (tag_name release))]
      /\ forall n, Nat.iter n (fun f => store (sync f)) files = files).
Proof.
  intros Hsplit. split.
  - intros cfg files Hfetch Hfile.
    assert (Hrun : Single.check_and_download_release env cfg files =
                   mkRun (Val tt) files
                     [Get (Single.GITHUB_API_URL cfg +:+ "/releases/latest") false;
                      Log INFO (MsgReleaseCurrent (tag_name release))]).
    { apply exists_true in Hfile as Hpresent.
      unfold Single.check_and_download_release, Single.get_latest_release.
      run. reflexivity. }
    split; [exact Hrun |].
    induction n as [| n IH]; [reflexivity |].
    by rewrite Nat.iter_succ, IH, Hrun.
  - intros api_url repo_dir releases_dir version_file release_notes_file files Hfetch Hfile sync.
    assert (Hrun : sync files =
                   mkRun (Val tt) files
                     [Get (api_url +:+ "/releases/latest") false;
                      Log INFO (MsgReleaseCurrent (tag_name release))]).
    { apply exists_true in Hfile as Hpresent.
      unfold sync, Multi.check_and_download_release, Multi.get_latest_release.
      run. reflexivity. }
    split; [exact Hrun |].
    induction n as [| n IH]; [reflexivity |].
    by rewrite Nat.iter_succ, IH, Hrun.
Qed.

Lemma release_sync_unchanged_is_idempotent_witness :
  let files : Files := {[ Single.VERSION_FILE_RELEASE := "v1.1,def456" +:+ Py.nl ]} in
  Single.check_and_download_release Sample.env Sample.cfg files =
    mkRun (Val tt) files
      [Get "https://api.github.com/repos/GreemDev/Ryujinx/releases/latest" false;
       Log INFO (MsgReleaseCurrent "v1.1")]
  /\ Nat.iter 3 (fun f => store (Single.check_and_download_release Sample.env Sample.cfg f))
       files = files.
Proof.
  intros files.
  destruct (release_sync_unchanged_is_idempotent Sample.env Sample.release
              ("v1.1,def456" +:+ Py.nl) eq_refl) as [Hsingle _].
  destruct (Hsingle Sample.cfg files eq_refl eq_refl) as [Hrun Hiter].
  split; [exact Hrun | exact (Hiter 3)].
Defined.

Lemma disk_ok_loop env dir (l : list Asset) :
  disk_ok env -> existsb (asset_raises env dir) l = false.
Proof.
  intros Hdisk. induction l as [| a l IH]; [reflexivity |].
  simpl. rewrite IH. unfold asset_raises. by rewrite disk_ok_no_raise.
Qed.

Lemma downloads_of_release_update env dir (l : list Asset) url m1 m2 m3 :
  List.filter is_download
    (Get url false :: Log INFO m1 :: concat (map (asset_events env dir) l)
     ++ [Log INFO m2; Log INFO m3])
  = map (fun asset => Get (browser_download_url asset) true) l.
Proof.
  simpl. rewrite List.filter_app, downloads_of_asset_loop.
  simpl. by rewrite app_nil_r.
Qed.



(** C3. A Release Sync that proceeds to download attempts every asset of
    the release in order; a request that fails is logged as an error and
    the loop goes on with the next asset; once the loop has completed the
    state file is overwritten with the new pair, however many of the
    downloads failed. *)
Theorem release_sync_is_best_effort env cfg files release :
  api_release env (Single.GITHUB_API_URL cfg +:+ "/releases/latest") = Success release ->
  release_is_new files Single.VERSION_FILE_RELEASE release ->
  existsb (asset_raises env (Single.DOWNLOAD_DIR cfg)) (assets release) = false ->
  writable env Single.RELEASE_NOTES_FILE = true ->
  writable env Single.VERSION_FILE_RELEASE = true ->
  let r := Single.check_and_download_release env cfg files in
  result r = Val tt
  /\ events r =
       Get (Single.GITHUB_API_URL cfg +:+ "/releases/latest") false
       :: Log INFO (MsgReleaseFound (tag_name release))
       :: concat (map (asset_events env (Single.DOWNLOAD_DIR cfg)) (assets release))
       ++ [Log INFO (MsgNotesGenerated None);
           Log INFO (MsgReleaseStateUpdated (tag_name release))]
  /\ List.filter is_download (events r)
     = map (fun asset => Get (browser_download_url asset) true) (assets release)
  /\ (forall asset e,
        In asset (assets release) ->
        request_error (download env (browser_download_url asset)) = Some e ->
        In (Log ERROR (MsgDownloadFailed (browser_download_url asset) e)) (events r))
  /\ store r !! Single.VERSION_FILE_RELEASE
     = Some (tag_name release +:+ "," +:+ target_commitish release).
Proof.
  intros Hfetch Hnew Hloop Hnotes Hstate r.
  destruct (single_release_new env cfg files release Hfetch Hnew Hloop Hnotes Hstate)
    as [rest Hrun].
  subst r. rewrite Hrun. cbn [result events store].
  split; [reflexivity |]. split; [reflexivity |].
  split; [apply downloads_of_release_update |].
  split; [| apply lookup_insert_eq].
  intros asset e Hin Herr.
  right. right. apply in_or_app. left.
  apply in_concat. exists (asset_events env (Single.DOWNLOAD_DIR cfg) asset).
  split; [by apply in_map |].
  unfold asset_events, download_report. rewrite Herr. simpl. auto.
Qed.

Lemma release_sync_is_best_effort_witness :
  let r := Single.check_and_download_release Sample.env Sample.cfg ∅ in
  result r = Val tt
  /\ In (Log ERROR (MsgDownloadFailed "https://dl.example/b.zip" HTTPError)) (events r)
  /\ In (Log ERROR (MsgDownloadFailed "https://dl.example/c.zip" RequestException)) (events r)
  /\ List.filter is_download (events r)
     = [Get "https://dl.example/a.zip" true; Get "https://dl.example/b.zip" true;
        Get "https://dl.example/c.zip" true]
  /\ store r !! Single.VERSION_FILE_RELEASE = Some "v1.1,def456".
Proof.
  intros r.
  assert (Hnew : release_is_new ∅ Single.VERSION_FILE_RELEASE Sample.release)
    by (left; reflexivity).
  destruct (release_sync_is_best_effort Sample.env Sample.cfg ∅ Sample.release
              eq_refl Hnew eq_refl eq_refl eq_refl)
    as (Hres & _ & Hdl & Hlogged & Hstate).
  split; [exact Hres |].
  split; [apply (Hlogged (mkAsset "b.zip" "https://dl.example/b.zip") HTTPError);
          [simpl; auto | reflexivity] |].
  split; [apply (Hlogged (mkAsset "c.zip" "https://dl.example/c.zip") RequestException);
          [simpl; auto | reflexivity] |].
  split; [exact Hdl | exact Hstate].
Defined.

(** ** Metadata fetch failures *)

(** C4. When the metadata request of a sync attempt fails, by an HTTP
    error status or by a network failure, the attempt ends normally (no
    exception reaches the caller), has logged the error, has requested
    nothing else, and leaves the file store, the state files included, as
    it was.  Release Sync and Branch Sync of the single-repository
    script. *)
Theorem failed_fetch_is_logged_and_changes_nothing env cfg files :
  let release_url := Single.GITHUB_API_URL cfg +:+ "/releases/latest" in
  let commit_url := Single.GITHUB_API_URL cfg +:+ "/commits/master" in
  (api_release env release_url = HttpFailure ->
   Single.check_and_download_release env cfg files =
     mkRun (Val tt) files
       [Get release_url false; Log ERROR (MsgReleaseHttpError HTTPError)])
  /\ (api_release env release_url = NetworkFailure ->
      Single.check_and_download_release env cfg files =
        mkRun (Val tt) files
          [Get release_url false; Log ERROR (MsgReleaseUnknownError RequestException)])
  /\ (api_commit env commit_url = HttpFailure ->
      Single.check_and_download_master env cfg files =
        mkRun (Val tt) files
          [Get commit_url false; Log ERROR (MsgBranchHttpError HTTPError)])
  /\ (api_commit env commit_url = NetworkFailure ->
      Single.check_and_download_master env cfg files =
        mkRun (Val tt) files
          [Get commit_url false; Log ERROR (MsgBranchUnknownError RequestException)]).
Proof.
  intros release_url commit_url. subst release_url commit_url.
  repeat split; intros Hfetch;
    unfold Single.check_and_download_release, Single.check_and_download_master,
      Single.get_latest_release, Single.get_latest_commit;
    run; reflexivity.
Qed.

Lemma failed_fetch_is_logged_and_changes_nothing_witness :
  let files : Files := {[ Single.VERSION_FILE_RELEASE := "v1.0,abc123";
                          Single.VERSION_FILE_MASTER := "master,0000" ]} in
  let other := Single.mkConfig "nobody" "nothing" "downloads" in
  Single.check_and_download_release Sample.env other files =
    mkRun (Val tt) files
      [Get "https://api.github.com/repos/nobody/nothing/releases/latest" false;
       Log ERROR (MsgReleaseHttpError HTTPError)]
  /\ Single.check_and_download_release Sample.env_offline Sample.cfg files =
       mkRun (Val tt) files
         [Get "https://api.github.com/repos/GreemDev/Ryujinx/releases/latest" false;
          Log ERROR (MsgReleaseUnknownError RequestException)]
  /\ Single.check_and_download_master Sample.env other files =
       mkRun (Val tt) files
         [Get "https://api.github.com/repos/nobody/nothing/commits/master" false;
          Log ERROR (MsgBranchHttpError HTTPError)]
  /\ Single.check_and_download_master Sample.env_offline Sample.cfg files =
       mkRun (Val tt) files
         [Get "https://api.github.com/repos/GreemDev/Ryujinx/commits/master" false;
          Log ERROR (MsgBranchUnknownError RequestException)].
Proof.
  intros files other.
  destruct (failed_fetch_is_logged_and_changes_nothing Sample.env other files)
    as (Hr & _ & Hc & _).
  destruct (failed_fetch_is_logged_and_changes_nothing Sample.env_offline Sample.cfg files)
    as (_ & Hr' & _ & Hc').
  split; [exact (Hr eq_refl) |].
  split; [exact (Hr' eq_refl) |].
  split; [exact (Hc eq_refl) | exact (Hc' eq_refl)].
Defined.

(** ** Malformed state files *)

Lemma split_by_nonempty p s : Py.split_by p s <> [].
Proof. destruct s as [| c s]; simpl; [done |]. destruct (p c); [done |]. by destruct (Py.split_by p s). Qed.

Lemma split_length sep s : length (Py.split sep s) = S (Py.count sep s).
Proof.
  unfold Py.split. induction s as [| c s IH]; [reflexivity |].
  simpl. unfold Py.is_char at 1.
  destruct (Ascii.eqb c sep); simpl.
  - by rewrite IH.
  - destruct (Py.split_by (Py.is_char sep) s) eqn:Hs; [by apply split_by_nonempty in Hs |].
    simpl in *. exact IH.
Qed.

(** A stripped record that does not hold exactly one comma cannot be
    unpacked into two names. *)
Lemma malformed_record_raises content :
  Py.count "," (Py.strip Py.isspace content) <> 1 ->
  unpack2 (Py.split "," (Py.strip Py.isspace content)) = raise ValueError.
Proof.
  intros Hcount.
  pose proof (split_length "," (Py.strip Py.isspace content)) as Hlen.
  destruct (Py.split "," (Py.strip Py.isspace content)) as [| a [| b [| c l]]];
    try reflexivity.
  simpl in Hlen. congruence.
Qed.

Ltac malformed_proof Hbad reply :=
  destruct reply eqn:Hfetch;
  (split; [| split; [| split]]);
  try (intros ? Heq; inversion Heq; subst);
  run; reflexivity.

(** C10. When a state file exists but its stripped content does not hold
    exactly one comma (the empty file included), the sync attempt ends
    normally, downloads nothing and leaves the file store, the state file
    included, as it was; when the metadata request had succeeded, what
    stops the attempt is the [ValueError] of the unpacking, caught and
    logged by the generic handler.  Release Sync and Branch Sync of the
    single-repository script, Release Sync of the multi-repository
    one. *)
Theorem malformed_state_file_is_survived env content :
  Py.count "," (Py.strip Py.isspace content) <> 1 ->
  (forall cfg files,
      files !! Single.VERSION_FILE_RELEASE = Some content ->
      let url := Single.GITHUB_API_URL cfg +:+ "/releases/latest" in
      let r := Single.check_and_download_release env cfg files in
      result r = Val tt
      /\ store r = files
      /\ List.filter is_download (events r) = []
      /\ forall release,
           api_release env url = Success release ->
           events r = [Get url false; Log ERROR (MsgReleaseUnknownError ValueError)])
  /\ (forall cfg files,
      files !! Single.VERSION_FILE_MASTER = Some content ->
      let url := Single.GITHUB_API_URL cfg +:+ "/commits/master" in
      let r := Single.check_and_download_master env cfg files in
      result r = Val tt
      /\ store r = files
      /\ List.filter is_download (events r) = []
      /\ forall commit,
           api_commit env url = Success commit ->
           events r = [Get url false; Log ERROR (MsgBranchUnknownError ValueError)])
  /\ (forall api_url repo_dir releases_dir version_file release_notes_file files,
      files !! version_file = Some content ->
      let url := api_url +:+ "/releases/latest" in
      let r := Multi.check_and_download_release env api_url repo_dir releases_dir
                 version_file release_notes_file files in
      result r = Val tt
      /\ store r = files
      /\ List.filter is_download (events r) = []
      /\ forall release,
           api_release env url = Success release ->
           events r = [Get url false; Log ERROR (MsgReleaseUnknownError ValueError)]).
Proof.
  intros Hcount. apply malformed_record_raises in Hcount as Hbad.
  split; [| split].
  - intros cfg files Hfile url r. subst url r.
    apply exists_true in Hfile as Hpresent.
    unfold Single.check_and_download_release, Single.get_latest_release.
    malformed_proof Hbad (api_release env (Single.GITHUB_API_URL cfg +:+ "/releases/latest")).
  - intros cfg files Hfile url r. subst url r.
    apply exists_true in Hfile as Hpresent.
    unfold Single.check_and_download_master, Single.get_latest_commit.
    malformed_proof Hbad (api_commit env (Single.GITHUB_API_URL cfg +:+ "/commits/master")).
  - intros api_url repo_dir releases_dir version_file release_notes_file files Hfile url r.
    subst url r.
    apply exists_true in Hfile as Hpresent.
    unfold Multi.check_and_download_release, Multi.get_latest_release.
    malformed_proof Hbad (api_release env (api_url +:+ "/releases/latest")).
Qed.

Lemma malformed_state_file_is_survived_witness :
  let files : Files := {[ Single.VERSION_FILE_RELEASE := "v1.0,abc123,extra" ]} in
  let r := Single.check_and_download_release Sample.env Sample.cfg files in
  result r = Val tt
  /\ store r = files
  /\ events r =
       [Get "https://api.github.com/repos/GreemDev/Ryujinx/releases/latest" false;
        Log ERROR (MsgReleaseUnknownError ValueError)].
Proof.
  intros files.
  assert (Hcount : Py.count "," (Py.strip Py.isspace "v1.0,abc123,extra") <> 1)
    by (vm_compute; lia).
  destruct (malformed_state_file_is_survived Sample.env "v1.0,abc123,extra" Hcount)
    as [Hsingle _].
  destruct (Hsingle Sample.cfg files eq_refl) as (Hres & Hstore & _ & Hev).
  split; [exact Hres |]. split; [exact Hstore |].
  exact (Hev Sample.release eq_refl).
Defined.

(** ** Branch Sync *)

Ltac commit_new_cases :=
  match goal with
  | Hnew : commit_is_new _ _ _ |- _ =>
      destruct Hnew as [Habsent | (content & stored & ch & Hfile & Hsplit & Hdiff)];
      [ apply exists_false in Habsent
      | apply exists_true in Hfile as Hpresent; apply String.eqb_neq in Hdiff ]
  end.

Lemma single_master_new env cfg files commit :
  api_commit env (Single.GITHUB_API_URL cfg +:+ "/commits/master") = Success commit ->
  commit_is_new files Single.VERSION_FILE_MASTER commit ->
  let meta := Get (Single.GITHUB_API_URL cfg +:+ "/commits/master") false in
  let url := single_archive_url cfg in
  let dest := single_archive_dest cfg in
  Single.check_and_download_master env cfg files =
    if download_raises env url dest then
      mkRun (Val tt) files
        [meta; Log INFO MsgBranchFound; Get url true;
         Log ERROR (MsgBranchUnknownError OSError)]
    else if writable env Single.VERSION_FILE_MASTER then
      mkRun (Val tt)
        (<[Single.VERSION_FILE_MASTER := "master," +:+ sha commit]> (landed env url dest files))
        [meta; Log INFO MsgBranchFound; Get url true; download_report env url dest;
         Log INFO (MsgBranchStateUpdated (sha commit))]
    else
      mkRun (Val tt) (landed env url dest files)
        [meta; Log INFO MsgBranchFound; Get url true; download_report env url dest;
         Log ERROR (MsgBranchUnknownError OSError)].
Proof.
  intros Hfetch Hnew meta url dest. subst meta url dest.
  unfold single_archive_url, single_archive_dest.
  unfold Single.check_and_download_master, Single.get_latest_commit.
  commit_new_cases; unfold_monad;
    repeat first [step | rewrite download_file_run];
    destruct (download_raises env _ _); repeat step; try reflexivity;
    destruct (writable env Single.VERSION_FILE_MASTER); repeat step; reflexivity.
Qed.

Lemma parse_github_url_run api_url files :
  2 <= length (path_parts api_url) ->
  Multi.parse_github_url api_url files =
    mkRun (Val (Some (nth 0 (path_parts api_url) ""), Some (nth 1 (path_parts api_url) "")))
          files [].
Proof.
  intros Hlen. unfold Multi.parse_github_url.
  destruct (Nat.ltb_spec (length (path_parts api_url)) 2); [lia | reflexivity].
Qed.

Lemma multi_master_new env api_url repo_dir master_zip_path version_file_master branch
    files commit :
  2 <= length (path_parts api_url) ->
  api_commit env (api_url +:+ "/commits/" +:+ branch) = Success commit ->
  commit_is_new files version_file_master commit ->
  let meta := Get (api_url +:+ "/commits/" +:+ branch) false in
  let url := multi_archive_url api_url branch in
  Multi.check_and_download_master env api_url repo_dir master_zip_path version_file_master
      branch files =
    if download_raises env url master_zip_path then
      mkRun (Val tt) files
        [meta; Log INFO MsgBranchFound; Get url true;
         Log ERROR (MsgBranchUnknownError OSError)]
    else if writable env version_file_master then
      mkRun (Val tt)
        (<[version_file_master := branch +:+ "," +:+ sha commit]>
           (landed env url master_zip_path files))
        [meta; Log INFO MsgBranchFound; Get url true;
         download_report env url master_zip_path;
         Log INFO (MsgBranchStateUpdated (sha commit))]
    else
      mkRun (Val tt) (landed env url master_zip_path files)
        [meta; Log INFO MsgBranchFound; Get url true;
         download_report env url master_zip_path;
         Log ERROR (MsgBranchUnknownError OSError)].
Proof.
  intros Hlen Hfetch Hnew meta url. subst meta url.
  unfold multi_archive_url.
  unfold Multi.check_and_download_master, Multi.get_latest_commit.
  pose proof (fun f => parse_github_url_run api_url f Hlen) as Hparse.
  commit_new_cases; unfold_monad;
    repeat first [step | rewrite Hparse | rewrite download_file_run];
    destruct (download_raises env _ _); repeat step; try reflexivity;
    destruct (writable env version_file_master); repeat step; reflexivity.
Qed.

(** C5. In Branch Sync, once a new commit hash is detected (and the state
    file can be written), the state file is overwritten with
    [(branch, sha)] even when the request for the archive fails, since
    [download_file] logs that failure instead of raising it; the state
    stays behind only when the call of [download_file] itself raises,
    which it does on a local write error.  Both variants. *)
Theorem branch_state_advances_unless_download_raises env files commit :
  (forall cfg,
      api_commit env (Single.GITHUB_API_URL cfg +:+ "/commits/master") = Success commit ->
      commit_is_new files Single.VERSION_FILE_MASTER commit ->
      writable env Single.VERSION_FILE_MASTER = true ->
      let url := single_archive_url cfg in
      let dest := single_archive_dest cfg in
      let r := Single.check_and_download_master env cfg files in
      (download env url = HttpFailure \/ download env url = NetworkFailure ->
       store r !! Single.VERSION_FILE_MASTER = Some ("master," +:+ sha commit)
       /\ exists e, In (Log ERROR (MsgDownloadFailed url e)) (events r))
      /\ (result (download_file env url dest files) = Val tt ->
          store r !! Single.VERSION_FILE_MASTER = Some ("master," +:+ sha commit))
      /\ (result (download_file env url dest files) = Raise OSError ->
          result r = Val tt /\ store r = files))
  /\ (forall api_url repo_dir master_zip_path version_file_master branch,
      2 <= length (path_parts api_url) ->
      api_commit env (api_url +:+ "/commits/" +:+ branch) = Success commit ->
      commit_is_new files version_file_master commit ->
      writable env version_file_master = true ->
      let url := multi_archive_url api_url branch in
      let r := Multi.check_and_download_master env api_url repo_dir master_zip_path
                 version_file_master branch files in
      (download env url = HttpFailure \/ download env url = NetworkFailure ->
       store r !! version_file_master = Some (branch +:+ "," +:+ sha commit)
       /\ exists e, In (Log ERROR (MsgDownloadFailed url e)) (events r))
      /\ (result (download_file env url master_zip_path files) = Val tt ->
          store r !! version_file_master = Some (branch +:+ "," +:+ sha commit))
      /\ (result (download_file env url master_zip_path files) = Raise OSError ->
          result r = Val tt /\ store r = files)).
Proof.
  split.
  - intros cfg Hfetch Hnew Hstate url dest r.
    pose proof (single_master_new env cfg files commit Hfetch Hnew) as Hrun.
    cbn zeta in Hrun. fold url dest in Hrun. fold r in Hrun.
    rewrite Hstate in Hrun. rewrite download_file_run.
    split; [| split].
    + intros Hreq.
      assert (Hno : download_raises env url dest = false)
        by (unfold download_raises; destruct Hreq as [-> | ->]; reflexivity).
      rewrite Hno in Hrun. rewrite Hrun. cbn [store events].
      split; [apply lookup_insert_eq |].
      unfold download_report.
      destruct Hreq as [-> | ->]; eexists; simpl; eauto 6.
    + destruct (download_raises env url dest); [discriminate |].
      intros _. rewrite Hrun. apply lookup_insert_eq.
    + destruct (download_raises env url dest); [| discriminate].
      intros _. by rewrite Hrun.
  - intros api_url repo_dir master_zip_path version_file_master branch
      Hlen Hfetch Hnew Hstate url r.
    pose proof (multi_master_new env api_url repo_dir master_zip_path version_file_master
                  branch files commit Hlen Hfetch Hnew) as Hrun.
    cbn zeta in Hrun. fold url in Hrun. fold r in Hrun.
    rewrite Hstate in Hrun. rewrite download_file_run.
    split; [| split].
    + intros Hreq.
      assert (Hno : download_raises env url master_zip_path = false)
        by (unfold download_raises; destruct Hreq as [-> | ->]; reflexivity).
      rewrite Hno in Hrun. rewrite Hrun. cbn [store events].
      split; [apply lookup_insert_eq |].
      unfold download_report.
      destruct Hreq as [-> | ->]; eexists; simpl; eauto 6.
    + destruct (download_raises env url master_zip_path); [discriminate |].
      intros _. rewrite Hrun. apply lookup_insert_eq.
    + destruct (download_raises env url master_zip_path); [| discriminate].
      intros _. by rewrite Hrun.
Qed.

(** The archive request is answered with an HTTP error and the branch
    state is written all the same; the archive arrives but its file
    cannot be opened, and the branch state stays as it was. *)
Lemma branch_state_advances_unless_download_raises_witness :
  let r := Single.check_and_download_master Sample.env_no_downloads Sample.cfg ∅ in
  let r' := Single.check_and_download_master Sample.env_archive_refused Sample.cfg ∅ in
  (store r !! Single.VERSION_FILE_MASTER = Some "master,0123abc"
   /\ exists e,
        In (Log ERROR
              (MsgDownloadFailed
                 "https://github.com/GreemDev/Ryujinx/archive/refs/heads/master.zip" e))
           (events r))
  /\ result r' = Val tt /\ store r' = ∅.
Proof.
  intros r r'.
  assert (Hnew : commit_is_new ∅ Single.VERSION_FILE_MASTER Sample.commit)
    by (left; reflexivity).
  split.
  - destruct (branch_state_advances_unless_download_raises Sample.env_no_downloads ∅
                Sample.commit) as [Hsingle _].
    destruct (Hsingle Sample.cfg eq_refl Hnew eq_refl) as (Hfail & _ & _).
    apply Hfail. left. reflexivity.
  - destruct (branch_state_advances_unless_download_raises Sample.env_archive_refused ∅
                Sample.commit) as [Hsingle _].
    destruct (Hsingle Sample.cfg eq_refl Hnew eq_refl) as (_ & _ & Hraise).
    apply Hraise. reflexivity.
Defined.

(** ** The shape of every sync attempt *)

Lemma assets_loop_internal env dir release files :
  exists res files' evs,
    Multi.download_release_assets env release dir files = mkRun res files' evs
    /\ (res = Val tt \/ res = Raise OSError)
    /\ forallb is_internal evs = true
    /\ forall m, In (Log INFO m) evs -> is_state_report (Log INFO m) = false.
Proof.
  unfold Multi.download_release_assets.
  generalize (assets release) as l. intros l. revert files.
  induction l as [| a l IH]; intros files.
  - exists (Val tt), files, []. repeat split; auto. intros m [].
  - rewrite for_each_cons, asset_body_run.
    destruct (download_raises env _ _).
    + eexists _, _, _. split; [reflexivity |]. repeat split; auto.
      intros m [Hm | [Hm | []]]; inversion Hm; reflexivity.
    + destruct (IH (landed env (browser_download_url a) (Lib.os_path_join dir (name a)) files))
        as (res & files' & evs & Hrun & Hres & Hint & Hrep).
      unfold and_then. simpl. rewrite Hrun. simpl.
      eexists _, _, _. split; [reflexivity |]. split; [exact Hres |].
      split.
      * simpl. rewrite Hint. unfold download_report. by destruct (request_error _).
      * intros m [Hm | [Hm | [Hm | Hm]]]; try (inversion Hm; reflexivity);
          [| by apply Hrep].
        unfold download_report in Hm.
        destruct (request_error _); inversion Hm; reflexivity.
Qed.

Lemma download_report_internal env url dest :
  is_internal (download_report env url dest) = true.
Proof. unfold download_report. by destruct (request_error _). Qed.

(** Case analysis on membership in the event list of one run. *)
Ltac in_events Hin Hrep :=
  simpl in Hin;
  repeat match type of Hin with
         | _ \/ _ => destruct Hin as [Hin | Hin]
         | In _ (_ ++ _) => apply in_app_or in Hin
         | In _ (_ :: _) => simpl in Hin
         | In _ [] => destruct Hin
         | False => destruct Hin
         | Log _ _ = Log _ _ => inversion Hin; subst; clear Hin
         | download_report _ _ _ = _ =>
             unfold download_report in Hin; destruct (request_error _); discriminate Hin
         | _ = _ => discriminate Hin
         | In _ _ => apply Hrep in Hin; discriminate Hin
         end.

Ltac shape_done Hint Hrep :=
  eexists _, _; split; [reflexivity |];
  split; [simpl; rewrite ?forallb_app, ?Hint, ?download_report_internal; reflexivity |];
  let v := fresh "v" in
  let Hin := fresh "Hin" in
  intros v Hin; in_events Hin Hrep;
  try (eexists; split; [reflexivity |]; split; [reflexivity |]; apply lookup_insert_eq).

Ltac new_release_cases env version_file notes_file Hres Hint Hrep :=
  destruct Hres as [-> | ->];
  destruct (writable env notes_file) eqn:Hnotes;
  destruct (writable env version_file) eqn:Hstate;
  run; shape_done Hint Hrep.

Ltac release_shape_proof env files reply loop version_file notes_file :=
  let release := fresh "release" in
  destruct reply as [release | |] eqn:Hfetch;
  [ destruct (loop release) as (res & files1 & evs1 & Hloop & Hres & Hint & Hrep);
    destruct (files !! version_file) as [content |] eqn:Hfile;
    [ apply exists_true in Hfile as Hpresent;
      destruct (Py.split "," (Py.strip Py.isspace content))
        as [| a [| b [| c l]]] eqn:Hsplit;
      [ run; shape_done Hint Hrep
      | run; shape_done Hint Hrep
      | destruct (String.eqb a (tag_name release)
                  && String.eqb b (target_commitish release)) eqn:Hcmp;
        [ run; shape_done Hint Hrep
        | new_release_cases env version_file notes_file Hres Hint Hrep ]
      | run; shape_done Hint Hrep ]
    | apply exists_false in Hfile as Habsent;
      new_release_cases env version_file notes_file Hres Hint Hrep ]
  | run; shape_done I I
  | run; shape_done I I ].

(** Every Release Sync ends normally; it starts with the metadata
    request, shows only log lines and downloads after it, and reports a
    state update only when the state file holds the fetched pair. *)
Lemma multi_release_shape env api_url repo_dir releases_dir version_file release_notes_file
    files :
  exists files' evs,
    Multi.check_and_download_release env api_url repo_dir releases_dir version_file
        release_notes_file files =
      mkRun (Val tt) files' (Get (api_url +:+ "/releases/latest") false :: evs)
    /\ forallb is_internal evs = true
    /\ forall v,
         In (Log INFO (MsgReleaseStateUpdated v)) evs ->
         exists release,
           api_release env (api_url +:+ "/releases/latest") = Success release
           /\ v = tag_name release
           /\ files' !! version_file
              = Some (tag_name release +:+ "," +:+ target_commitish release).
Proof.
  unfold Multi.check_and_download_release, Multi.get_latest_release,
    Multi.generate_release_notes.
  release_shape_proof env files (api_release env (api_url +:+ "/releases/latest"))
    (fun release => assets_loop_internal env releases_dir release files)
    version_file release_notes_file.
Qed.

Lemma single_assets_loop_internal env cfg release files :
  exists res files' evs,
    Single.download_release_assets env cfg release files = mkRun res files' evs
    /\ (res = Val tt \/ res = Raise OSError)
    /\ forallb is_internal evs = true
    /\ forall m, In (Log INFO m) evs -> is_state_report (Log INFO m) = false.
Proof. exact (assets_loop_internal env (Single.DOWNLOAD_DIR cfg) release files). Qed.

Lemma single_release_shape env cfg files :
  exists files' evs,
    Single.check_and_download_release env cfg files =
      mkRun (Val tt) files'
        (Get (Single.GITHUB_API_URL cfg +:+ "/releases/latest") false :: evs)
    /\ forallb is_internal evs = true
    /\ forall v,
         In (Log INFO (MsgReleaseStateUpdated v)) evs ->
         exists release,
           api_release env (Single.GITHUB_API_URL cfg +:+ "/releases/latest") = Success release
           /\ v = tag_name release
           /\ files' !! Single.VERSION_FILE_RELEASE
              = Some (tag_name release +:+ "," +:+ target_commitish release).
Proof.
  unfold Single.check_and_download_release, Single.get_latest_release,
    Single.generate_release_notes.
  release_shape_proof env files
    (api_release env (Single.GITHUB_API_URL cfg +:+ "/releases/latest"))
    (fun release => single_assets_loop_internal env cfg release files)
    Single.VERSION_FILE_RELEASE Single.RELEASE_NOTES_FILE.
Qed.

Ltac new_commit_cases env version_file :=
  unfold_monad; repeat first [step | rewrite download_file_run];
  destruct (download_raises env _ _); repeat step;
  [ shape_done I I
  | destruct (writable env version_file) eqn:Hstate; repeat step; shape_done I I ].

Ltac master_shape_proof env files reply version_file :=
  let commit := fresh "commit" in
  destruct reply as [commit | |] eqn:Hfetch;
  [ destruct (files !! version_file) as [content |] eqn:Hfile;
    [ apply exists_true in Hfile as Hpresent;
      destruct (Py.split "," (Py.strip Py.isspace content))
        as [| a [| b [| c l]]] eqn:Hsplit;
      [ run; shape_done I I
      | run; shape_done I I
      | destruct (String.eqb b (sha commit)) eqn:Hcmp;
        [ run; shape_done I I
        | new_commit_cases env version_file ]
      | run; shape_done I I ]
    | apply exists_false in Hfile as Habsent;
      new_commit_cases env version_file ]
  | run; shape_done I I
  | run; shape_done I I ].

(** Every Branch Sync ends normally; it starts with the metadata
    request, shows only log lines and the archive download after it, and
    reports a state update only when the state file holds the branch and
    the fetched hash. *)
Lemma single_master_shape env cfg files :
  exists files' evs,
    Single.check_and_download_master env cfg files =
      mkRun (Val tt) files'
        (Get (Single.GITHUB_API_URL cfg +:+ "/commits/master") false :: evs)
    /\ forallb is_internal evs = true
    /\ forall h,
         In (Log INFO (MsgBranchStateUpdated h)) evs ->
         exists commit,
           api_commit env (Single.GITHUB_API_URL cfg +:+ "/commits/master") = Success commit
           /\ h = sha commit
           /\ files' !! Single.VERSION_FILE_MASTER = Some ("master," +:+ sha commit).
Proof.
  unfold Single.check_and_download_master, Single.get_latest_commit.
  change ("/commits/" +:+ "master") with "/commits/master".
  master_shape_proof env files
    (api_commit env (Single.GITHUB_API_URL cfg +:+ "/commits/master"))
    Single.VERSION_FILE_MASTER.
Qed.

Lemma multi_master_shape env api_url repo_dir master_zip_path version_file_master branch
    files :
  exists files' evs,
    Multi.check_and_download_master env api_url repo_dir master_zip_path
        version_file_master branch files =
      mkRun (Val tt) files' (Get (api_url +:+ "/commits/" +:+ branch) false :: evs)
    /\ forallb is_internal evs = true
    /\ forall h,
         In (Log INFO (MsgBranchStateUpdated h)) evs ->
         exists commit,
           api_commit env (api_url +:+ "/commits/" +:+ branch) = Success commit
           /\ h = sha commit
           /\ files' !! version_file_master = Some (branch +:+ "," +:+ sha commit).
Proof.
  unfold Multi.check_and_download_master, Multi.get_latest_commit, Multi.parse_github_url.
  destruct (length (path_parts api_url) <? 2) eqn:Hparts;
    master_shape_proof env files (api_commit env (api_url +:+ "/commits/" +:+ branch))
      version_file_master.
Qed.

(** No exception leaves a sync attempt. *)
Lemma sync_attempt_never_raises env cfg files :
  result (Single.check_and_download_release env cfg files) = Val tt
  /\ result (Single.check_and_download_master env cfg files) = Val tt.
Proof.
  destruct (single_release_shape env cfg files) as (f1 & evs1 & -> & _).
  destruct (single_master_shape env cfg files) as (f2 & evs2 & -> & _).
  by split.
Qed.

(** ** The format of the state files *)

Lemma in_after_request {m url evs} :
  In (Log INFO m) (Get url false :: evs) -> In (Log INFO m) evs.
Proof. intros [H | H]; [discriminate | exact H]. Qed.

(** C8 (as the code has it).  Whenever a sync reports a state update, the
    state file then holds exactly one comma-separated record and nothing
    after it, in particular no newline: the fetched [tag,commit] for
    Release Sync and [branch,sha] for Branch Sync ([master] in the
    single-repository script), whatever the file held before.  Both
    variants. *)
Theorem state_update_writes_one_bare_record env files :
  (forall cfg v,
      let r := Single.check_and_download_release env cfg files in
      In (Log INFO (MsgReleaseStateUpdated v)) (events r) ->
      exists release,
        api_release env (Single.GITHUB_API_URL cfg +:+ "/releases/latest") = Success release
        /\ v = tag_name release
        /\ store r !! Single.VERSION_FILE_RELEASE
           = Some (tag_name release +:+ "," +:+ target_commitish release))
  /\ (forall cfg h,
      let r := Single.check_and_download_master env cfg files in
      In (Log INFO (MsgBranchStateUpdated h)) (events r) ->
      exists commit,
        api_commit env (Single.GITHUB_API_URL cfg +:+ "/commits/master") = Success commit
        /\ h = sha commit
        /\ store r !! Single.VERSION_FILE_MASTER = Some ("master," +:+ sha commit))
  /\ (forall api_url repo_dir releases_dir version_file release_notes_file v,
      let r := Multi.check_and_download_release env api_url repo_dir releases_dir
                 version_file release_notes_file files in
      In (Log INFO (MsgReleaseStateUpdated v)) (events r) ->
      exists release,
        api_release env (api_url +:+ "/releases/latest") = Success release
        /\ v = tag_name release
        /\ store r !! version_file
           = Some (tag_name release +:+ "," +:+ target_commitish release))
  /\ (forall api_url repo_dir master_zip_path version_file_master branch h,
      let r := Multi.check_and_download_master env api_url repo_dir master_zip_path
                 version_file_master branch files in
      In (Log INFO (MsgBranchStateUpdated h)) (events r) ->
      exists commit,
        api_commit env (api_url +:+ "/commits/" +:+ branch) = Success commit
        /\ h = sha commit
        /\ store r !! version_file_master = Some (branch +:+ "," +:+ sha commit)).
Proof.
  split; [| split; [| split]].
  - intros cfg v r.
    destruct (single_release_shape env cfg files) as (files' & evs & Hrun & _ & Hrep).
    subst r. rewrite Hrun. cbn [events store]. intros Hin.
    apply Hrep. exact (in_after_request Hin).
  - intros cfg h r.
    destruct (single_master_shape env cfg files) as (files' & evs & Hrun & _ & Hrep).
    subst r. rewrite Hrun. cbn [events store]. intros Hin.
    apply Hrep. exact (in_after_request Hin).
  - intros api_url repo_dir releases_dir version_file release_notes_file v r.
    destruct (multi_release_shape env api_url repo_dir releases_dir version_file
                release_notes_file files) as (files' & evs & Hrun & _ & Hrep).
    subst r. rewrite Hrun. cbn [events store]. intros Hin.
    apply Hrep. exact (in_after_request Hin).
  - intros api_url repo_dir master_zip_path version_file_master branch h r.
    destruct (multi_master_shape env api_url repo_dir master_zip_path version_file_master
                branch files) as (files' & evs & Hrun & _ & Hrep).
    subst r. rewrite Hrun. cbn [events store]. intros Hin.
    apply Hrep. exact (in_after_request Hin).
Qed.

Lemma state_update_writes_one_bare_record_witness :
  let r := Single.check_and_download_release Sample.env Sample.cfg ∅ in
  exists release,
    api_release Sample.env "https://api.github.com/repos/GreemDev/Ryujinx/releases/latest"
      = Success release
    /\ "v1.1" = tag_name release
    /\ store r !! Single.VERSION_FILE_RELEASE
       = Some (tag_name release +:+ "," +:+ target_commitish release).
Proof.
  intros r.
  destruct (state_update_writes_one_bare_record Sample.env ∅) as [Hsingle _].
  apply (Hsingle Sample.cfg "v1.1").
  vm_compute. tauto.
Defined.

(** The record Release Sync writes for [v1.1] at [def456] is
    ["v1.1,def456"], eleven characters with no newline at the end, and
    Branch Sync writes ["master,0123abc"]. *)
Lemma state_record_newline_counterexample :
  let r := Single.check_and_download_release Sample.env Sample.cfg ∅ in
  let b := Single.check_and_download_master Sample.env Sample.cfg ∅ in
  In (Log INFO (MsgReleaseStateUpdated "v1.1")) (events r)
  /\ store r !! Single.VERSION_FILE_RELEASE = Some "v1.1,def456"
  /\ store r !! Single.VERSION_FILE_RELEASE <> Some ("v1.1,def456" +:+ Py.nl)
  /\ In (Log INFO (MsgBranchStateUpdated "0123abc")) (events b)
  /\ store b !! Single.VERSION_FILE_MASTER = Some "master,0123abc"
  /\ store b !! Single.VERSION_FILE_MASTER <> Some ("master,0123abc" +:+ Py.nl).
Proof.
  vm_compute. repeat split; try tauto; discriminate.
Qed.

(** ** First run *)

Lemma metadata_requests_app evs1 evs2 :
  metadata_requests (evs1 ++ evs2) = metadata_requests evs1 ++ metadata_requests evs2.
Proof.
  induction evs1 as [| e evs1 IH]; [reflexivity |].
  destruct e as [url [] | | |]; simpl; by rewrite IH.
Qed.

Lemma metadata_requests_internal evs :
  forallb is_internal evs = true -> metadata_requests evs = [].
Proof.
  induction evs as [| e evs IH]; [reflexivity |].
  destruct e as [url [] | | |]; simpl; try discriminate; exact IH.
Qed.

Lemma first_run_condition (files : Files) master_file release_file :
  files !! master_file = None \/ files !! release_file = None ->
  negb (bool_decide (is_Some (files !! master_file)))
  || negb (bool_decide (is_Some (files !! release_file))) = true.
Proof.
  intros [H | H]; apply exists_false in H; rewrite H; simpl;
    [reflexivity | apply orb_true_r].
Qed.

(** C7 (as the code has it).  When at least one of the two state files
    is absent at start-up, the initial download runs Branch Sync first and
    Release Sync second, each whatever the other did, and only then is the
    daily task registered.  Single-repository [main] and, for a URL with
    an owner and a repository, multi-repository [process_repository]. *)
Theorem first_run_syncs_branch_then_release env files :
  (forall cfg,
      files !! Single.VERSION_FILE_MASTER = None
      \/ files !! Single.VERSION_FILE_RELEASE = None ->
      let r := Single.main env cfg files in
      result r = Val tt
      /\ exists branch_evs release_evs,
           events r =
             Log INFO (MsgInitial None)
             :: Get (Single.GITHUB_API_URL cfg +:+ "/commits/master") false :: branch_evs
             ++ Get (Single.GITHUB_API_URL cfg +:+ "/releases/latest") false :: release_evs
             ++ [EveryDayAt "10:00" None; Log INFO (MsgRunning "10:00")]
           /\ forallb is_internal branch_evs = true
           /\ forallb is_internal release_evs = true
           /\ metadata_requests (events r) =
                [Single.GITHUB_API_URL cfg +:+ "/commits/master";
                 Single.GITHUB_API_URL cfg +:+ "/releases/latest"])
  /\ (forall download_dir repo_url owner repo more,
      path_parts repo_url = owner :: repo :: more ->
      owner <> "" -> repo <> "" ->
      let repo_dir := Lib.os_path_join download_dir repo in
      let releases_dir := Lib.os_path_join repo_dir "releases" in
      let api_url := Multi.get_github_api_url owner repo in
      files !! Lib.os_path_join repo_dir "version_info_master.txt" = None
      \/ files !! Lib.os_path_join repo_dir "version_info_release.txt" = None ->
      let r := Multi.process_repository env download_dir repo_url files in
      result r = Val tt
      /\ exists branch_evs release_evs,
           events r =
             Makedirs releases_dir
             :: Log INFO (MsgInitial (Some repo))
             :: Get (api_url +:+ "/commits/master") false :: branch_evs
             ++ Get (api_url +:+ "/releases/latest") false :: release_evs
             ++ [EveryDayAt "10:00" (Some (Job owner repo api_url repo_dir releases_dir));
                 Log INFO (MsgScheduled "10:00" repo)]
           /\ forallb is_internal branch_evs = true
           /\ forallb is_internal release_evs = true
           /\ metadata_requests (events r) =
                [api_url +:+ "/commits/master"; api_url +:+ "/releases/latest"]).
Proof.
  split.
  - intros cfg Habsent r.
    apply first_run_condition in Habsent as Hcond.
    destruct (single_master_shape env cfg files) as (files1 & evs1 & Hm & Hint1 & _).
    destruct (single_release_shape env cfg files1) as (files2 & evs2 & Hr & Hint2 & _).
    subst r. unfold Single.main, Single.initial_download.
    run. split; [reflexivity |].
    exists evs1, evs2. split; [by rewrite <- !app_assoc |].
    split; [exact Hint1 |]. split; [exact Hint2 |].
    repeat progress
      (simpl; rewrite ?metadata_requests_app, ?(metadata_requests_internal _ Hint1),
         ?(metadata_requests_internal _ Hint2)).
    reflexivity.
  - intros download_dir repo_url owner repo more Hparts Howner Hrepo
      repo_dir releases_dir api_url Habsent r.
    apply first_run_condition in Habsent as Hcond.
    destruct (multi_master_shape env api_url repo_dir
                (Lib.os_path_join repo_dir (repo +:+ "_master.zip"))
                (Lib.os_path_join repo_dir "version_info_master.txt") "master" files)
      as (files1 & evs1 & Hm & Hint1 & _).
    destruct (multi_release_shape env api_url repo_dir releases_dir
                (Lib.os_path_join repo_dir "version_info_release.txt")
                (Lib.os_path_join repo_dir "release_notes.txt") files1)
      as (files2 & evs2 & Hr & Hint2 & _).
    subst r repo_dir releases_dir api_url.
    unfold Multi.process_repository, Multi.parse_github_url, Multi.setup_repository_dirs,
      Multi.initial_download.
    rewrite Hparts.
    destruct owner as [| c0 owner]; [done |].
    destruct repo as [| c1 repo]; [done |].
    run. split; [reflexivity |].
    exists evs1, evs2. split; [by rewrite <- !app_assoc |].
    split; [exact Hint1 |]. split; [exact Hint2 |].
    repeat progress
      (simpl; rewrite ?metadata_requests_app, ?(metadata_requests_internal _ Hint1),
         ?(metadata_requests_internal _ Hint2)).
    reflexivity.
Qed.

Lemma first_run_syncs_branch_then_release_witness :
  let r := Single.main Sample.env Sample.cfg ∅ in
  result r = Val tt
  /\ exists branch_evs release_evs,
       events r =
         Log INFO (MsgInitial None)
         :: Get "https://api.github.com/repos/GreemDev/Ryujinx/commits/master" false
         :: branch_evs
         ++ Get "https://api.github.com/repos/GreemDev/Ryujinx/releases/latest" false
         :: release_evs
         ++ [EveryDayAt "10:00" None; Log INFO (MsgRunning "10:00")]
       /\ forallb is_internal branch_evs = true
       /\ forallb is_internal release_evs = true
       /\ metadata_requests (events r) =
            ["https://api.github.com/repos/GreemDev/Ryujinx/commits/master";
             "https://api.github.com/repos/GreemDev/Ryujinx/releases/latest"].
Proof.
  intros r.
  destruct (first_run_syncs_branch_then_release Sample.env ∅) as [Hsingle _].
  apply (Hsingle Sample.cfg). left. reflexivity.
Defined.

(** With no state file at all, the first metadata request of [main] is
    the one of Branch Sync, the second the one of Release Sync: the order
    is not release first. *)
Lemma first_run_order_counterexample :
  let release_url := "https://api.github.com/repos/GreemDev/Ryujinx/releases/latest" in
  let commit_url := "https://api.github.com/repos/GreemDev/Ryujinx/commits/master" in
  let r := Single.main Sample.env Sample.cfg ∅ in
  metadata_requests (events r) = [commit_url; release_url]
  /\ metadata_requests (events r) <> [release_url; commit_url].
Proof.
  vm_compute. split; [reflexivity | discriminate].
Qed.

(** ** Malformed repository URLs *)

Lemma for_each_app {A} (l1 l2 : list A) (body : A -> M unit) files :
  for_each (l1 ++ l2) body files =
  and_then (for_each l1 body files) (fun _ => for_each l2 body).
Proof.
  revert files. induction l1 as [| x l1 IH]; intros files.
  - simpl. unfold and_then, ret. simpl. by destruct (for_each l2 body files).
  - simpl. unfold bind. destruct (body x files) as [[[] | e] files1 evs1]; simpl; [| reflexivity].
    rewrite IH. unfold and_then.
    destruct (for_each l1 body files1) as [[[] | e] files2 evs2]; simpl; [| reflexivity].
    destruct (for_each l2 body files2) as [res files3 evs3].
    by rewrite app_assoc.
Qed.

(** C9. A repository URL whose path has fewer than two segments is
    rejected before any request is made for it: the single-repository
    script logs the error and exits; in the multi-repository script
    [process_repository] logs the error, returns and leaves every file as
    it was.  The loop of [main] over the configured URLs then does for the
    other URLs what it does when the malformed one is not in the list:
    with it, the run over the URLs before it, the one error line, the run
    over the URLs after it; without it, the same two runs.  This holds
    whatever setting the other repositories up does, a raise that ends
    the loop included, so it is stated for every loop body that treats
    the malformed URL as [process_repository] does.  The URL holds no
    bracket, so that [urlparse] returns its path. *)
Theorem malformed_url_is_rejected_alone bad :
  bracket_free bad ->
  length (path_parts bad) < 2 ->
  (forall download_dir files,
      Single.startup bad download_dir files =
        mkRun (Raise SystemExit) files [Log ERROR (MsgInvalidUrl None)])
  /\ (forall env download_dir files,
      Multi.process_repository env download_dir bad files =
        mkRun (Val tt) files [Log ERROR (MsgInvalidUrl (Some bad))])
  /\ (forall env download_dir (setup : string -> M unit),
      (forall files,
          setup bad files = Multi.process_repository env download_dir bad files) ->
      forall earlier later files,
        for_each (earlier ++ bad :: later) setup files =
          and_then (for_each earlier setup files)
            (fun _ => logging_error (MsgInvalidUrl (Some bad)) ;; for_each later setup)%py
        /\ for_each (earlier ++ later) setup files =
             and_then (for_each earlier setup files) (fun _ => for_each later setup)).
Proof.
  intros _ Hlen. apply Nat.ltb_lt in Hlen.
  assert (Hbad : forall env download_dir files,
             Multi.process_repository env download_dir bad files =
               mkRun (Val tt) files [Log ERROR (MsgInvalidUrl (Some bad))]).
  { intros env download_dir files.
    unfold Multi.process_repository, Multi.parse_github_url. run. reflexivity. }
  split; [| split; [exact Hbad |]].
  - intros download_dir files. unfold Single.startup. run. reflexivity.
  - intros env download_dir setup Hsetup earlier later files.
    rewrite !for_each_app. split; [| reflexivity].
    destruct (for_each earlier setup files) as [[[] | e] files1 evs1]; [| reflexivity].
    unfold and_then. rewrite for_each_cons, Hsetup, Hbad.
    unfold bind, and_then, logging_error, emit. reflexivity.
Qed.

Lemma malformed_url_is_rejected_alone_witness :
  let bad := "https://github.com/onlyowner" in
  let good := "https://github.com/GreemDev/Ryujinx" in
  let setup := Multi.process_repository Sample.env "downloads" in
  Single.startup bad "downloads" ∅ =
    mkRun (Raise SystemExit) ∅ [Log ERROR (MsgInvalidUrl None)]
  /\ setup bad ∅ = mkRun (Val tt) ∅ [Log ERROR (MsgInvalidUrl (Some bad))]
  /\ for_each [bad; good] setup ∅ =
       mkRun (result (for_each [good] setup ∅)) (store (for_each [good] setup ∅))
         (Log ERROR (MsgInvalidUrl (Some bad)) :: events (for_each [good] setup ∅)).
Proof.
  intros bad good setup.
  assert (Hfree : bracket_free bad) by (split; reflexivity).
  assert (Hlen : length (path_parts bad) < 2) by (vm_compute; lia).
  destruct (malformed_url_is_rejected_alone bad Hfree Hlen) as (Hsingle & Hmulti & Hloop).
  split; [apply Hsingle |]. split; [apply Hmulti |].
  destruct (Hloop Sample.env "downloads" setup (fun files => eq_refl) [] [good] ∅)
    as [Hwith _].
  change ([] ++ bad :: [good]) with [bad; good] in Hwith. rewrite Hwith.
  unfold for_each at 1, ret, bind, logging_error, emit. unfold and_then.
  by destruct (for_each [good] setup ∅).
Defined.

(** ** The branch archive *)

(** *** The path of an API URL *)

Lemma append_cons c a b : String c a +:+ b = String c (a +:+ b).
Proof. reflexivity. Qed.

Lemma append_nil b : "" +:+ b = b.
Proof. reflexivity. Qed.

Lemma forallb_str_app p a b :
  Py.forallb_str p (a +:+ b) = Py.forallb_str p a && Py.forallb_str p b.
Proof. induction a as [| c a IH]; [reflexivity |]. rewrite append_cons. simpl. by rewrite IH, andb_assoc. Qed.

Lemma forallb_str_impl (p q : ascii -> bool) s :
  (forall c, p c = true -> q c = true) ->
  Py.forallb_str p s = true -> Py.forallb_str q s = true.
Proof.
  intros Hpq. induction s as [| c s IH]; [reflexivity |]. simpl.
  intros [Hc Hs]%andb_true_iff. by rewrite (Hpq c Hc), IH.
Qed.

Lemma remove_chars_id p s :
  Py.forallb_str (fun c => negb (p c)) s = true -> Py.remove_chars p s = s.
Proof.
  induction s as [| c s IH]; [reflexivity |]. simpl.
  intros [Hc Hs]%andb_true_iff. apply negb_true_iff in Hc. by rewrite Hc, IH.
Qed.

Lemma partition_none p s :
  Py.forallb_str (fun c => negb (p c)) s = true -> Py.partition p s = None.
Proof.
  induction s as [| c s IH]; [reflexivity |]. simpl.
  intros [Hc Hs]%andb_true_iff. apply negb_true_iff in Hc. by rewrite Hc, IH.
Qed.

Lemma count_none c s :
  Py.forallb_str (fun d => negb (Ascii.eqb d c)) s = true -> Py.count c s = 0.
Proof.
  induction s as [| d s IH]; [reflexivity |]. simpl.
  intros [Hc Hs]%andb_true_iff. apply negb_true_iff in Hc. by rewrite Hc, IH.
Qed.

Lemma drop_params_id s :
  Py.forallb_str (fun c => negb (Ascii.eqb c ";")) s = true -> Lib.drop_params s = s.
Proof.
  induction s as [| c s IH]; [reflexivity |]. simpl.
  intros [Hc Hs]%andb_true_iff. apply negb_true_iff in Hc. by rewrite Hc, IH.
Qed.

Lemma rstrip_id p s :
  Py.forallb_str (fun c => negb (p c)) s = true -> Py.rstrip p s = s.
Proof.
  induction s as [| c s IH]; [reflexivity |]. simpl.
  intros [Hc Hs]%andb_true_iff. apply negb_true_iff in Hc. rewrite IH by done.
  destruct s; [by rewrite Hc | reflexivity].
Qed.

Lemma rstrip_app_id p a b :
  b <> "" -> Py.rstrip p b = b ->
  Py.rstrip p (a +:+ b) = a +:+ b /\ a +:+ b <> "".
Proof.
  intros Hb Hfix. induction a as [| c a [IH Hne]].
  - by rewrite append_nil.
  - rewrite append_cons. split; [| discriminate].
    simpl. rewrite IH. by destruct (a +:+ b).
Qed.

Lemma split_by_no_sep p s :
  Py.forallb_str (fun c => negb (p c)) s = true -> Py.split_by p s = [s].
Proof.
  induction s as [| c s IH]; [reflexivity |]. simpl.
  intros [Hc Hs]%andb_true_iff. apply negb_true_iff in Hc. by rewrite Hc, IH.
Qed.

Lemma split_by_app_sep p a c b :
  Py.forallb_str (fun c => negb (p c)) a = true -> p c = true ->
  Py.split_by p (a +:+ String c b) = a :: Py.split_by p b.
Proof.
  intros Ha Hc. induction a as [| d a IH].
  - simpl. by rewrite Hc.
  - rewrite append_cons. simpl in *. apply andb_true_iff in Ha as [Hd Ha].
    apply negb_true_iff in Hd. by rewrite Hd, IH.
Qed.

Lemma around_slash_clean (q : ascii -> bool) owner repo :
  (forall c, ordinary c = true -> negb (q c) = true) ->
  q "/"%char = false ->
  Py.forallb_str ordinary owner = true ->
  Py.forallb_str ordinary repo = true ->
  Py.forallb_str (fun c => negb (q c)) (owner +:+ "/" +:+ repo) = true.
Proof.
  intros Hq Hslash Howner Hrepo.
  rewrite forallb_str_app, append_cons, append_nil. simpl.
  rewrite Hslash. simpl.
  by rewrite (forallb_str_impl _ _ owner Hq Howner), (forallb_str_impl _ _ repo Hq Hrepo).
Qed.

Ltac ordinary_char :=
  let c := fresh "c" in
  intros c; unfold ordinary, Py.is_char;
  repeat (destruct (Ascii.eqb c _); simpl; try discriminate); reflexivity.

Lemma api_url_path_parts owner repo :
  Py.forallb_str ordinary owner = true ->
  Py.forallb_str ordinary repo = true ->
  repo <> "" ->
  path_parts (Multi.get_github_api_url owner repo) = ["repos"; owner; repo].
Proof.
  intros Howner Hrepo Hne.
  unfold path_parts, Lib.urlparse_path, Lib.sanitize, Multi.get_github_api_url.
  set (tail := owner +:+ "/" +:+ repo).
  repeat rewrite append_cons. rewrite append_nil.
  simpl.
  rewrite remove_chars_id
    by (apply around_slash_clean; [ordinary_char | reflexivity | done | done]).
  unfold Lib.before. simpl.
  rewrite (partition_none (Py.is_char "#") tail)
    by (apply around_slash_clean; [ordinary_char | reflexivity | done | done]).
  simpl.
  rewrite (partition_none (Py.is_char "?") tail)
    by (apply around_slash_clean; [ordinary_char | reflexivity | done | done]).
  simpl.
  rewrite drop_params_id
    by (apply around_slash_clean; [ordinary_char | reflexivity | done | done]).
  unfold Py.strip. simpl Py.lstrip.
  assert (Hrepo' : Py.rstrip (Py.is_char "/") repo = repo).
  { apply rstrip_id. revert Hrepo. apply forallb_str_impl. ordinary_char. }
  destruct (rstrip_app_id (Py.is_char "/") "/" repo Hne Hrepo') as [H1 Hne1].
  destruct (rstrip_app_id (Py.is_char "/") owner _ Hne1 H1) as [H2 Hne2].
  destruct (rstrip_app_id (Py.is_char "/") "repos/" _ Hne2 H2) as [H3 _].
  change (String "r" (String "e" (String "p" (String "o" (String "s" (String "/" tail))))))
    with ("repos/" +:+ owner +:+ "/" +:+ repo).
  rewrite H3.
  change ("repos/" +:+ owner +:+ "/" +:+ repo)
    with ("repos" +:+ String "/" (owner +:+ String "/" repo)).
  unfold Py.split.
  rewrite split_by_app_sep by reflexivity.
  rewrite split_by_app_sep
    by (try reflexivity; revert Howner; apply forallb_str_impl; ordinary_char).
  rewrite split_by_no_sep
    by (revert Hrepo; apply forallb_str_impl; ordinary_char).
  reflexivity.
Qed.

(** The multi-repository script parses the API URL it built itself, so
    for every owner and repository the archive URL names the owner
    [repos] and the repository [owner]. *)
Lemma multi_archive_url_of_api_url owner repo branch :
  Py.forallb_str ordinary owner = true ->
  Py.forallb_str ordinary repo = true ->
  repo <> "" ->
  multi_archive_url (Multi.get_github_api_url owner repo) branch =
    "https://github.com/repos/" +:+ owner +:+ "/archive/refs/heads/" +:+ branch +:+ ".zip".
Proof.
  intros Howner Hrepo Hne. unfold multi_archive_url.
  rewrite api_url_path_parts by done. reflexivity.
Qed.

Lemma multi_branch_sync_requests_repos_owner env owner repo repo_dir master_zip_path
    version_file_master branch files commit :
  Py.forallb_str ordinary owner = true ->
  Py.forallb_str ordinary repo = true ->
  repo <> "" ->
  let api_url := Multi.get_github_api_url owner repo in
  api_commit env (api_url +:+ "/commits/" +:+ branch) = Success commit ->
  commit_is_new files version_file_master commit ->
  List.filter is_download
    (events (Multi.check_and_download_master env api_url repo_dir master_zip_path
               version_file_master branch files))
  = [Get ("https://github.com/repos/" +:+ owner +:+ "/archive/refs/heads/" +:+ branch
          +:+ ".zip") true].
Proof.
  intros Howner Hrepo Hne api_url Hfetch Hnew.
  assert (Hlen : 2 <= length (path_parts api_url))
    by (unfold api_url; rewrite api_url_path_parts by done; simpl; lia).
  rewrite (multi_master_new env api_url repo_dir master_zip_path version_file_master
             branch files commit Hlen Hfetch Hnew).
  unfold api_url. rewrite multi_archive_url_of_api_url by done.
  destruct (download_raises env _ _); [reflexivity |].
  destruct (writable env version_file_master); simpl;
    unfold download_report; by destruct (request_error _).
Qed.

(** C6, on the code.  For owner [GreemDev] and repository [Ryujinx] the
    single-repository script asks for the archive at
    [https://github.com/GreemDev/Ryujinx/archive/refs/heads/master.zip]
    and stores it as [Ryujinx_master.zip] in the download directory.  The
    multi-repository script stores it under the same name in the
    repository directory, but builds the URL by parsing the API URL
    instead of the repository URL: the path of the API URL starts with
    [repos], so the request goes to
    [https://github.com/repos/GreemDev/archive/refs/heads/master.zip]
    and never to the archive of the repository. *)
Theorem multi_archive_url_is_parsed_from_api_url :
  let expected := "https://github.com/GreemDev/Ryujinx/archive/refs/heads/master.zip" in
  let single := Single.check_and_download_master Sample.env Sample.cfg ∅ in
  let multi := Multi.process_repository Sample.env "downloads"
                 "https://github.com/GreemDev/Ryujinx" ∅ in
  List.filter is_download (events single) = [Get expected true]
  /\ store single !! "downloads/Ryujinx_master.zip" = Some "PK"
  /\ hd_error (List.filter is_download (events multi))
     = Some (Get "https://github.com/repos/GreemDev/archive/refs/heads/master.zip" true)
  /\ ~ In (Get expected true) (events multi)
  /\ In (Log ERROR
           (MsgDownloadFailed
              "https://github.com/repos/GreemDev/archive/refs/heads/master.zip" HTTPError))
        (events multi)
  /\ store multi !! "downloads/Ryujinx/Ryujinx_master.zip" = None
  /\ store multi !! "downloads/Ryujinx/version_info_master.txt" = Some "master,0123abc".
Proof.
  vm_compute.
  repeat split; try reflexivity; try tauto.
  intros H. repeat (destruct H as [H | H]; [discriminate H |]). exact H.
Qed.

(** * Further properties of the scripts *)

(** ** Writing a state record and reading it back *)

Lemma lstrip_app_stop p a c b :
  p c = false -> Py.lstrip p (a +:+ String c b) = Py.lstrip p a +:+ String c b.
Proof.
  intros Hc. induction a as [| d a IH].
  - rewrite append_nil. simpl. by rewrite Hc.
  - rewrite append_cons. simpl. destruct (p d); [exact IH | reflexivity].
Qed.

Lemma rstrip_app_stop p a c b :
  p c = false -> Py.rstrip p (a +:+ String c b) = a +:+ String c (Py.rstrip p b).
Proof.
  intros Hc. induction a as [| d a IH].
  - rewrite !append_nil. simpl. rewrite Hc. by destruct (Py.rstrip p b).
  - rewrite !append_cons. simpl. rewrite IH.
    destruct a; [by rewrite append_nil | by rewrite append_cons].
Qed.

(** Stripping a text that holds a character the strip keeps: only the
    part before it loses its head, only the part after it its tail. *)
Lemma strip_around p a c b :
  p c = false ->
  Py.strip p (a +:+ String c b) = Py.lstrip p a +:+ String c (Py.rstrip p b).
Proof.
  intros Hc. unfold Py.strip. by rewrite lstrip_app_stop, rstrip_app_stop.
Qed.

Lemma count_app c a b : Py.count c (a +:+ b) = Py.count c a + Py.count c b.
Proof.
  induction a as [| d a IH]; [reflexivity |].
  rewrite append_cons. simpl. rewrite IH. lia.
Qed.

Lemma count_zero c s :
  Py.count c s = 0 -> Py.forallb_str (fun d => negb (Py.is_char c d)) s = true.
Proof.
  induction s as [| d s IH]; [reflexivity |]. simpl. unfold Py.is_char at 1.
  destruct (Ascii.eqb d c); simpl; [discriminate | exact IH].
Qed.

Lemma count_lstrip p c s : p c = false -> Py.count c (Py.lstrip p s) = Py.count c s.
Proof.
  intros Hc. induction s as [| d s IH]; [reflexivity |]. simpl.
  destruct (p d) eqn:Hd; [| reflexivity].
  rewrite IH. destruct (Ascii.eqb_spec d c); [congruence | reflexivity].
Qed.

Lemma count_rstrip p c s : p c = false -> Py.count c (Py.rstrip p s) = Py.count c s.
Proof.
  intros Hc. induction s as [| d s IH]; [reflexivity |]. simpl.
  destruct (Py.rstrip p s) as [| e r] eqn:Hr.
  - simpl in IH. rewrite <- IH.
    destruct (p d) eqn:Hd; simpl; [| lia].
    destruct (Ascii.eqb_spec d c); [congruence | reflexivity].
  - simpl in *. by rewrite IH.
Qed.

Lemma count_strip p c s : p c = false -> Py.count c (Py.strip p s) = Py.count c s.
Proof. intros Hc. unfold Py.strip. by rewrite count_rstrip, count_lstrip. Qed.

Lemma record_text a b : a +:+ "," +:+ b = a +:+ String "," b.
Proof. reflexivity. Qed.

(** The record of two comma-free fields splits back into the fields. *)
Lemma split_record a b :
  Py.count "," a = 0 -> Py.count "," b = 0 ->
  Py.split "," (a +:+ String "," b) = [a; b].
Proof.
  intros Ha Hb. unfold Py.split.
  rewrite split_by_app_sep by (try reflexivity; by apply count_zero).
  by rewrite split_by_no_sep by by apply count_zero.
Qed.

(** What the reader of a state file gets from what the writer wrote. *)
Lemma read_back_record a b :
  Py.count "," a = 0 -> Py.count "," b = 0 ->
  Py.split "," (Py.strip Py.isspace (a +:+ "," +:+ b)) =
    [Py.lstrip Py.isspace a; Py.rstrip Py.isspace b].
Proof.
  intros Ha Hb. rewrite record_text, strip_around by reflexivity.
  apply split_record;
    [by rewrite count_lstrip by reflexivity | by rewrite count_rstrip by reflexivity].
Qed.

Lemma single_release_unchanged_run env cfg files release content :
  api_release env (Single.GITHUB_API_URL cfg +:+ "/releases/latest") = Success release ->
  files !! Single.VERSION_FILE_RELEASE = Some content ->
  Py.split "," (Py.strip Py.isspace content) = [tag_name release; target_commitish release] ->
  Single.check_and_download_release env cfg files =
    mkRun (Val tt) files
      [Get (Single.GITHUB_API_URL cfg +:+ "/releases/latest") false;
       Log INFO (MsgReleaseCurrent (tag_name release))].
Proof.
  intros Hfetch Hfile Hsplit. apply exists_true in Hfile as Hpresent.
  unfold Single.check_and_download_release, Single.get_latest_release.
  run. reflexivity.
Qed.

Lemma single_release_malformed_run env cfg files content :
  files !! Single.VERSION_FILE_RELEASE = Some content ->
  Py.count "," (Py.strip Py.isspace content) <> 1 ->
  let r := Single.check_and_download_release env cfg files in
  result r = Val tt /\ store r = files /\ List.filter is_download (events r) = [].
Proof.
  intros Hfile Hcount r. subst r.
  apply malformed_record_raises in Hcount as Hbad.
  apply exists_true in Hfile as Hpresent.
  unfold Single.check_and_download_release, Single.get_latest_release.
  destruct (api_release env (Single.GITHUB_API_URL cfg +:+ "/releases/latest")) eqn:Hfetch;
    run; repeat split; reflexivity.
Qed.

(** X2. A state record written by Release Sync is read back as the same
    pair when the tag and the target hold no comma and no carriage
    return, the tag does not start and the target does not end with white
    space: the next Release Sync under the same remote then stops after
    the metadata request and changes nothing.  The state file the first
    sync finds, if any, holds no carriage return either. *)
Theorem release_state_round_trip env cfg files release :
  api_release env (Single.GITHUB_API_URL cfg +:+ "/releases/latest") = Success release ->
  read_as_stored files Single.VERSION_FILE_RELEASE ->
  release_is_new files Single.VERSION_FILE_RELEASE release ->
  existsb (asset_raises env (Single.DOWNLOAD_DIR cfg)) (assets release) = false ->
  writable env Single.RELEASE_NOTES_FILE = true ->
  writable env Single.VERSION_FILE_RELEASE = true ->
  no_carriage_return (tag_name release) ->
  no_carriage_return (target_commitish release) ->
  Py.count "," (tag_name release) = 0 ->
  Py.count "," (target_commitish release) = 0 ->
  Py.lstrip Py.isspace (tag_name release) = tag_name release ->
  Py.rstrip Py.isspace (target_commitish release) = target_commitish release ->
  let first := Single.check_and_download_release env cfg files in
  Single.check_and_download_release env cfg (store first) =
    mkRun (Val tt) (store first)
      [Get (Single.GITHUB_API_URL cfg +:+ "/releases/latest") false;
       Log INFO (MsgReleaseCurrent (tag_name release))].
Proof.
  intros Hfetch _ Hnew Hloop Hnotes Hstate _ _ Htag Hcommit Hhead Htail first.
  destruct (single_release_new env cfg files release Hfetch Hnew Hloop Hnotes Hstate)
    as [rest Hrun].
  subst first. rewrite Hrun. cbn [store].
  apply (single_release_unchanged_run env cfg _ release
           (tag_name release +:+ "," +:+ target_commitish release) Hfetch).
  - apply lookup_insert_eq.
  - rewrite read_back_record by done. by rewrite Hhead, Htail.
Qed.

Lemma release_state_round_trip_witness :
  let first := Single.check_and_download_release Sample.env Sample.cfg ∅ in
  Single.check_and_download_release Sample.env Sample.cfg (store first) =
    mkRun (Val tt) (store first)
      [Get "https://api.github.com/repos/GreemDev/Ryujinx/releases/latest" false;
       Log INFO (MsgReleaseCurrent "v1.1")].
Proof.
  assert (Hnew : release_is_new ∅ Single.VERSION_FILE_RELEASE Sample.release)
    by (left; reflexivity).
  exact (release_state_round_trip Sample.env Sample.cfg ∅ Sample.release
           eq_refl I Hnew eq_refl eq_refl eq_refl eq_refl eq_refl
           eq_refl eq_refl eq_refl eq_refl).
Defined.

(** X3. A comma in the tag or in the target of a release makes the state
    record unreadable: once Release Sync has written it, every later
    Release Sync, whatever the remote then answers, ends at the unpacking
    error, downloads nothing and leaves the state as it is. *)
Theorem comma_in_release_blocks_later_syncs env cfg files release :
  api_release env (Single.GITHUB_API_URL cfg +:+ "/releases/latest") = Success release ->
  release_is_new files Single.VERSION_FILE_RELEASE release ->
  existsb (asset_raises env (Single.DOWNLOAD_DIR cfg)) (assets release) = false ->
  writable env Single.RELEASE_NOTES_FILE = true ->
  writable env Single.VERSION_FILE_RELEASE = true ->
  0 < Py.count "," (tag_name release) + Py.count "," (target_commitish release) ->
  let first := Single.check_and_download_release env cfg files in
  forall later,
    let r := Single.check_and_download_release later cfg (store first) in
    result r = Val tt
    /\ store r = store first
    /\ List.filter is_download (events r) = [].
Proof.
  intros Hfetch Hnew Hloop Hnotes Hstate Hcomma first later.
  destruct (single_release_new env cfg files release Hfetch Hnew Hloop Hnotes Hstate)
    as [rest Hrun].
  subst first. rewrite Hrun. cbn [store].
  apply (single_release_malformed_run later cfg _
           (tag_name release +:+ "," +:+ target_commitish release)).
  - apply lookup_insert_eq.
  - rewrite count_strip by reflexivity. rewrite record_text, count_app. simpl. lia.
Qed.

Lemma comma_in_release_blocks_later_syncs_witness :
  let first := Single.check_and_download_release (Edge.env_with Edge.release_comma)
                 Sample.cfg ∅ in
  let r := Single.check_and_download_release (Edge.env_with Edge.release_next)
             Sample.cfg (store first) in
  store first !! Single.VERSION_FILE_RELEASE = Some "v1,0,def456"
  /\ result r = Val tt
  /\ store r = store first
  /\ List.filter is_download (events r) = [].
Proof.
  intros first r. split; [reflexivity |].
  assert (Hnew : release_is_new ∅ Single.VERSION_FILE_RELEASE Edge.release_comma)
    by (left; reflexivity).
  assert (Hcomma : 0 < Py.count "," (tag_name Edge.release_comma)
                       + Py.count "," (target_commitish Edge.release_comma))
    by (vm_compute; lia).
  exact (comma_in_release_blocks_later_syncs (Edge.env_with Edge.release_comma) Sample.cfg ∅
           Edge.release_comma eq_refl Hnew eq_refl eq_refl eq_refl Hcomma
           (Edge.env_with Edge.release_next)).
Defined.

(** X4. A tag that starts with white space, or a target that ends with
    it, is written as it is and read back stripped, so the stored pair
    never equals the fetched one: the next Release Sync under the same
    remote downloads every asset again and rewrites the same record. *)
Theorem padded_release_is_downloaded_again env cfg files release :
  api_release env (Single.GITHUB_API_URL cfg +:+ "/releases/latest") = Success release ->
  release_is_new files Single.VERSION_FILE_RELEASE release ->
  existsb (asset_raises env (Single.DOWNLOAD_DIR cfg)) (assets release) = false ->
  writable env Single.RELEASE_NOTES_FILE = true ->
  writable env Single.VERSION_FILE_RELEASE = true ->
  Py.count "," (tag_name release) = 0 ->
  Py.count "," (target_commitish release) = 0 ->
  Py.lstrip Py.isspace (tag_name release) <> tag_name release
  \/ Py.rstrip Py.isspace (target_commitish release) <> target_commitish release ->
  let first := Single.check_and_download_release env cfg files in
  let second := Single.check_and_download_release env cfg (store first) in
  List.filter is_download (events second)
  = map (fun asset => Get (browser_download_url asset) true) (assets release)
  /\ store second !! Single.VERSION_FILE_RELEASE
     = store first !! Single.VERSION_FILE_RELEASE.
Proof.
  intros Hfetch Hnew Hloop Hnotes Hstate Htag Hcommit Hpad first second.
  destruct (single_release_new env cfg files release Hfetch Hnew Hloop Hnotes Hstate)
    as [rest Hrun].
  assert (Hagain : release_is_new (store first) Single.VERSION_FILE_RELEASE release).
  { right. exists (tag_name release +:+ "," +:+ target_commitish release),
      (Py.lstrip Py.isspace (tag_name release)),
      (Py.rstrip Py.isspace (target_commitish release)).
    subst first. rewrite Hrun. cbn [store].
    split; [apply lookup_insert_eq |]. split; [by apply read_back_record | exact Hpad]. }
  destruct (single_release_new env cfg (store first) release Hfetch Hagain Hloop Hnotes Hstate)
    as [rest' Hrun'].
  subst second. rewrite Hrun'. cbn [events store].
  split; [apply downloads_of_release_update |].
  subst first. rewrite Hrun. cbn [store]. by rewrite !lookup_insert_eq.
Qed.

Lemma padded_release_is_downloaded_again_witness :
  let env := Edge.env_with Edge.release_padded in
  let first := Single.check_and_download_release env Sample.cfg ∅ in
  let second := Single.check_and_download_release env Sample.cfg (store first) in
  List.filter is_download (events second) = [Get "https://dl.example/a.zip" true]
  /\ store second !! Single.VERSION_FILE_RELEASE
     = store first !! Single.VERSION_FILE_RELEASE.
Proof.
  intros env first second.
  assert (Hnew : release_is_new ∅ Single.VERSION_FILE_RELEASE Edge.release_padded)
    by (left; reflexivity).
  assert (Hpad : Py.lstrip Py.isspace (tag_name Edge.release_padded)
                 <> tag_name Edge.release_padded
                 \/ Py.rstrip Py.isspace (target_commitish Edge.release_padded)
                    <> target_commitish Edge.release_padded)
    by (left; vm_compute; discriminate).
  exact (padded_release_is_downloaded_again env Sample.cfg ∅ Edge.release_padded
           eq_refl Hnew eq_refl eq_refl eq_refl eq_refl eq_refl Hpad).
Defined.

(** ** Branch Sync when nothing changed *)

(** X1. Branch Sync compares the stored hash alone: when the state file
    holds the fetched hash after whatever branch name, it stops after the
    metadata request, downloads nothing and leaves the file store as it
    was, so repeating it changes nothing.  Both variants. *)
Theorem branch_sync_unchanged_ignores_branch_name env commit content stored_branch :
  Py.split "," (Py.strip Py.isspace content) = [stored_branch; sha commit] ->
  (forall cfg files,
      api_commit env (Single.GITHUB_API_URL cfg +:+ "/commits/master") = Success commit ->
      files !! Single.VERSION_FILE_MASTER = Some content ->
      Single.check_and_download_master env cfg files =
        mkRun (Val tt) files
          [Get (Single.GITHUB_API_URL cfg +:+ "/commits/master") false;
           Log INFO MsgBranchCurrent])
  /\ (forall api_url repo_dir master_zip_path version_file_master branch files,
      api_commit env (api_url +:+ "/commits/" +:+ branch) = Success commit ->
      files !! version_file_master = Some content ->
      Multi.check_and_download_master env api_url repo_dir master_zip_path
          version_file_master branch files =
        mkRun (Val tt) files
          [Get (api_url +:+ "/commits/" +:+ branch) false; Log INFO MsgBranchCurrent]).
Proof.
  intros Hsplit. split.
  - intros cfg files Hfetch Hfile. apply exists_true in Hfile as Hpresent.
    unfold Single.check_and_download_master, Single.get_latest_commit.
    run. reflexivity.
  - intros api_url repo_dir master_zip_path version_file_master branch files Hfetch Hfile.
    apply exists_true in Hfile as Hpresent.
    unfold Multi.check_and_download_master, Multi.get_latest_commit.
    run. reflexivity.
Qed.

(** The state was written for [master]; the script now follows [develop],
    whose head is the same commit. *)
Lemma branch_sync_unchanged_ignores_branch_name_witness :
  let files : Files := {[ "state.txt" := "master,0123abc" ]} in
  Multi.check_and_download_master (Edge.env_with Sample.release)
      "https://api.github.com/repos/GreemDev/Ryujinx" "dir" "dir/x.zip" "state.txt"
      "develop" files =
    mkRun (Val tt) files
      [Get "https://api.github.com/repos/GreemDev/Ryujinx/commits/develop" false;
       Log INFO MsgBranchCurrent].
Proof.
  intros files.
  destruct (branch_sync_unchanged_ignores_branch_name (Edge.env_with Sample.release)
              Sample.commit "master,0123abc" "master" eq_refl) as [_ Hmulti].
  exact (Hmulti "https://api.github.com/repos/GreemDev/Ryujinx" "dir" "dir/x.zip"
           "state.txt" "develop" files eq_refl eq_refl).
Defined.

(** ** What a download and a sync may touch *)

(** Paths that name different files are different strings. *)
Lemma distinct_files_neq a b : distinct_files a b = true -> a <> b.
Proof.
  unfold distinct_files. intros Hdistinct ->.
  destruct (Lib.below_cwd b); [| discriminate].
  by apply bool_decide_eq_true_1 in Hdistinct.
Qed.

(** X5. [download_file] lets no request exception out.  It sends one
    streamed request, to [url], and no metadata request; it changes no
    file that is another one than [dest], and none at all when the
    request fails with an HTTP error or a network failure, in which case
    it returns. *)
Theorem download_file_contract env url dest files :
  let r := download_file env url dest files in
  (forall e, result r = Raise e -> is_RequestException e = false)
  /\ List.filter is_download (events r) = [Get url true]
  /\ metadata_requests (events r) = []
  /\ (forall path, distinct_files path dest = true -> store r !! path = files !! path)
  /\ (download env url = HttpFailure \/ download env url = NetworkFailure ->
      result r = Val tt /\ store r = files).
Proof.
  intros r. subst r. rewrite download_file_run.
  unfold download_raises, landed, download_report, request_error.
  destruct (download env url) as [[data | partial] | |];
    try destruct (writable env dest); cbn [result store events];
    (split; [intros e He; try discriminate He; by injection He as <- |]);
    (split; [reflexivity |]); (split; [reflexivity |]);
    (split; [intros path Hpath%distinct_files_neq; try reflexivity;
             apply lookup_insert_ne; congruence |]);
    (intros [Hreq | Hreq]; try discriminate Hreq; by split).
Qed.

Lemma download_file_contract_witness :
  let files : Files := {[ "notes.txt" := "keep" ]} in
  let failed := download_file Sample.env "https://dl.example/b.zip" "downloads/b.zip" files in
  let stored := download_file Sample.env "https://dl.example/a.zip" "downloads/a.zip" files in
  (result failed = Val tt /\ store failed = files)
  /\ store stored !! "notes.txt" = Some "keep".
Proof.
  intros files failed stored. split.
  - destruct (download_file_contract Sample.env "https://dl.example/b.zip"
                "downloads/b.zip" files) as (_ & _ & _ & _ & Hfail).
    apply Hfail. left. reflexivity.
  - destruct (download_file_contract Sample.env "https://dl.example/a.zip"
                "downloads/a.zip" files) as (_ & _ & _ & Hframe & _).
    exact (Hframe "notes.txt" eq_refl).
Defined.

Lemma landed_frame env url dest files path :
  dest <> path -> landed env url dest files !! path = files !! path.
Proof.
  intros Hne. unfold landed.
  destruct (download env url) as [[data | partial] | |];
    try reflexivity; by rewrite lookup_insert_ne.
Qed.

Lemma landed_dom env url dest (files : Files) :
  dom files ⊆ dom (landed env url dest files).
Proof.
  unfold landed.
  destruct (download env url) as [[data | partial] | |];
    try reflexivity; rewrite dom_insert_L; set_solver.
Qed.

Lemma assets_loop_frame env dir release files path :
  (forall asset, In asset (assets release) -> asset_dest dir asset <> path) ->
  store (Multi.download_release_assets env release dir files) !! path = files !! path.
Proof.
  unfold Multi.download_release_assets.
  generalize (assets release) as l. intros l. revert files.
  induction l as [| a l IH]; intros files Hout; [reflexivity |].
  rewrite for_each_cons, asset_body_run.
  destruct (download_raises env _ _); [reflexivity |].
  unfold and_then.
  specialize (IH (landed env (browser_download_url a) (Lib.os_path_join dir (name a)) files)
                 (fun asset Hin => Hout asset (or_intror Hin))).
  destruct (for_each l _ _) as [res files' evs]. cbn [store] in *.
  rewrite IH. apply landed_frame. apply (Hout a). by left.
Qed.

Lemma assets_loop_dom env dir release (files : Files) :
  dom files ⊆ dom (store (Multi.download_release_assets env release dir files)).
Proof.
  unfold Multi.download_release_assets.
  generalize (assets release) as l. intros l. revert files.
  induction l as [| a l IH]; intros files; [reflexivity |].
  rewrite for_each_cons, asset_body_run.
  destruct (download_raises env _ _); [reflexivity |].
  unfold and_then.
  specialize (IH (landed env (browser_download_url a) (Lib.os_path_join dir (name a)) files)).
  destruct (for_each l _ _) as [res files' evs]. cbn [store] in *.
  etrans; [apply landed_dom | exact IH].
Qed.

(** The paths through [check_and_download_release] once the metadata
    arrived, each closed by [fin]. *)
Ltac release_sync_cases env files version_file notes_file release Hres fin :=
  destruct (files !! version_file) as [content |] eqn:Hfile;
  [ apply exists_true in Hfile as Hpresent;
    destruct (Py.split "," (Py.strip Py.isspace content)) as [| a [| b [| c l]]] eqn:Hsplit;
    [ fin
    | fin
    | destruct (String.eqb a (tag_name release) && String.eqb b (target_commitish release))
        eqn:Hcmp;
      [ fin
      | destruct Hres as [-> | ->];
        destruct (writable env notes_file) eqn:Hnotes;
        destruct (writable env version_file) eqn:Hstate; fin ]
    | fin ]
  | apply exists_false in Hfile as Habsent;
    destruct Hres as [-> | ->];
    destruct (writable env notes_file) eqn:Hnotes;
    destruct (writable env version_file) eqn:Hstate; fin ].

(** The paths through [check_and_download_master] once the metadata
    arrived. *)
Ltac master_sync_cases env files version_file commit fin :=
  let new_commit :=
    unfold_monad; repeat first [step | rewrite download_file_run];
    destruct (download_raises env _ _); repeat step;
    [ fin | destruct (writable env version_file) eqn:Hstate; repeat step; fin ] in
  destruct (files !! version_file) as [content |] eqn:Hfile;
  [ apply exists_true in Hfile as Hpresent;
    destruct (Py.split "," (Py.strip Py.isspace content)) as [| a [| b [| c l]]] eqn:Hsplit;
    [ run; fin
    | run; fin
    | destruct (String.eqb b (sha commit)) eqn:Hcmp; [ run; fin | new_commit ]
    | run; fin ]
  | apply exists_false in Hfile as Habsent; new_commit ].

Ltac frame_done Hframe :=
  cbn [store]; rewrite ?lookup_insert_ne by congruence;
  first [reflexivity | exact Hframe | by apply landed_frame].

Lemma multi_release_frame env api_url repo_dir releases_dir version_file release_notes_file
    files path :
  path <> version_file ->
  path <> release_notes_file ->
  (forall release asset,
      api_release env (api_url +:+ "/releases/latest") = Success release ->
      In asset (assets release) -> asset_dest releases_dir asset <> path) ->
  store (Multi.check_and_download_release env api_url repo_dir releases_dir version_file
           release_notes_file files) !! path = files !! path.
Proof.
  intros Hvf Hnotes_path Hassets.
  unfold Multi.check_and_download_release, Multi.get_latest_release,
    Multi.generate_release_notes.
  destruct (api_release env (api_url +:+ "/releases/latest")) as [release | |] eqn:Hfetch;
    [| run; reflexivity | run; reflexivity].
  destruct (assets_loop_internal env releases_dir release files)
    as (res & files1 & evs1 & Hloop & Hres & _ & _).
  pose proof (assets_loop_frame env releases_dir release files path
                (fun asset Hin => Hassets release asset eq_refl Hin)) as Hframe.
  rewrite Hloop in Hframe. cbn [store] in Hframe.
  release_sync_cases env files version_file release_notes_file release Hres
    ltac:(run; frame_done Hframe).
Qed.

Lemma single_release_frame env cfg files path :
  path <> Single.VERSION_FILE_RELEASE ->
  path <> Single.RELEASE_NOTES_FILE ->
  (forall release asset,
      api_release env (Single.GITHUB_API_URL cfg +:+ "/releases/latest") = Success release ->
      In asset (assets release) -> asset_dest (Single.DOWNLOAD_DIR cfg) asset <> path) ->
  store (Single.check_and_download_release env cfg files) !! path = files !! path.
Proof.
  intros Hvf Hnotes_path Hassets.
  unfold Single.check_and_download_release, Single.get_latest_release,
    Single.generate_release_notes.
  destruct (api_release env (Single.GITHUB_API_URL cfg +:+ "/releases/latest"))
    as [release | |] eqn:Hfetch;
    [| run; reflexivity | run; reflexivity].
  destruct (single_assets_loop_internal env cfg release files)
    as (res & files1 & evs1 & Hloop & Hres & _ & _).
  pose proof (assets_loop_frame env (Single.DOWNLOAD_DIR cfg) release files path
                (fun asset Hin => Hassets release asset eq_refl Hin)) as Hframe.
  change (Multi.download_release_assets env release (Single.DOWNLOAD_DIR cfg) files)
    with (Single.download_release_assets env cfg release files) in Hframe.
  rewrite Hloop in Hframe. cbn [store] in Hframe.
  release_sync_cases env files Single.VERSION_FILE_RELEASE Single.RELEASE_NOTES_FILE
    release Hres ltac:(run; frame_done Hframe).
Qed.



(** X6. Release Sync changes no file other than the state file, the
    release-notes file and the destinations of the assets of the fetched
    release: a path that names another file than each of these holds
    afterwards what it held before, whatever the remote and the disk do.
    Both variants. *)
Theorem release_sync_touches_only_its_files env files path :
  (forall cfg,
      distinct_files path Single.VERSION_FILE_RELEASE = true ->
      distinct_files path Single.RELEASE_NOTES_FILE = true ->
      (forall release asset,
          api_release env (Single.GITHUB_API_URL cfg +:+ "/releases/latest") = Success release ->
          In asset (assets release) ->
          distinct_files (asset_dest (Single.DOWNLOAD_DIR cfg) asset) path = true) ->
      store (Single.check_and_download_release env cfg files) !! path = files !! path)
  /\ (forall api_url repo_dir releases_dir version_file release_notes_file,
      distinct_files path version_file = true ->
      distinct_files path release_notes_file = true ->
      (forall release asset,
          api_release env (api_url +:+ "/releases/latest") = Success release ->
          In asset (assets release) ->
          distinct_files (asset_dest releases_dir asset) path = true) ->
      store (Multi.check_and_download_release env api_url repo_dir releases_dir version_file
               release_notes_file files) !! path = files !! path).
Proof.
  split.
  - intros cfg Hstate%distinct_files_neq Hnotes%distinct_files_neq Hassets.
    apply single_release_frame; [done | done |].
    intros release asset Hfetch Hin.
    apply distinct_files_neq. by apply (Hassets release).
  - intros api_url repo_dir releases_dir version_file release_notes_file
      Hstate%distinct_files_neq Hnotes%distinct_files_neq Hassets.
    apply multi_release_frame; [done | done |].
    intros release asset Hfetch Hin.
    apply distinct_files_neq. by apply (Hassets release).
Qed.

(** The branch state survives a Release Sync that writes three assets,
    the notes and the release state. *)
Lemma release_sync_touches_only_its_files_witness :
  let files : Files := {[ Single.VERSION_FILE_MASTER := "master,0123abc" ]} in
  store (Single.check_and_download_release Sample.env Sample.cfg files)
    !! Single.VERSION_FILE_MASTER = Some "master,0123abc".
Proof.
  intros files.
  destruct (release_sync_touches_only_its_files Sample.env files Single.VERSION_FILE_MASTER)
    as [Hsingle _].
  apply (Hsingle Sample.cfg); [reflexivity | reflexivity |].
  intros release asset Hfetch Hin.
  injection Hfetch as <-.
  destruct Hin as [<- | [<- | [<- | []]]]; reflexivity.
Defined.



Ltac dom_done :=
  cbn [store];
  try match goal with
      | |- context [landed ?e ?u ?d ?f] => pose proof (landed_dom e u d f)
      end;
  rewrite ?dom_insert_L; first [reflexivity | set_solver].

Lemma single_release_dom env cfg (files : Files) :
  dom files ⊆ dom (store (Single.check_and_download_release env cfg files)).
Proof.
  unfold Single.check_and_download_release, Single.get_latest_release,
    Single.generate_release_notes.
  destruct (api_release env (Single.GITHUB_API_URL cfg +:+ "/releases/latest"))
    as [release | |] eqn:Hfetch;
    [| run; reflexivity | run; reflexivity].
  destruct (single_assets_loop_internal env cfg release files)
    as (res & files1 & evs1 & Hloop & Hres & _ & _).
  pose proof (assets_loop_dom env (Single.DOWNLOAD_DIR cfg) release files) as Hdom.
  change (Multi.download_release_assets env release (Single.DOWNLOAD_DIR cfg) files)
    with (Single.download_release_assets env cfg release files) in Hdom.
  rewrite Hloop in Hdom. cbn [store] in Hdom.
  release_sync_cases env files Single.VERSION_FILE_RELEASE Single.RELEASE_NOTES_FILE
    release Hres ltac:(run; dom_done).
Qed.

Lemma single_master_dom env cfg (files : Files) :
  dom files ⊆ dom (store (Single.check_and_download_master env cfg files)).
Proof.
  unfold Single.check_and_download_master, Single.get_latest_commit.
  change ("/commits/" +:+ "master") with "/commits/master".
  destruct (api_commit env (Single.GITHUB_API_URL cfg +:+ "/commits/master"))
    as [commit | |] eqn:Hfetch;
    [| run; reflexivity | run; reflexivity].
  master_sync_cases env files Single.VERSION_FILE_MASTER commit ltac:(dom_done).
Qed.

Lemma multi_release_dom env api_url repo_dir releases_dir version_file release_notes_file
    (files : Files) :
  dom files ⊆ dom (store (Multi.check_and_download_release env api_url repo_dir
                            releases_dir version_file release_notes_file files)).
Proof.
  unfold Multi.check_and_download_release, Multi.get_latest_release,
    Multi.generate_release_notes.
  destruct (api_release env (api_url +:+ "/releases/latest")) as [release | |] eqn:Hfetch;
    [| run; reflexivity | run; reflexivity].
  destruct (assets_loop_internal env releases_dir release files)
    as (res & files1 & evs1 & Hloop & Hres & _ & _).
  pose proof (assets_loop_dom env releases_dir release files) as Hdom.
  rewrite Hloop in Hdom. cbn [store] in Hdom.
  release_sync_cases env files version_file release_notes_file release Hres
    ltac:(run; dom_done).
Qed.

Lemma multi_master_dom env api_url repo_dir master_zip_path version_file_master branch
    (files : Files) :
  dom files ⊆ dom (store (Multi.check_and_download_master env api_url repo_dir
                            master_zip_path version_file_master branch files)).
Proof.
  unfold Multi.check_and_download_master, Multi.get_latest_commit, Multi.parse_github_url.
  destruct (api_commit env (api_url +:+ "/commits/" +:+ branch))
    as [commit | |] eqn:Hfetch;
    [| run; reflexivity | run; reflexivity].
  destruct (length (path_parts api_url) <? 2) eqn:Hparts;
    master_sync_cases env files version_file_master commit ltac:(dom_done).
Qed.

(** X8. No sync removes a file: every path present before a Release Sync
    or a Branch Sync is present after it.  Both variants. *)
Theorem syncs_never_delete_files env (files : Files) :
  (forall cfg, dom files ⊆ dom (store (Single.check_and_download_release env cfg files)))
  /\ (forall cfg, dom files ⊆ dom (store (Single.check_and_download_master env cfg files)))
  /\ (forall api_url repo_dir releases_dir version_file release_notes_file,
        dom files ⊆ dom (store (Multi.check_and_download_release env api_url repo_dir
                                  releases_dir version_file release_notes_file files)))
  /\ (forall api_url repo_dir master_zip_path version_file_master branch,
        dom files ⊆ dom (store (Multi.check_and_download_master env api_url repo_dir
                                  master_zip_path version_file_master branch files))).
Proof.
  split; [| split; [| split]]; intros.
  - apply single_release_dom.
  - apply single_master_dom.
  - apply multi_release_dom.
  - apply multi_master_dom.
Qed.

(** ** After the first run *)

Lemma endswith_app c a b : b <> "" -> Lib.endswith c (a +:+ b) = Lib.endswith c b.
Proof.
  intros Hb. induction a as [| d a IH]; [by rewrite append_nil |].
  rewrite append_cons. simpl. rewrite IH.
  destruct (a +:+ b) eqn:Hab; [| reflexivity].
  destruct a; [rewrite append_nil in Hab; congruence | discriminate].
Qed.

(** A joined path ends like its last component. *)
Lemma os_path_join_endswith c a b :
  b <> "" -> Lib.endswith c (Lib.os_path_join a b) = Lib.endswith c b.
Proof.
  intros Hb. unfold Lib.os_path_join.
  destruct b as [| b0 b]; [done |].
  destruct (Ascii.eqb_spec b0 "/") as [-> | Hrel].
  - reflexivity.
  - assert (Hjoin : match a with
                    | "" => String b0 b
                    | _ => if Lib.endswith "/" a then a +:+ String b0 b
                           else a +:+ "/" +:+ String b0 b
                    end =
                    Lib.os_path_join a (String b0 b)).
    { unfold Lib.os_path_join.
      destruct b0 as [[] [] [] [] [] [] [] []]; try reflexivity. by destruct Hrel. }
    unfold Lib.os_path_join in Hjoin. rewrite <- Hjoin.
    destruct a as [| a0 a]; [reflexivity |].
    destruct (Lib.endswith "/" (String a0 a)).
    + by apply endswith_app.
    + rewrite endswith_app by (rewrite append_cons; discriminate).
      by apply endswith_app.
Qed.

(** The archive of the single-repository script never lands on a state
    file or on the release notes: its name ends in [p], theirs in [t]. *)
Lemma single_archive_dest_is_no_state_file cfg :
  single_archive_dest cfg <> Single.VERSION_FILE_RELEASE
  /\ single_archive_dest cfg <> Single.VERSION_FILE_MASTER
  /\ single_archive_dest cfg <> Single.RELEASE_NOTES_FILE.
Proof.
  assert (Hp : Lib.endswith "p" (single_archive_dest cfg) = true).
  { unfold single_archive_dest.
    rewrite os_path_join_endswith.
    - by rewrite endswith_app.
    - destruct (Single.GITHUB_REPO cfg); [rewrite append_nil | rewrite append_cons];
        discriminate. }
  repeat split; intros Heq; rewrite Heq in Hp; discriminate Hp.
Qed.

Lemma single_master_unchanged_run env cfg files commit content stored_branch :
  api_commit env (Single.GITHUB_API_URL cfg +:+ "/commits/master") = Success commit ->
  files !! Single.VERSION_FILE_MASTER = Some content ->
  Py.split "," (Py.strip Py.isspace content) = [stored_branch; sha commit] ->
  Single.check_and_download_master env cfg files =
    mkRun (Val tt) files
      [Get (Single.GITHUB_API_URL cfg +:+ "/commits/master") false;
       Log INFO MsgBranchCurrent].
Proof.
  intros Hfetch Hfile Hsplit. apply exists_true in Hfile as Hpresent.
  unfold Single.check_and_download_master, Single.get_latest_commit.
  run. reflexivity.
Qed.

(** X9. On a fresh installation of the single-repository script whose
    remote answers and whose disk accepts the writes, the start-up run
    leaves the state in which the daily check finds nothing to do: under
    the same remote, [daily_check] makes its two metadata requests, logs
    that branch and release are current, downloads nothing and changes no
    file.  The fetched names hold no comma, no carriage return and no
    outer white space, and every asset is stored in another file than the
    branch state file. *)
Theorem daily_check_after_first_run_changes_nothing env cfg files commit release :
  disk_ok env ->
  api_commit env (Single.GITHUB_API_URL cfg +:+ "/commits/master") = Success commit ->
  api_release env (Single.GITHUB_API_URL cfg +:+ "/releases/latest") = Success release ->
  files !! Single.VERSION_FILE_MASTER = None ->
  files !! Single.VERSION_FILE_RELEASE = None ->
  no_carriage_return (sha commit) ->
  no_carriage_return (tag_name release) ->
  no_carriage_return (target_commitish release) ->
  Py.count "," (sha commit) = 0 ->
  Py.rstrip Py.isspace (sha commit) = sha commit ->
  Py.count "," (tag_name release) = 0 ->
  Py.count "," (target_commitish release) = 0 ->
  Py.lstrip Py.isspace (tag_name release) = tag_name release ->
  Py.rstrip Py.isspace (target_commitish release) = target_commitish release ->
  (forall asset,
      In asset (assets release) ->
      distinct_files (asset_dest (Single.DOWNLOAD_DIR cfg) asset) Single.VERSION_FILE_MASTER
      = true) ->
  let installed := store (Single.main env cfg files) in
  Single.daily_check env cfg installed =
    mkRun (Val tt) installed
      [Log INFO (MsgDailyStart None);
       Get (Single.GITHUB_API_URL cfg +:+ "/commits/master") false;
       Log INFO MsgBranchCurrent;
       Get (Single.GITHUB_API_URL cfg +:+ "/releases/latest") false;
       Log INFO (MsgReleaseCurrent (tag_name release));
       Log INFO (MsgDailyDone None)].
Proof.
  intros Hdisk Hc Hr Hnom Hnor _ _ _ Hsha Hsha' Htag Hcommit Htag' Hcommit' Hassets installed.
  destruct (single_archive_dest_is_no_state_file cfg) as (Hdest_r & _ & _).
  (* the start-up run *)
  pose proof (single_master_new env cfg files commit Hc (or_introl Hnom)) as Hm.
  cbn zeta in Hm.
  rewrite (disk_ok_no_raise env _ _ Hdisk), (Hdisk Single.VERSION_FILE_MASTER) in Hm.
  set (files1 := <[Single.VERSION_FILE_MASTER := "master," +:+ sha commit]>
                   (landed env (single_archive_url cfg) (single_archive_dest cfg) files))
    in Hm.
  assert (Hnor1 : files1 !! Single.VERSION_FILE_RELEASE = None).
  { unfold files1. rewrite lookup_insert_ne by discriminate.
    rewrite landed_frame by done. exact Hnor. }
  destruct (single_release_new env cfg files1 release Hr (or_introl Hnor1)
              (disk_ok_loop env _ _ Hdisk) (Hdisk _) (Hdisk _)) as [rest Hrel].
  assert (Hinstalled : installed =
            <[Single.VERSION_FILE_RELEASE :=
                tag_name release +:+ "," +:+ target_commitish release]> rest).
  { subst installed.
    pose proof (first_run_condition files Single.VERSION_FILE_MASTER
                  Single.VERSION_FILE_RELEASE (or_introl Hnom)) as Hcond.
    unfold Single.main, Single.initial_download. run. reflexivity. }
  assert (Hstate_m : installed !! Single.VERSION_FILE_MASTER
                     = Some ("master," +:+ sha commit)).
  { pose proof (single_release_frame env cfg files1 Single.VERSION_FILE_MASTER) as Hframe.
    rewrite Hrel in Hframe. cbn [store] in Hframe.
    rewrite Hinstalled, Hframe; [by apply lookup_insert_eq | discriminate | discriminate |].
    intros release' asset Hfetch Hin. rewrite Hr in Hfetch. injection Hfetch as <-.
    apply distinct_files_neq. by apply Hassets. }
  assert (Hstate_r : installed !! Single.VERSION_FILE_RELEASE
                     = Some (tag_name release +:+ "," +:+ target_commitish release))
    by (rewrite Hinstalled; apply lookup_insert_eq).
  (* the daily check *)
  pose proof (single_master_unchanged_run env cfg installed commit _ "master" Hc Hstate_m)
    as Hm2.
  change ("master," +:+ sha commit) with ("master" +:+ "," +:+ sha commit) in Hm2.
  rewrite read_back_record, Hsha' in Hm2 by done. specialize (Hm2 eq_refl).
  pose proof (single_release_unchanged_run env cfg installed release _ Hr Hstate_r) as Hr2.
  rewrite read_back_record, Htag', Hcommit' in Hr2 by done. specialize (Hr2 eq_refl).
  clearbody installed. clear Hm Hrel Hinstalled.
  unfold Single.daily_check. run. reflexivity.
Qed.

Lemma daily_check_after_first_run_changes_nothing_witness :
  let installed := store (Single.main Sample.env Sample.cfg ∅) in
  Single.daily_check Sample.env Sample.cfg installed =
    mkRun (Val tt) installed
      [Log INFO (MsgDailyStart None);
       Get "https://api.github.com/repos/GreemDev/Ryujinx/commits/master" false;
       Log INFO MsgBranchCurrent;
       Get "https://api.github.com/repos/GreemDev/Ryujinx/releases/latest" false;
       Log INFO (MsgReleaseCurrent "v1.1");
       Log INFO (MsgDailyDone None)].
Proof.
  apply (daily_check_after_first_run_changes_nothing Sample.env Sample.cfg ∅
           Sample.commit Sample.release sample_disk_ok);
    try reflexivity.
  intros asset Hin.
  destruct Hin as [<- | [<- | [<- | []]]]; reflexivity.
Defined.

(** ** Start-up and the scheduler *)

(** X10. When both state files exist at start-up, whatever they hold, no
    sync is run and no request is made: the single-repository [main] only
    registers the daily task, and [process_repository] only creates the
    directories and registers the task of the repository. *)
Theorem no_sync_at_startup_when_state_exists env files :
  (forall cfg master_state release_state,
      files !! Single.VERSION_FILE_MASTER = Some master_state ->
      files !! Single.VERSION_FILE_RELEASE = Some release_state ->
      Single.main env cfg files =
        mkRun (Val tt) files [EveryDayAt "10:00" None; Log INFO (MsgRunning "10:00")])
  /\ (forall download_dir repo_url owner repo more master_state release_state,
      path_parts repo_url = owner :: repo :: more ->
      owner <> "" -> repo <> "" ->
      let repo_dir := Lib.os_path_join download_dir repo in
      let releases_dir := Lib.os_path_join repo_dir "releases" in
      files !! Lib.os_path_join repo_dir "version_info_master.txt" = Some master_state ->
      files !! Lib.os_path_join repo_dir "version_info_release.txt" = Some release_state ->
      Multi.process_repository env download_dir repo_url files =
        mkRun (Val tt) files
          [Makedirs releases_dir;
           EveryDayAt "10:00"
             (Some (Job owner repo (Multi.get_github_api_url owner repo) repo_dir
                        releases_dir));
           Log INFO (MsgScheduled "10:00" repo)]).
Proof.
  split.
  - intros cfg master_state release_state Hm Hr.
    apply exists_true in Hm. apply exists_true in Hr.
    unfold Single.main. run. reflexivity.
  - intros download_dir repo_url owner repo more master_state release_state
      Hparts Howner Hrepo repo_dir releases_dir Hm Hr.
    apply exists_true in Hm. apply exists_true in Hr.
    subst repo_dir releases_dir.
    unfold Multi.process_repository, Multi.parse_github_url, Multi.setup_repository_dirs.
    rewrite Hparts.
    destruct owner as [| c0 owner]; [done |].
    destruct repo as [| c1 repo]; [done |].
    run. reflexivity.
Qed.

(** The state is stale and even unreadable, the remote has a new release,
    and start-up still asks for nothing. *)
Lemma no_sync_at_startup_when_state_exists_witness :
  let files : Files := {[ Single.VERSION_FILE_MASTER := "garbage";
                          Single.VERSION_FILE_RELEASE := "v0.1,old" ]} in
  Single.main Sample.env Sample.cfg files =
    mkRun (Val tt) files [EveryDayAt "10:00" None; Log INFO (MsgRunning "10:00")].
Proof.
  intros files.
  destruct (no_sync_at_startup_when_state_exists Sample.env files) as [Hsingle _].
  exact (Hsingle Sample.cfg "garbage" "v0.1,old" eq_refl eq_refl).
Defined.

(** X11. No exception leaves a sync attempt or a daily check: each of
    them returns normally, whatever the remote answers and whatever the
    disk refuses.  Both variants. *)
Theorem no_exception_leaves_a_sync env files :
  (forall cfg,
      result (Single.check_and_download_release env cfg files) = Val tt
      /\ result (Single.check_and_download_master env cfg files) = Val tt
      /\ result (Single.daily_check env cfg files) = Val tt)
  /\ (forall api_url repo_dir releases_dir version_file release_notes_file,
        result (Multi.check_and_download_release env api_url repo_dir releases_dir
                  version_file release_notes_file files) = Val tt)
  /\ (forall api_url repo_dir master_zip_path version_file_master branch,
        result (Multi.check_and_download_master env api_url repo_dir master_zip_path
                  version_file_master branch files) = Val tt)
  /\ (forall owner repo api_url repo_dir releases_dir,
        result (Multi.daily_check env owner repo api_url repo_dir releases_dir files) = Val tt).
Proof.
  split; [| split; [| split]].
  - intros cfg.
    destruct (single_master_shape env cfg files) as (files1 & evs1 & Hm & _).
    destruct (single_release_shape env cfg files1) as (files2 & evs2 & Hr1 & _).
    destruct (single_release_shape env cfg files) as (files3 & evs3 & Hr & _).
    split; [by rewrite Hr |]. split; [by rewrite Hm |].
    unfold Single.daily_check. run. reflexivity.
  - intros api_url repo_dir releases_dir version_file release_notes_file.
    destruct (multi_release_shape env api_url repo_dir releases_dir version_file
                release_notes_file files) as (files1 & evs1 & Hr & _).
    by rewrite Hr.
  - intros api_url repo_dir master_zip_path version_file_master branch.
    destruct (multi_master_shape env api_url repo_dir master_zip_path version_file_master
                branch files) as (files1 & evs1 & Hm & _).
    by rewrite Hm.
  - intros owner repo api_url repo_dir releases_dir.
    destruct (multi_master_shape env api_url repo_dir
                (Lib.os_path_join repo_dir (repo +:+ "_master.zip"))
                (Lib.os_path_join repo_dir "version_info_master.txt") "master" files)
      as (files1 & evs1 & Hm & _).
    destruct (multi_release_shape env api_url repo_dir releases_dir
                (Lib.os_path_join repo_dir "version_info_release.txt")
                (Lib.os_path_join repo_dir "release_notes.txt") files1)
      as (files2 & evs2 & Hr & _).
    unfold Multi.daily_check. run. reflexivity.
Qed.

Lemma rejected_url_run env download_dir repo_url files :
  accepted repo_url = false ->
  Multi.process_repository env download_dir repo_url files =
    mkRun (Val tt) files (rejection_log repo_url).
Proof.
  unfold accepted, rejection_log, Multi.process_repository, Multi.parse_github_url.
  rewrite Nat.leb_antisym.
  destruct (length (path_parts repo_url) <? 2) eqn:Hparts; [intros _; run; reflexivity |].
  destruct (nth 0 (path_parts repo_url) "") as [| c0 owner] eqn:Howner;
    [intros _; run; reflexivity |].
  destruct (nth 1 (path_parts repo_url) "") as [| c1 repo] eqn:Hrepo;
    [intros _; run; reflexivity |].
  discriminate.
Qed.

Lemma rejected_urls_loop env download_dir urls files :
  (forall url, In url urls -> accepted url = false) ->
  for_each urls (Multi.process_repository env download_dir) files =
    mkRun (Val tt) files (concat (map rejection_log urls)).
Proof.
  induction urls as [| url urls IH]; intros Hrejected; [reflexivity |].
  rewrite for_each_cons, rejected_url_run by (apply Hrejected; by left).
  unfold and_then. rewrite IH by (intros url' Hin; apply Hrejected; by right).
  reflexivity.
Qed.

(** X12. A repositories file that is missing, or that holds no accepted
    URL, leaves the multi-repository [main] idle: it logs the missing
    file, or the number of URLs and one error line for each URL with
    fewer than two path parts, and does nothing else before the scheduler
    loop: no directory is created, no request made, no job registered and
    no file changed.  The URLs hold no bracket, so that [urlparse]
    returns. *)
Theorem main_with_no_accepted_url_is_idle env download_dir repositories_file files :
  (files !! repositories_file = None ->
   Multi.main env download_dir repositories_file files =
     mkRun (Val tt) files
       [Log ERROR (MsgReposFileMissing repositories_file); Log INFO (MsgRunning "10:00")])
  /\ (forall content,
      files !! repositories_file = Some content ->
      let urls := List.filter Py.nonempty (map (Py.strip Py.isspace) (Py.lines content)) in
      (forall url, In url urls -> bracket_free url /\ accepted url = false) ->
      Multi.main env download_dir repositories_file files =
        mkRun (Val tt) files
          (Log INFO (MsgReposLoaded (length urls))
           :: concat (map rejection_log urls) ++ [Log INFO (MsgRunning "10:00")])).
Proof.
  split.
  - intros Hfile. apply exists_false in Hfile as Habsent.
    unfold Multi.main, Multi.load_repositories. run. reflexivity.
  - intros content Hfile urls Hurls. apply exists_true in Hfile as Hpresent.
    pose proof (rejected_urls_loop env download_dir urls files
                  (fun url Hin => proj2 (Hurls url Hin))) as Hloop.
    subst urls.
    unfold Multi.main, Multi.load_repositories. run. reflexivity.
Qed.

Lemma main_with_no_accepted_url_is_idle_witness :
  let content := "https://github.com/onlyowner" +:+ Py.nl
                 +:+ "https://github.com/GreemDev//Ryujinx" +:+ Py.nl in
  let files : Files := {[ "repositories.txt" := content ]} in
  Multi.main Sample.env "downloads" "repositories.txt" files =
    mkRun (Val tt) files
      [Log INFO (MsgReposLoaded 2);
       Log ERROR (MsgInvalidUrl (Some "https://github.com/onlyowner"));
       Log INFO (MsgRunning "10:00")]
  /\ Multi.main Sample.env "downloads" "repositories.txt" ∅ =
       mkRun (Val tt) ∅
         [Log ERROR (MsgReposFileMissing "repositories.txt"); Log INFO (MsgRunning "10:00")].
Proof.
  intros content files. split.
  - destruct (main_with_no_accepted_url_is_idle Sample.env "downloads"
                "repositories.txt" files) as [_ Hidle].
    apply (Hidle content eq_refl).
    intros url [<- | [<- | []]]; (split; [split |]); reflexivity.
  - destruct (main_with_no_accepted_url_is_idle Sample.env "downloads"
                "repositories.txt" ∅) as [Hmissing _].
    exact (Hmissing (lookup_empty _)).
Defined.

(** ** Repository URLs *)

Lemma split_by_parts_clean p s :
  Forall (fun part => Py.forallb_str (fun c => negb (p c)) part = true) (Py.split_by p s).
Proof.
  induction s as [| c s IH]; [by repeat constructor |].
  simpl. destruct (p c) eqn:Hc.
  - by constructor.
  - destruct (Py.split_by p s) as [| w ws]; [by repeat constructor; simpl; rewrite Hc |].
    inversion IH as [| ? ? Hw Hws]; subst.
    constructor; [| exact Hws]. simpl. by rewrite Hc, Hw.
Qed.

(** A stripped text is empty or starts with a character the strip keeps. *)
Lemma lstrip_head p s :
  Py.lstrip p s = "" \/ exists c t, Py.lstrip p s = String c t /\ p c = false.
Proof.
  induction s as [| c s IH]; [by left |].
  simpl. destruct (p c) eqn:Hc; [exact IH | right; eauto].
Qed.

Lemma rstrip_head p c t :
  p c = false -> exists t', Py.rstrip p (String c t) = String c t'.
Proof.
  intros Hc. simpl. destruct (Py.rstrip p t); rewrite ?Hc; eauto.
Qed.

Lemma strip_head p s :
  Py.strip p s = "" \/ exists c t, Py.strip p s = String c t /\ p c = false.
Proof.
  unfold Py.strip. destruct (lstrip_head p s) as [-> | (c & t & -> & Hc)]; [by left |].
  right. destruct (rstrip_head p c t Hc) as [t' ->]. eauto.
Qed.

Lemma split_by_head p c t :
  p c = false -> exists w ws, Py.split_by p (String c t) = String c w :: ws.
Proof.
  intros Hc. simpl. rewrite Hc.
  destruct (Py.split_by p t) as [| w ws] eqn:Hs; [by apply split_by_nonempty in Hs |].
  eauto.
Qed.

Lemma forallb_str_count c s :
  Py.forallb_str (fun d => negb (Py.is_char c d)) s = true -> Py.count c s = 0.
Proof. apply count_none. Qed.

(** X13. The owner and the repository name taken from an accepted URL
    hold no slash, and the owner is never empty: with two path parts or
    more, only an empty second part can make [process_repository] turn a
    URL down. *)
Theorem accepted_names_hold_no_slash repo_url :
  2 <= length (path_parts repo_url) ->
  let owner := nth 0 (path_parts repo_url) "" in
  let repo := nth 1 (path_parts repo_url) "" in
  owner <> ""
  /\ Py.count "/" owner = 0
  /\ Py.count "/" repo = 0
  /\ accepted repo_url = Py.nonempty repo.
Proof.
  intros Hlen owner repo. subst owner repo. unfold accepted.
  pose proof (split_by_parts_clean (Py.is_char "/")
                (Py.strip (Py.is_char "/") (Lib.urlparse_path repo_url))) as Hclean.
  unfold path_parts, Py.split in *.
  destruct (strip_head (Py.is_char "/") (Lib.urlparse_path repo_url))
    as [Hempty | (c & t & Hstrip & Hc)].
  - rewrite Hempty in Hlen. simpl in Hlen. lia.
  - rewrite Hstrip in *.
    destruct (split_by_head (Py.is_char "/") c t Hc) as (w & ws & Hsplit).
    rewrite Hsplit in *.
    destruct ws as [| repo ws]; [simpl in Hlen; lia |].
    inversion Hclean as [| ? ? Howner Hrest]; subst.
    inversion Hrest as [| ? ? Hrepo _]; subst.
    cbn [nth length]. repeat split.
    + discriminate.
    + by apply forallb_str_count.
    + by apply forallb_str_count.
Qed.

Lemma accepted_names_hold_no_slash_witness :
  let url := "https://github.com//GreemDev/Ryujinx/tree/main/" in
  nth 0 (path_parts url) "" = "GreemDev"
  /\ nth 1 (path_parts url) "" = "Ryujinx"
  /\ nth 0 (path_parts url) "" <> ""
  /\ Py.count "/" (nth 0 (path_parts url) "") = 0
  /\ Py.count "/" (nth 1 (path_parts url) "") = 0
  /\ accepted url = true.
Proof.
  intros url.
  assert (Hlen : 2 <= length (path_parts url)) by (vm_compute; lia).
  destruct (accepted_names_hold_no_slash url Hlen) as (Ho & Hso & Hsr & Hacc).
  repeat split; try reflexivity; assumption.
Defined.

(** X14. A URL whose second path part is empty, as in
    [https://host/owner//name], is dropped by [process_repository]
    without a request, without a file change and without a log line,
    while the single-repository start-up accepts it and goes on with an
    empty repository name. *)
Theorem empty_repository_name_is_dropped_silently repo_url owner more :
  path_parts repo_url = owner :: "" :: more ->
  (forall env download_dir files,
      Multi.process_repository env download_dir repo_url files = mkRun (Val tt) files [])
  /\ (forall download_dir files,
      Single.startup repo_url download_dir files =
        mkRun (Val (Single.mkConfig owner "" download_dir)) files [Makedirs download_dir]).
Proof.
  intros Hparts. split.
  - intros env download_dir files.
    unfold Multi.process_repository, Multi.parse_github_url. rewrite Hparts.
    destruct owner; run; reflexivity.
  - intros download_dir files.
    unfold Single.startup. rewrite Hparts. run. reflexivity.
Qed.

Lemma empty_repository_name_is_dropped_silently_witness :
  let url := "https://github.com/GreemDev//Ryujinx" in
  Multi.process_repository Sample.env "downloads" url ∅ = mkRun (Val tt) ∅ []
  /\ Single.startup url "downloads" ∅ =
       mkRun (Val (Single.mkConfig "GreemDev" "" "downloads")) ∅ [Makedirs "downloads"].
Proof.
  intros url.
  destruct (empty_repository_name_is_dropped_silently url "GreemDev" ["Ryujinx"] eq_refl)
    as [Hmulti Hsingle].
  split; [apply Hmulti | apply Hsingle].
Defined.

(** ** The repositories file *)

Lemma rstrip_idem p s : Py.rstrip p (Py.rstrip p s) = Py.rstrip p s.
Proof.
  induction s as [| c s IH]; [reflexivity |].
  simpl. destruct (Py.rstrip p s) as [| d r] eqn:Hr.
  - destruct (p c) eqn:Hc; [reflexivity |]. simpl. by rewrite Hc.
  - change (Py.rstrip p (String c (String d r)))
      with (match Py.rstrip p (String d r) with
            | "" => if p c then "" else String c ""
            | r' => String c r'
            end).
    by rewrite IH.
Qed.

Lemma strip_idem p s : Py.strip p (Py.strip p s) = Py.strip p s.
Proof.
  assert (Hl : Py.lstrip p (Py.strip p s) = Py.strip p s).
  { destruct (strip_head p s) as [-> | (c & t & -> & Hc)]; [reflexivity |].
    simpl. by rewrite Hc. }
  unfold Py.strip at 1. rewrite Hl. unfold Py.strip. apply rstrip_idem.
Qed.

(** X15. [load_repositories] changes nothing and makes no request.  From
    an existing file it returns, in file order, lines that are not empty
    and carry no outer white space, and logs their number; a missing file
    gives the empty list and an error line. *)
Theorem load_repositories_returns_stripped_lines file_path files :
  (forall content,
      files !! file_path = Some content ->
      exists urls,
        Multi.load_repositories file_path files =
          mkRun (Val urls) files [Log INFO (MsgReposLoaded (length urls))]
        /\ urls = List.filter Py.nonempty (map (Py.strip Py.isspace) (Py.lines content))
        /\ Forall (fun url => url <> "" /\ Py.strip Py.isspace url = url) urls)
  /\ (files !! file_path = None ->
      Multi.load_repositories file_path files =
        mkRun (Val []) files [Log ERROR (MsgReposFileMissing file_path)]).
Proof.
  split.
  - intros content Hfile. apply exists_true in Hfile as Hpresent.
    eexists. split; [| split; [reflexivity |]].
    + unfold Multi.load_repositories. run. reflexivity.
    + apply List.Forall_forall. intros url Hin.
      apply filter_In in Hin as [Hin Hne].
      apply in_map_iff in Hin as (line & <- & _).
      split; [| apply strip_idem].
      intros Heq. rewrite Heq in Hne. discriminate Hne.
  - intros Hfile. apply exists_false in Hfile as Habsent.
    unfold Multi.load_repositories. run. reflexivity.
Qed.

Lemma load_repositories_returns_stripped_lines_witness :
  let content := "  https://github.com/a/b  " +:+ Py.nl +:+ Py.nl
                 +:+ String (Py.chr 9) "" +:+ Py.nl +:+ "https://github.com/c/d" in
  let files : Files := {[ "repositories.txt" := content ]} in
  Multi.load_repositories "repositories.txt" files =
    mkRun (Val ["https://github.com/a/b"; "https://github.com/c/d"]) files
      [Log INFO (MsgReposLoaded 2)]
  /\ Multi.load_repositories "missing.txt" files =
       mkRun (Val []) files [Log ERROR (MsgReposFileMissing "missing.txt")].
Proof.
  intros content files. split.
  - destruct (load_repositories_returns_stripped_lines "repositories.txt" files)
      as [Hread _].
    destruct (Hread content eq_refl) as (urls & Hrun & -> & _). exact Hrun.
  - destruct (load_repositories_returns_stripped_lines "missing.txt" files)
      as [_ Hmissing].
    exact (Hmissing eq_refl).
Defined.

(** ** The release notes *)

Lemma first_line_has_no_newline message :
  Py.count (Py.chr 10) (hd "" (Py.split (Py.chr 10) message)) = 0.
Proof.
  pose proof (split_by_parts_clean (Py.is_char (Py.chr 10)) message) as Hclean.
  unfold Py.split.
  destruct (Py.split_by (Py.is_char (Py.chr 10)) message) as [| w ws]; [reflexivity |].
  inversion Hclean; subst. by apply forallb_str_count.
Qed.

Lemma release_note_line_newlines commit :
  Py.count (Py.chr 10) (commit_author_name commit) = 0 ->
  Py.count (Py.chr 10) (commit_author_date commit) = 0 ->
  Py.count (Py.chr 10) (Single.release_note_line commit) = 1.
Proof.
  intros Ha Hd. unfold Single.release_note_line.
  rewrite !count_app, first_line_has_no_newline, Ha, Hd. reflexivity.
Qed.

Lemma concat_lines_newlines (lines : list string) :
  Forall (fun line => Py.count (Py.chr 10) line = 1) lines ->
  Py.count (Py.chr 10) (String.concat "" lines) = length lines.
Proof.
  induction 1 as [| line lines Hline Hlines IH]; [reflexivity |].
  destruct lines as [| next lines].
  - simpl. exact Hline.
  - change (String.concat "" (line :: next :: lines))
      with (line +:+ "" +:+ String.concat "" (next :: lines)).
    rewrite append_nil, count_app, Hline, IH. reflexivity.
Qed.

(** X16. [generate_release_notes] replaces the notes file by a three-line
    header followed by exactly one line per commit, however many lines
    the commit messages have (author names and dates hold no line break);
    when the file cannot be opened it raises [OSError] and neither writes
    nor logs. *)
Theorem release_notes_have_one_line_per_commit env commits files :
  Forall (fun commit => Py.count (Py.chr 10) (commit_author_name commit) = 0
                        /\ Py.count (Py.chr 10) (commit_author_date commit) = 0) commits ->
  (writable env Single.RELEASE_NOTES_FILE = true ->
   exists text,
     Single.generate_release_notes env commits files =
       mkRun (Val tt) (<[Single.RELEASE_NOTES_FILE := text]> files)
         [Log INFO (MsgNotesGenerated None)]
     /\ Py.count (Py.chr 10) text = 3 + length commits)
  /\ (writable env Single.RELEASE_NOTES_FILE = false ->
      Single.generate_release_notes env commits files = mkRun (Raise OSError) files []).
Proof.
  intros Hclean. split; intros Hw.
  - eexists. split.
    + unfold Single.generate_release_notes. run. reflexivity.
    + rewrite !count_app, concat_lines_newlines.
      * rewrite length_map. reflexivity.
      * apply List.Forall_forall. intros line Hin.
        apply in_map_iff in Hin as (commit & <- & Hin).
        rewrite List.Forall_forall in Hclean. destruct (Hclean commit Hin) as [Ha Hd].
        by apply release_note_line_newlines.
  - unfold Single.generate_release_notes. run. reflexivity.
Qed.

Lemma release_notes_have_one_line_per_commit_witness :
  let commits :=
    [mkCommit "a1" ("Fix crash" +:+ Py.nl +:+ Py.nl +:+ "Long explanation") "dev" "2024-01-01";
     mkCommit "b2" "Add feature" "ops" "2024-01-02"] in
  exists text,
    store (Single.generate_release_notes Sample.env commits ∅) !! Single.RELEASE_NOTES_FILE
    = Some text
    /\ Py.count (Py.chr 10) text = 5.
Proof.
  intros commits.
  assert (Hclean : Forall (fun commit =>
                     Py.count (Py.chr 10) (commit_author_name commit) = 0
                     /\ Py.count (Py.chr 10) (commit_author_date commit) = 0) commits)
    by (repeat constructor).
  destruct (release_notes_have_one_line_per_commit Sample.env commits ∅ Hclean)
    as [Hwrite _].
  destruct (Hwrite eq_refl) as (text & Hrun & Hcount).
  exists text. rewrite Hrun. split; [apply lookup_insert_eq | exact Hcount].
Defined.

(** ** Downloads that go wrong *)

(** X17. When the stream of the branch archive breaks, Branch Sync keeps
    the truncated file, logs the failure and still records the commit as
    downloaded, so the next Branch Sync under the same remote finds
    nothing to do and the truncated archive stays.  Single-repository
    script; the hash holds no comma, no carriage return and no trailing
    white space, and the state file found, if any, no carriage return. *)
Theorem broken_archive_is_kept_and_marked_done env cfg files commit partial :
  api_commit env (Single.GITHUB_API_URL cfg +:+ "/commits/master") = Success commit ->
  read_as_stored files Single.VERSION_FILE_MASTER ->
  commit_is_new files Single.VERSION_FILE_MASTER commit ->
  download env (single_archive_url cfg) = Success (Interrupted partial) ->
  writable env (single_archive_dest cfg) = true ->
  writable env Single.VERSION_FILE_MASTER = true ->
  no_carriage_return (sha commit) ->
  Py.count "," (sha commit) = 0 ->
  Py.rstrip Py.isspace (sha commit) = sha commit ->
  let r := Single.check_and_download_master env cfg files in
  store r !! single_archive_dest cfg = Some partial
  /\ store r !! Single.VERSION_FILE_MASTER = Some ("master," +:+ sha commit)
  /\ In (Log ERROR (MsgDownloadFailed (single_archive_url cfg) RequestException)) (events r)
  /\ Single.check_and_download_master env cfg (store r) =
       mkRun (Val tt) (store r)
         [Get (Single.GITHUB_API_URL cfg +:+ "/commits/master") false;
          Log INFO MsgBranchCurrent].
Proof.
  intros Hc _ Hnew Hbroken Hdest Hstate _ Hsha Hsha' r.
  destruct (single_archive_dest_is_no_state_file cfg) as (_ & Hne & _).
  pose proof (single_master_new env cfg files commit Hc Hnew) as Hrun.
  cbn zeta in Hrun. fold r in Hrun.
  unfold download_raises, landed, download_report in Hrun.
  rewrite Hbroken, Hdest, Hstate in Hrun. cbn [negb request_error] in Hrun.
  assert (Hfile : store r !! Single.VERSION_FILE_MASTER = Some ("master," +:+ sha commit))
    by (rewrite Hrun; apply lookup_insert_eq).
  split; [| split; [exact Hfile | split]].
  - rewrite Hrun. cbn [store]. rewrite lookup_insert_ne by done. apply lookup_insert_eq.
  - rewrite Hrun. simpl. auto.
  - apply (single_master_unchanged_run env cfg (store r) commit _ "master" Hc Hfile).
    change ("master," +:+ sha commit) with ("master" +:+ "," +:+ sha commit).
    rewrite read_back_record by done. by rewrite Hsha'.
Qed.

Lemma broken_archive_is_kept_and_marked_done_witness :
  let env := mkEnv (api_release Sample.env) (api_commit Sample.env)
                   (fun _ => Success (Interrupted "PK-half")) (fun _ => true) in
  let r := Single.check_and_download_master env Sample.cfg ∅ in
  store r !! "downloads/Ryujinx_master.zip" = Some "PK-half"
  /\ store r !! Single.VERSION_FILE_MASTER = Some "master,0123abc"
  /\ List.filter is_download
       (events (Single.check_and_download_master env Sample.cfg (store r))) = [].
Proof.
  intros env r.
  assert (Hnew : commit_is_new ∅ Single.VERSION_FILE_MASTER Sample.commit)
    by (left; reflexivity).
  assert (Hread : read_as_stored ∅ Single.VERSION_FILE_MASTER) by exact I.
  destruct (broken_archive_is_kept_and_marked_done env Sample.cfg ∅ Sample.commit "PK-half"
              eq_refl Hread Hnew eq_refl eq_refl eq_refl eq_refl eq_refl eq_refl)
    as (Hzip & Hstate & _ & Hnext).
  split; [exact Hzip |]. split; [exact Hstate |].
  fold r in Hnext. by rewrite Hnext.
Defined.

(** X18. A destination that cannot be opened stops Release Sync at that
    asset: the assets before it have been handled, the assets after it
    are never requested, the error is logged by the generic handler, the
    notes are not written and the state file is left as it was, so the
    next attempt starts the release over.  Single-repository script;
    every earlier asset is stored in another file than the state file,
    which holds no carriage return. *)
Theorem unwritable_asset_aborts_release_sync env cfg files release done asset todo :
  api_release env (Single.GITHUB_API_URL cfg +:+ "/releases/latest") = Success release ->
  read_as_stored files Single.VERSION_FILE_RELEASE ->
  release_is_new files Single.VERSION_FILE_RELEASE release ->
  assets release = done ++ asset :: todo ->
  existsb (asset_raises env (Single.DOWNLOAD_DIR cfg)) done = false ->
  asset_raises env (Single.DOWNLOAD_DIR cfg) asset = true ->
  (forall earlier,
      In earlier done ->
      distinct_files (asset_dest (Single.DOWNLOAD_DIR cfg) earlier) Single.VERSION_FILE_RELEASE
      = true) ->
  let r := Single.check_and_download_release env cfg files in
  result r = Val tt
  /\ events r =
       Get (Single.GITHUB_API_URL cfg +:+ "/releases/latest") false
       :: Log INFO (MsgReleaseFound (tag_name release))
       :: concat (map (asset_events env (Single.DOWNLOAD_DIR cfg)) done)
       ++ [Log INFO (MsgAsset (name asset));
           Get (browser_download_url asset) true;
           Log ERROR (MsgReleaseUnknownError OSError)]
  /\ store r !! Single.VERSION_FILE_RELEASE = files !! Single.VERSION_FILE_RELEASE.
Proof.
  intros Hfetch _ Hnew Hassets Hdone Hraise Hout r.
  (* the loop, up to the asset that raises *)
  assert (Hloop : exists files1,
             Single.download_release_assets env cfg release files =
               mkRun (Raise OSError) files1
                 (concat (map (asset_events env (Single.DOWNLOAD_DIR cfg)) done)
                  ++ [Log INFO (MsgAsset (name asset)); Get (browser_download_url asset) true])
             /\ files1 !! Single.VERSION_FILE_RELEASE = files !! Single.VERSION_FILE_RELEASE).
  { unfold Single.download_release_assets. rewrite Hassets, for_each_app.
    destruct (assets_loop_complete env (Single.DOWNLOAD_DIR cfg)
                (mkRelease "" "" done) files Hdone) as [files1 Hrun].
    pose proof (assets_loop_frame env (Single.DOWNLOAD_DIR cfg) (mkRelease "" "" done) files
                  Single.VERSION_FILE_RELEASE
                  (fun earlier Hin => distinct_files_neq _ _ (Hout earlier Hin))) as Hframe.
    unfold Multi.download_release_assets in Hrun, Hframe. cbn [assets] in Hrun, Hframe.
    rewrite Hrun in Hframe. cbn [store] in Hframe.
    exists files1. split; [| exact Hframe].
    rewrite Hrun. unfold and_then. rewrite for_each_cons, asset_body_run.
    unfold asset_raises, asset_dest in Hraise. rewrite Hraise. reflexivity. }
  destruct Hloop as (files1 & Hloop & Hframe).
  subst r.
  unfold Single.check_and_download_release, Single.get_latest_release.
  destruct Hnew as [Habsent | (content & cv & ch & Hfile & Hsplit & Hdiff)].
  - pose proof Habsent as Hnone. apply exists_false in Habsent.
    run. split; [reflexivity |]. split; [by rewrite <- app_assoc | congruence].
  - pose proof Hfile as Hsome.
    apply exists_true in Hfile as Hpresent. apply pair_eqb_false in Hdiff.
    run. split; [reflexivity |]. split; [by rewrite <- app_assoc | congruence].
Qed.

Lemma unwritable_asset_aborts_release_sync_witness :
  let env := mkEnv (api_release Sample.env) (api_commit Sample.env) (download Sample.env)
                   (fun path => negb (String.eqb path "downloads/c.zip")) in
  let files : Files := {[ Single.VERSION_FILE_RELEASE := "v1.0,abc123" ]} in
  let r := Single.check_and_download_release env Sample.cfg files in
  result r = Val tt
  /\ List.filter is_download (events r)
     = [Get "https://dl.example/a.zip" true; Get "https://dl.example/b.zip" true;
        Get "https://dl.example/c.zip" true]
  /\ In (Log ERROR (MsgReleaseUnknownError OSError)) (events r)
  /\ store r !! Single.VERSION_FILE_RELEASE = Some "v1.0,abc123".
Proof.
  intros env files r.
  assert (Hnew : release_is_new files Single.VERSION_FILE_RELEASE Sample.release).
  { right. exists "v1.0,abc123", "v1.0", "abc123".
    split; [reflexivity |]. split; [reflexivity |]. left. discriminate. }
  assert (Hread : read_as_stored files Single.VERSION_FILE_RELEASE) by reflexivity.
  destruct (unwritable_asset_aborts_release_sync env Sample.cfg files Sample.release
              [mkAsset "a.zip" "https://dl.example/a.zip";
               mkAsset "b.zip" "https://dl.example/b.zip"]
              (mkAsset "c.zip" "https://dl.example/c.zip") []
              eq_refl Hread Hnew eq_refl eq_refl eq_refl)
    as (Hres & Hev & Hstate).
  { intros earlier [<- | [<- | []]]; reflexivity. }
  fold r in Hres, Hev, Hstate.
  split; [exact Hres |]. rewrite Hev.
  split; [reflexivity |]. split; [simpl; auto 12 |].
  rewrite Hstate. reflexivity.
Defined.

(** ** Repositories of the same name *)

Lemma multi_master_state_present env api_url repo_dir master_zip_path version_file_master
    branch files commit :
  api_commit env (api_url +:+ "/commits/" +:+ branch) = Success commit ->
  disk_ok env ->
  is_Some (store (Multi.check_and_download_master env api_url repo_dir master_zip_path
                    version_file_master branch files) !! version_file_master).
Proof.
  intros Hfetch Hdisk.
  destruct (files !! version_file_master) as [content |] eqn:Hfile.
  - apply elem_of_dom. apply (multi_master_dom env). apply elem_of_dom. by rewrite Hfile.
  - apply exists_false in Hfile as Habsent.
    pose proof (Hdisk version_file_master) as Hw.
    unfold Multi.check_and_download_master, Multi.get_latest_commit, Multi.parse_github_url.
    destruct (length (path_parts api_url) <? 2) eqn:Hparts;
      unfold_monad;
      repeat first [step | rewrite download_file_run
                   | rewrite (disk_ok_no_raise env _ _ Hdisk)];
      cbn [store]; rewrite lookup_insert_eq; eauto.
Qed.

Lemma multi_release_state_present env api_url repo_dir releases_dir version_file
    release_notes_file files release :
  api_release env (api_url +:+ "/releases/latest") = Success release ->
  disk_ok env ->
  is_Some (store (Multi.check_and_download_release env api_url repo_dir releases_dir
                    version_file release_notes_file files) !! version_file).
Proof.
  intros Hfetch Hdisk.
  destruct (files !! version_file) as [content |] eqn:Hfile.
  - apply elem_of_dom. apply (multi_release_dom env). apply elem_of_dom. by rewrite Hfile.
  - destruct (multi_release_new env api_url repo_dir releases_dir version_file
                release_notes_file files release Hfetch (or_introl Hfile)
                (disk_ok_loop env _ _ Hdisk) (Hdisk _) (Hdisk _)) as [rest ->].
    cbn [store]. rewrite lookup_insert_eq. eauto.
Qed.

Lemma bool_decide_is_Some_true (files : Files) path :
  bool_decide (is_Some (files !! path)) = true -> is_Some (files !! path).
Proof. apply bool_decide_eq_true_1. Qed.

(** X19. The multi-repository script names the directory of a repository
    after the repository alone, so two repositories of the same name
    under different owners share their state files: once the first has
    been set up (remote answering, disk accepting the writes), setting up
    the second makes no request at all; it only registers a job that will
    compare the second repository with the state of the first. *)
Theorem same_name_repositories_share_their_state
    env download_dir files url1 url2 owner1 owner2 repo more1 more2 commit release :
  path_parts url1 = owner1 :: repo :: more1 ->
  path_parts url2 = owner2 :: repo :: more2 ->
  owner1 <> "" -> owner2 <> "" -> repo <> "" ->
  disk_ok env ->
  api_commit env (Multi.get_github_api_url owner1 repo +:+ "/commits/master")
    = Success commit ->
  api_release env (Multi.get_github_api_url owner1 repo +:+ "/releases/latest")
    = Success release ->
  let repo_dir := Lib.os_path_join download_dir repo in
  let releases_dir := Lib.os_path_join repo_dir "releases" in
  let first := store (Multi.process_repository env download_dir url1 files) in
  Multi.process_repository env download_dir url2 first =
    mkRun (Val tt) first
      [Makedirs releases_dir;
       EveryDayAt "10:00"
         (Some (Job owner2 repo (Multi.get_github_api_url owner2 repo) repo_dir releases_dir));
       Log INFO (MsgScheduled "10:00" repo)].
Proof.
  intros Hparts1 Hparts2 Ho1 Ho2 Hrepo Hdisk Hc Hr repo_dir releases_dir first.
  assert (Hstate : is_Some (first !! Lib.os_path_join repo_dir "version_info_master.txt")
                   /\ is_Some (first !! Lib.os_path_join repo_dir "version_info_release.txt")).
  { subst first.
    pose proof (multi_master_state_present env (Multi.get_github_api_url owner1 repo)
                  repo_dir (Lib.os_path_join repo_dir (repo +:+ "_master.zip"))
                  (Lib.os_path_join repo_dir "version_info_master.txt") "master" files
                  commit Hc Hdisk) as Hpm.
    destruct (multi_master_shape env (Multi.get_github_api_url owner1 repo) repo_dir
                (Lib.os_path_join repo_dir (repo +:+ "_master.zip"))
                (Lib.os_path_join repo_dir "version_info_master.txt") "master" files)
      as (files1 & evs1 & Hm & _).
    rewrite Hm in Hpm. cbn [store] in Hpm.
    pose proof (multi_release_state_present env (Multi.get_github_api_url owner1 repo)
                  repo_dir releases_dir
                  (Lib.os_path_join repo_dir "version_info_release.txt")
                  (Lib.os_path_join repo_dir "release_notes.txt") files1 release Hr Hdisk)
      as Hpr.
    pose proof (multi_release_dom env (Multi.get_github_api_url owner1 repo)
                  repo_dir releases_dir
                  (Lib.os_path_join repo_dir "version_info_release.txt")
                  (Lib.os_path_join repo_dir "release_notes.txt") files1) as Hdom.
    destruct (multi_release_shape env (Multi.get_github_api_url owner1 repo) repo_dir
                releases_dir (Lib.os_path_join repo_dir "version_info_release.txt")
                (Lib.os_path_join repo_dir "release_notes.txt") files1)
      as (files2 & evs2 & Hrel & _).
    rewrite Hrel in Hpr, Hdom. cbn [store] in Hpr, Hdom.
    assert (Hpm2 : is_Some (files2 !! Lib.os_path_join repo_dir "version_info_master.txt"))
      by (apply elem_of_dom, Hdom, elem_of_dom; exact Hpm).
    subst repo_dir releases_dir.
    unfold Multi.process_repository, Multi.parse_github_url, Multi.setup_repository_dirs,
      Multi.initial_download.
    rewrite Hparts1.
    destruct owner1 as [| a0 owner1]; [done |].
    destruct repo as [| c1 repo]; [done |].
    destruct (negb (bool_decide (is_Some
                (files !! Lib.os_path_join (Lib.os_path_join download_dir (String c1 repo))
                            "version_info_master.txt")))
              || negb (bool_decide (is_Some
                (files !! Lib.os_path_join (Lib.os_path_join download_dir (String c1 repo))
                            "version_info_release.txt")))) eqn:Hcond.
    - run. by split.
    - run. apply orb_false_iff in Hcond as [Hcm Hcr].
      apply negb_false_iff in Hcm, Hcr.
      split; by apply bool_decide_is_Some_true. }
  destruct Hstate as [[master_state Hm] [release_state Hr']].
  clearbody first.
  apply exists_true in Hm. apply exists_true in Hr'.
  subst repo_dir releases_dir.
  unfold Multi.process_repository, Multi.parse_github_url, Multi.setup_repository_dirs.
  rewrite Hparts2.
  destruct owner2 as [| b0 owner2]; [done |].
  destruct repo as [| c1 repo]; [done |].
  run. reflexivity.
Qed.

Lemma same_name_repositories_share_their_state_witness :
  let first := store (Multi.process_repository Sample.env "downloads"
                        "https://github.com/GreemDev/Ryujinx" ∅) in
  Multi.process_repository Sample.env "downloads" "https://github.com/Fork/Ryujinx" first =
    mkRun (Val tt) first
      [Makedirs "downloads/Ryujinx/releases";
       EveryDayAt "10:00"
         (Some (Job "Fork" "Ryujinx" "https://api.github.com/repos/Fork/Ryujinx"
                    "downloads/Ryujinx" "downloads/Ryujinx/releases"));
       Log INFO (MsgScheduled "10:00" "Ryujinx")].
Proof.
  apply (same_name_repositories_share_their_state Sample.env "downloads" ∅
           "https://github.com/GreemDev/Ryujinx" "https://github.com/Fork/Ryujinx"
           "GreemDev" "Fork" "Ryujinx" [] [] Sample.commit Sample.release);
    try reflexivity; try discriminate.
  apply sample_disk_ok.
Defined.

(** ** The branch archive in general *)

(** X20. For every owner and repository name made of ordinary characters,
    a Branch Sync of the multi-repository script that finds a new commit
    sends its one download request to
    [https://github.com/repos/{owner}/archive/refs/heads/{branch}.zip]:
    the owner slot holds [repos] and the repository slot the owner,
    because the URL is parsed from the API URL. *)
Theorem multi_branch_sync_asks_for_the_repos_owner_archive
    env owner repo repo_dir master_zip_path version_file_master branch files commit :
  Py.forallb_str ordinary owner = true ->
  Py.forallb_str ordinary repo = true ->
  repo <> "" ->
  let api_url := Multi.get_github_api_url owner repo in
  api_commit env (api_url +:+ "/commits/" +:+ branch) = Success commit ->
  commit_is_new files version_file_master commit ->
  List.filter is_download
    (events (Multi.check_and_download_master env api_url repo_dir master_zip_path
               version_file_master branch files))
  = [Get ("https://github.com/repos/" +:+ owner +:+ "/archive/refs/heads/" +:+ branch
          +:+ ".zip") true].
Proof.
  intros Howner Hrepo Hne api_url Hfetch Hnew.
  assert (Hparts : path_parts api_url = ["repos"; owner; repo])
    by (by apply api_url_path_parts).
  assert (Hlen : 2 <= length (path_parts api_url)) by (rewrite Hparts; simpl; lia).
  rewrite (multi_master_new env api_url repo_dir master_zip_path version_file_master
             branch files commit Hlen Hfetch Hnew).
  unfold multi_archive_url. rewrite Hparts. cbn [nth].
  destruct (download_raises env _ _); [reflexivity |].
  destruct (writable env version_file_master); simpl;
    unfold download_report; by destruct (request_error _).
Qed.

Lemma multi_branch_sync_asks_for_the_repos_owner_archive_witness :
  List.filter is_download
    (events (Multi.check_and_download_master Sample.env
               "https://api.github.com/repos/GreemDev/Ryujinx" "downloads/Ryujinx"
               "downloads/Ryujinx/Ryujinx_master.zip"
               "downloads/Ryujinx/version_info_master.txt" "master" ∅))
  = [Get "https://github.com/repos/GreemDev/archive/refs/heads/master.zip" true].
Proof.
  assert (Hnew : commit_is_new ∅ "downloads/Ryujinx/version_info_master.txt" Sample.commit)
    by (left; reflexivity).
  exact (multi_branch_sync_asks_for_the_repos_owner_archive Sample.env "GreemDev" "Ryujinx"
           "downloads/Ryujinx" "downloads/Ryujinx/Ryujinx_master.zip"
           "downloads/Ryujinx/version_info_master.txt" "master" ∅ Sample.commit
           eq_refl eq_refl ltac:(discriminate) eq_refl Hnew).
Defined.

(** X21. Without a branch state file, a Branch Sync of the
    single-repository script whose metadata request succeeds sends exactly
    one download request, to
    [https://github.com/{owner}/{repo}/archive/refs/heads/master.zip];
    when the archive arrives whole and the files can be written, it is
    stored as [{repo}_master.zip] in the download directory and the state
    file is created with [master,{sha}]. *)
Theorem fresh_branch_sync_downloads_and_records env cfg files commit :
  api_commit env (Single.GITHUB_API_URL cfg +:+ "/commits/master") = Success commit ->
  files !! Single.VERSION_FILE_MASTER = None ->
  let url := "https://github.com/" +:+ Single.GITHUB_OWNER cfg +:+ "/"
             +:+ Single.GITHUB_REPO cfg +:+ "/archive/refs/heads/master.zip" in
  let dest := Lib.os_path_join (Single.DOWNLOAD_DIR cfg)
                (Single.GITHUB_REPO cfg +:+ "_master.zip") in
  let r := Single.check_and_download_master env cfg files in
  List.filter is_download (events r) = [Get url true]
  /\ forall data,
       download env url = Success (Complete data) ->
       writable env dest = true ->
       writable env Single.VERSION_FILE_MASTER = true ->
       store r !! dest = Some data
       /\ store r !! Single.VERSION_FILE_MASTER = Some ("master," +:+ sha commit)
       /\ In (Log INFO (MsgDownloaded dest)) (events r).
Proof.
  intros Hc Hnone url dest r.
  destruct (single_archive_dest_is_no_state_file cfg) as (_ & Hne & _).
  pose proof (single_master_new env cfg files commit Hc (or_introl Hnone)) as Hrun.
  cbn zeta in Hrun. fold r in Hrun.
  change (single_archive_url cfg) with url in Hrun.
  change (single_archive_dest cfg) with dest in Hrun, Hne.
  split.
  - rewrite Hrun.
    destruct (download_raises env url dest); [reflexivity |].
    destruct (writable env Single.VERSION_FILE_MASTER); simpl;
      unfold download_report; by destruct (request_error _).
  - intros data Hdata Hdest Hstate.
    unfold download_raises, landed, download_report in Hrun.
    rewrite Hdata, Hdest, Hstate in Hrun. cbn [negb request_error] in Hrun.
    rewrite Hrun. cbn [store events].
    split; [rewrite lookup_insert_ne by done; apply lookup_insert_eq |].
    split; [apply lookup_insert_eq | simpl; auto 6].
Qed.

Lemma fresh_branch_sync_downloads_and_records_witness :
  let r := Single.check_and_download_master Sample.env Sample.cfg ∅ in
  List.filter is_download (events r)
  = [Get "https://github.com/GreemDev/Ryujinx/archive/refs/heads/master.zip" true]
  /\ store r !! "downloads/Ryujinx_master.zip" = Some "PK"
  /\ store r !! Single.VERSION_FILE_MASTER = Some "master,0123abc".
Proof.
  intros r.
  destruct (fresh_branch_sync_downloads_and_records Sample.env Sample.cfg ∅ Sample.commit
              eq_refl (lookup_empty _)) as [Hdl Hok].
  destruct (Hok "PK" eq_refl eq_refl eq_refl) as (Hzip & Hstate & _).
  split; [exact Hdl |]. split; [exact Hzip | exact Hstate].
Defined.
